(** * Duet3Expansion: the Move ring queries, the step interrupt entry,
      the ADC conversion sequence and the self-test driver report

    A shallow embedding of
      - [src/Movement/Move.h] (both revisions present in the sources:
        the RepRapFirmware one that still has [StartNextMove] and
        [Interrupt] inline, and the expansion-board one that adds
        [numHiccups]),
      - [src/Hardware/AnalogIn.cpp] ([AdcClass], the enable path),
      - [src/CommandProcessing/CommandProcessor.cpp]
        ([GenerateTestReport], the smart-driver block).

    Unsigned C++ integers are [Z] with the wrap-around written out,
    pointers into the DDA ring are slot numbers, a nullable pointer is an
    [option], an array is a [list] accessed with stdpp's lookup and
    insert, and every access outside an object is an explicit
    [Undefined] outcome. *)

From Stdlib Require Import ZArith Lia Ascii.
From stdpp Require Import base tactics option list strings pretty.

Local Open Scope Z_scope.

(** ** Fixed-width unsigned arithmetic *)

Definition UINT32_MOD : Z := 2 ^ 32.
Definition UINT32_MAX : Z := UINT32_MOD - 1.

(** [wrap32 z] is the value a [uint32_t] holds after the mathematical
    result [z] has been stored into it. *)
Definition wrap32 (z : Z) : Z := z mod UINT32_MOD.

Definition is_uint32 (z : Z) : Prop := 0 <= z < UINT32_MOD.

(** ** Movement/Move.h *)

Module Movement.

(** The preprocessor symbols that select the ring size in the
    RepRapFirmware revision of Move.h ([#if SAM4E || SAM4S || SAME70]). *)
Record BuildConfig : Type := mkBuildConfig {
  SAM4E : bool;
  SAM4S : bool;
  SAME70 : bool
}.

Module MainBoard.
Definition DdaRingLength (cfg : BuildConfig) : nat :=
  if SAM4E cfg || SAM4S cfg || SAME70 cfg then 30%nat else 20%nat.

(** [NumDms = DdaRingLength * 8] on the large parts, [* 5] otherwise. *)
Definition NumDms (cfg : BuildConfig) : nat :=
  if SAM4E cfg || SAM4S cfg || SAME70 cfg
  then (DdaRingLength cfg * 8)%nat
  else (DdaRingLength cfg * 5)%nat.
End MainBoard.

Module ExpansionBoard.
(** The expansion-board revision has no conditional. *)
Definition DdaRingLength : nat := 20%nat.
Definition NumDms (NumDrivers : nat) : nat := (DdaRingLength * NumDrivers)%nat.
End ExpansionBoard.

(** The two revisions of Move.h among the sources, and the constant
    [DdaRingLength] each of them defines. *)
Inductive header : Type :=
| MainBoardHeader (cfg : BuildConfig)
| ExpansionBoardHeader.

Definition DdaRingLength (h : header) : nat :=
  match h with
  | MainBoardHeader cfg => MainBoard.DdaRingLength cfg
  | ExpansionBoardHeader => ExpansionBoard.DdaRingLength
  end.

(** A [DDA*] that points into the ring is the number of the slot it
    points at. *)
Definition slot : Type := nat.

(** Modelled from the spec: [DDA.h] is not among the sources.  Move.h
    itself names [DDA::DDAState::empty] and [DDA::frozen]; the other two
    states are the ones of the lifecycle in the data model, section 3:
    empty, provisional, frozen, executing. *)
Inductive DDAState : Type :=
| empty
| provisional
| frozen
| executing.

#[global] Instance DDAState_eq_dec : EqDecision DDAState.
Proof. solve_decision. Defined.

Section Model.

(** [Timing] stands for the kinematic and timing fields of a descriptor,
    [Rest] for the data members of [Move] that none of the functions
    embedded here reads or writes (the step timer, the kinematics
    pointer, the look-ahead statistics, the live coordinates and the bed
    compensation settings). *)
Context {Timing Rest : Type}.

Record DDA : Type := mkDDA {
  GetState : DDAState;
  timing : Timing
}.

Record Move : Type := mkMove {
  ring : list DDA;                 (* the DDA objects the cursors point into *)
  currentDda : option slot;        (* DDA* volatile currentDda *)
  ddaRingAddPointer : slot;        (* DDA* ddaRingAddPointer *)
  ddaRingGetPointer : slot;        (* DDA* volatile ddaRingGetPointer *)
  ddaRingCheckPointer : slot;      (* DDA* ddaRingCheckPointer *)
  active : bool;
  idleCount : Z;                   (* unsigned int *)
  stepErrors : Z;                  (* unsigned int *)
  scheduledMoves : Z;              (* uint32_t *)
  completedMoves : Z;              (* volatile uint32_t *)
  numHiccups : Z;                  (* uint32_t, expansion-board revision *)
  rest : Rest
}.

Definition set_ring (r : list DDA) (m : Move) : Move :=
  mkMove r (currentDda m) (ddaRingAddPointer m) (ddaRingGetPointer m)
         (ddaRingCheckPointer m) (active m) (idleCount m) (stepErrors m)
         (scheduledMoves m) (completedMoves m) (numHiccups m) (rest m).

Definition set_currentDda (p : option slot) (m : Move) : Move :=
  mkMove (ring m) p (ddaRingAddPointer m) (ddaRingGetPointer m)
         (ddaRingCheckPointer m) (active m) (idleCount m) (stepErrors m)
         (scheduledMoves m) (completedMoves m) (numHiccups m) (rest m).

Definition set_ddaRingAddPointer (p : slot) (m : Move) : Move :=
  mkMove (ring m) (currentDda m) p (ddaRingGetPointer m)
         (ddaRingCheckPointer m) (active m) (idleCount m) (stepErrors m)
         (scheduledMoves m) (completedMoves m) (numHiccups m) (rest m).

Definition set_ddaRingGetPointer (p : slot) (m : Move) : Move :=
  mkMove (ring m) (currentDda m) (ddaRingAddPointer m) p
         (ddaRingCheckPointer m) (active m) (idleCount m) (stepErrors m)
         (scheduledMoves m) (completedMoves m) (numHiccups m) (rest m).

Definition set_ddaRingCheckPointer (p : slot) (m : Move) : Move :=
  mkMove (ring m) (currentDda m) (ddaRingAddPointer m) (ddaRingGetPointer m)
         p (active m) (idleCount m) (stepErrors m)
         (scheduledMoves m) (completedMoves m) (numHiccups m) (rest m).

Definition set_scheduledMoves (v : Z) (m : Move) : Move :=
  mkMove (ring m) (currentDda m) (ddaRingAddPointer m) (ddaRingGetPointer m)
         (ddaRingCheckPointer m) (active m) (idleCount m) (stepErrors m)
         v (completedMoves m) (numHiccups m) (rest m).

Definition set_completedMoves (v : Z) (m : Move) : Move :=
  mkMove (ring m) (currentDda m) (ddaRingAddPointer m) (ddaRingGetPointer m)
         (ddaRingCheckPointer m) (active m) (idleCount m) (stepErrors m)
         (scheduledMoves m) v (numHiccups m) (rest m).

Definition set_numHiccups (v : Z) (m : Move) : Move :=
  mkMove (ring m) (currentDda m) (ddaRingAddPointer m) (ddaRingGetPointer m)
         (ddaRingCheckPointer m) (active m) (idleCount m) (stepErrors m)
         (scheduledMoves m) (completedMoves m) v (rest m).

(** *** What a member function does that another context can see

    Loads and stores of the [volatile] members and calls into a
    descriptor, in program order. *)
Inductive event : Type :=
| LoadCurrentDda (v : option slot)
| StoreCurrentDda (v : option slot)
| LoadGetPointer (v : slot)
| LoadCompletedMoves (v : Z)
| StoreCompletedMoves (v : Z)
| CallGetState (d : slot)
| CallStart (d : slot) (startTime : Z)
| CallStep (d : slot) (again : bool)
| CallGetStepInterval (d : slot) (axis : nat) (microstepShift : Z).

(** A member function either returns a value in a new object state, or
    dereferences a pointer that is null or points outside the ring, or
    (for the one loop, in [Interrupt]) is still running when the fuel is
    spent. *)
Inductive outcome (A : Type) : Type :=
| Returns (a : A) (m : Move) (tr : list event)
| Undefined (tr : list event)
| OutOfFuel (tr : list event).
#[global] Arguments Returns {A} a m tr.
#[global] Arguments Undefined {A} tr.
#[global] Arguments OutOfFuel {A} tr.

Definition M (A : Type) : Type := Move → outcome A.

Definition ret {A} (a : A) : M A := λ m, Returns a m [].

Definition bind {A B} (c : M A) (k : A → M B) : M B := λ m,
  match c m with
  | Returns a m1 tr1 =>
      match k a m1 with
      | Returns b m2 tr2 => Returns b m2 (tr1 ++ tr2)
      | Undefined tr2 => Undefined (tr1 ++ tr2)
      | OutOfFuel tr2 => OutOfFuel (tr1 ++ tr2)
      end
  | Undefined tr1 => Undefined tr1
  | OutOfFuel tr1 => OutOfFuel tr1
  end.

Definition undefined {A} : M A := λ _, Undefined [].
Definition out_of_fuel {A} : M A := λ _, OutOfFuel [].

#[global] Instance M_ret : MRet M := @ret.
#[global] Instance M_bind : MBind M := λ A B k c, bind c k.

(** Short-circuit [&&]: the right operand is evaluated only when the left
    one is true. *)
Definition and_then (c1 c2 : M bool) : M bool :=
  b ← c1; if b : bool then c2 else mret false.

(** *** Primitive accesses *)

Definition load_currentDda : M (option slot) := λ m,
  Returns (currentDda m) m [LoadCurrentDda (currentDda m)].

Definition store_currentDda (p : option slot) : M unit := λ m,
  Returns () (set_currentDda p m) [StoreCurrentDda p].

Definition load_ddaRingGetPointer : M slot := λ m,
  Returns (ddaRingGetPointer m) m [LoadGetPointer (ddaRingGetPointer m)].

Definition read_ddaRingAddPointer : M slot := λ m,
  Returns (ddaRingAddPointer m) m [].

Definition read_scheduledMoves : M Z := λ m, Returns (scheduledMoves m) m [].

Definition write_scheduledMoves (v : Z) : M unit := λ m,
  Returns () (set_scheduledMoves v m) [].

Definition load_completedMoves : M Z := λ m,
  Returns (completedMoves m) m [LoadCompletedMoves (completedMoves m)].

Definition store_completedMoves (v : Z) : M unit := λ m,
  Returns () (set_completedMoves v m) [StoreCompletedMoves v].

(** [p->GetState()]: undefined when [p] does not point at a ring slot. *)
Definition call_GetState (p : slot) : M DDAState := λ m,
  match ring m !! p with
  | Some d => Returns (GetState d) m [CallGetState p]
  | None => Undefined []
  end.

(** *** The member functions of [DDA] that Move.h calls

    [DDA.cpp] is not among the sources, so the three functions are
    parameters.  [Start] and [Step] run with the whole [Move] object in
    reach (in the firmware [Step] ends a move by calling back into
    [Move]), so they transform the whole state; [GetStepInterval] is
    [const] and reads its descriptor only. *)
Class DDAMethods : Type := {
  DDA_Start : slot → Z → Move → Move * bool;
  DDA_Step : slot → Move → Move * bool;
  DDA_GetStepInterval : DDA → nat → Z → Z
}.

Context {dda_methods : DDAMethods}.

Definition call_Start (p : slot) (startTime : Z) : M bool := λ m,
  match ring m !! p with
  | Some _ =>
      let '(m', r) := DDA_Start p startTime m in
      Returns r m' [CallStart p startTime]
  | None => Undefined []
  end.

Definition call_Step (p : slot) : M bool := λ m,
  match ring m !! p with
  | Some _ =>
      let '(m', r) := DDA_Step p m in
      Returns r m' [CallStep p r]
  | None => Undefined []
  end.

Definition call_GetStepInterval (p : slot) (axis : nat) (microstepShift : Z)
  : M Z := λ m,
  match ring m !! p with
  | Some d =>
      Returns (DDA_GetStepInterval d axis microstepShift) m
              [CallGetStepInterval p axis microstepShift]
  | None => Undefined []
  end.

(** *** The inline functions of Move.h *)

(** [uint32_t GetScheduledMoves() const { return scheduledMoves; }] *)
Definition GetScheduledMoves : M Z := read_scheduledMoves.

(** [uint32_t GetCompletedMoves() const { return completedMoves; }] *)
Definition GetCompletedMoves : M Z := load_completedMoves.

(** [void ResetMoveCounters() { scheduledMoves = completedMoves = 0; }]
    The inner assignment stores 0 into [completedMoves]; its value, 0, is
    then stored into [scheduledMoves]. *)
Definition ResetMoveCounters : M unit :=
  store_completedMoves 0;;
  write_scheduledMoves 0.

(** [const DDA *GetCurrentDDA() const { return currentDda; }] *)
Definition GetCurrentDDA : M (option slot) := load_currentDda.

(** [return ddaRingGetPointer == ddaRingAddPointer
            && ddaRingAddPointer->GetState() == DDA::DDAState::empty;] *)
Definition DDARingEmpty : M bool :=
  and_then
    (g ← load_ddaRingGetPointer;
     a ← read_ddaRingAddPointer;
     mret (bool_decide (g = a)))
    (a ← read_ddaRingAddPointer;
     s ← call_GetState a;
     mret (bool_decide (s = empty))).

(** [return DDARingEmpty() && currentDda == nullptr;] *)
Definition NoLiveMovement : M bool :=
  and_then
    DDARingEmpty
    (cd ← load_currentDda;
     mret (bool_decide (cd = None))).

(** [return NoLiveMovement();] *)
Definition AllMovesAreFinished : M bool := NoLiveMovement.

(** [currentDda = ddaRingGetPointer; return currentDda->Start(startTime);]
    The annotation [pre(ddaRingGetPointer->GetState() == DDA::frozen)] is
    not executed; it is the hypothesis of the theorem about this
    function. *)
Definition StartNextMove (startTime : Z) : M bool :=
  g ← load_ddaRingGetPointer;
  store_currentDda (Some g);;
  cd ← load_currentDda;
  match cd with
  | Some d => call_Start d startTime
  | None => undefined
  end.

(** The body of [do { } while (currentDda->Step());]: every evaluation
    of the loop condition loads [currentDda] again and calls [Step] on
    what it finds. *)
Fixpoint Interrupt_loop (fuel : nat) : M unit :=
  match fuel with
  | O => out_of_fuel
  | S fuel' =>
      cd ← load_currentDda;
      match cd with
      | Some d =>
          again ← call_Step d;
          if again : bool then Interrupt_loop fuel' else mret ()
      | None => undefined
      end
  end.

(** [if (currentDda != nullptr) { do { } while (currentDda->Step()); }] *)
Definition Interrupt (fuel : nat) : M unit :=
  cd ← load_currentDda;
  if bool_decide (cd ≠ None) then Interrupt_loop fuel else mret ().

(** [const DDA * const cdda = currentDda;
     return (cdda != nullptr) ? cdda->GetStepInterval(axis, microstepShift) : 0;] *)
Definition GetStepInterval (axis : nat) (microstepShift : Z) : M Z :=
  cdda ← load_currentDda;
  match cdda with
  | Some d => call_GetStepInterval d axis microstepShift
  | None => mret 0
  end.

(** Modelled from the spec: [GetAndClearHiccups] is declared in the
    expansion-board Move.h and defined in Move.cpp, which is not among the
    sources.  Section 6 lists it with the hiccup counter of section 3;
    as its name says it returns the count and clears it. *)
Definition GetAndClearHiccups : M Z := λ m,
  Returns (numHiccups m) (set_numHiccups 0 m) [].

(** The poll-until-true caller of [AllMovesAreFinished]: [n] calls in a
    row, results in call order. *)
Fixpoint poll (n : nat) : M (list bool) :=
  match n with
  | O => mret []
  | S n' =>
      b ← AllMovesAreFinished;
      bs ← poll n';
      mret (b :: bs)
  end.

(** Events that leave every object as it was: loads, and calls of
    [const] member functions. *)
Definition is_read (e : event) : bool :=
  match e with
  | LoadCurrentDda _ | LoadGetPointer _ | LoadCompletedMoves _
  | CallGetState _ | CallGetStepInterval _ _ _ => true
  | StoreCurrentDda _ | StoreCompletedMoves _
  | CallStart _ _ | CallStep _ _ => false
  end.

(** The results of the [Step] calls in a trace, in call order. *)
Definition step_results (tr : list event) : list bool :=
  omap (λ e, match e with CallStep _ r => Some r | _ => None end) tr.

(** The values loaded from [currentDda] in a trace. *)
Definition currentDda_loads (tr : list event) : list (option slot) :=
  omap (λ e, match e with LoadCurrentDda v => Some v | _ => None end) tr.

(** The values stored into [currentDda] in a trace. *)
Definition currentDda_stores (tr : list event) : list (option slot) :=
  omap (λ e, match e with StoreCurrentDda v => Some v | _ => None end) tr.

(** The events of the rounds of the loop in [Interrupt], one round for
    each call [(d, again)] of [Step]: the load of [currentDda] that gave
    [d], then the call. *)
Definition step_rounds (calls : list (slot * bool)) : list event :=
  mjoin ((λ c : slot * bool, [LoadCurrentDda (Some c.1); CallStep c.1 c.2])
           <$> calls).

(** [StepsUntilFalse m k m']: starting in [m], the first [k] calls of
    [currentDda->Step()] return true, the next one returns false and
    leaves the state [m']. *)
Inductive StepsUntilFalse : Move → nat → Move → Prop :=
| suf_last m d m' :
    currentDda m = Some d → is_Some (ring m !! d) →
    DDA_Step d m = (m', false) →
    StepsUntilFalse m 0 m'
| suf_more m d m1 k m' :
    currentDda m = Some d → is_Some (ring m !! d) →
    DDA_Step d m = (m1, true) →
    StepsUntilFalse m1 k m' →
    StepsUntilFalse m (S k) m'.

(** *** The ring operations that live in Move.cpp *)

(** The slot after [p], going round the ring. *)
Definition next_slot (m : Move) (p : slot) : slot :=
  (S p mod length (ring m))%nat.

(** Modelled from the spec: [DDARingAdd] is declared in Move.h and
    defined in Move.cpp, which is not among the sources.  Section 4.1,
    [TryEnqueue]: fails (returns false, no side effect) if the slot at
    the add cursor is not [empty]; on success populates a new
    [provisional] descriptor from the request and advances add. *)
Definition TryEnqueue (requestedMove : Timing) (m : Move) : Move * bool :=
  match ring m !! ddaRingAddPointer m with
  | Some d =>
      if bool_decide (GetState d = empty) then
        (set_ddaRingAddPointer (next_slot m (ddaRingAddPointer m))
           (set_ring (<[ddaRingAddPointer m := mkDDA provisional requestedMove]>
                        (ring m)) m),
         true)
      else (m, false)
  | None => (m, false)
  end.

(** Modelled from the spec: the look-ahead pass is in Move.cpp and
    DDA.cpp, not among the sources.  Section 4.2: a forward check that
    freezes descriptors, in ring order, at the check cursor; the state
    write is the only change made to the ring (the revision of speeds
    inside a provisional descriptor is left out: it moves no descriptor
    to another slot). *)
Definition Freeze (m : Move) : Move :=
  match ring m !! ddaRingCheckPointer m with
  | Some d =>
      if bool_decide (GetState d = provisional) then
        set_ddaRingCheckPointer (next_slot m (ddaRingCheckPointer m))
          (set_ring (<[ddaRingCheckPointer m := mkDDA frozen (timing d)]>
                       (ring m)) m)
      else m
  | None => m
  end.

(** Modelled from the spec: [DDARingGet] is declared in Move.h and
    defined in Move.cpp.  Section 4.1, [PeekForExecution]: returns the
    descriptor at get only if its state is [frozen]. *)
Definition PeekForExecution (m : Move) : option slot :=
  match ring m !! ddaRingGetPointer m with
  | Some d =>
      if bool_decide (GetState d = frozen) then Some (ddaRingGetPointer m)
      else None
  | None => None
  end.

(** Modelled from the spec: [CurrentMoveCompleted] is declared in Move.h
    and defined in Move.cpp.  Section 4.4: signals move completion
    (increments the completed-move counter, clears [currentDda]).  The
    counter is the [volatile uint32_t completedMoves] of Move.h, so the
    increment wraps at 2^32. *)
Definition CurrentMoveCompleted (m : Move) : Move :=
  set_currentDda None (set_completedMoves (wrap32 (completedMoves m + 1)) m).

(** Modelled from the spec: section 4.1, [Reclaim]: called after a
    descriptor finishes executing; resets it to [empty] and advances
    get. *)
Definition Reclaim (m : Move) : Move :=
  match ring m !! ddaRingGetPointer m with
  | Some d =>
      set_ddaRingGetPointer (next_slot m (ddaRingGetPointer m))
        (set_ring (<[ddaRingGetPointer m := mkDDA empty (timing d)]> (ring m)) m)
  | None => m
  end.

(** Modelled from the spec: [StopDrivers] is declared in the
    expansion-board Move.h and defined in Move.cpp, which is not among
    the sources.  Section 5, cancellation: it resets [currentDda] to none
    and the ring to empty, discarding in-flight planning state.  Every
    descriptor is set to [empty]; an empty ring has its add cursor on its
    get cursor ([DDARingEmpty]), so the add and the check cursor are put
    on the get cursor.  The counters are not mentioned and are left as
    they are; [whichDrivers] selects the outputs that are disabled, which
    are not part of this object. *)
Definition StopDrivers (whichDrivers : Z) (m : Move) : Move :=
  set_currentDda None
    (set_ddaRingCheckPointer (ddaRingGetPointer m)
       (set_ddaRingAddPointer (ddaRingGetPointer m)
          (set_ring ((λ d, mkDDA empty (timing d)) <$> ring m) m))).

(** Modelled from the spec: [Init] is declared in Move.h and defined in
    Move.cpp.  Section 4.5: [Init] allocates the ring; section 3: the
    ring is a fixed-capacity array of descriptors, whose lifecycle starts
    in [empty].  The ring gets [capacity] descriptors, all [empty],
    nothing executes and the three cursors are on the first slot.
    [blank] is what a fresh descriptor holds and [raw] the storage the
    object is set up in: the members the spec does not mention keep what
    the storage held. *)
Definition Init (capacity : nat) (blank : Timing) (raw : Move) : Move :=
  mkMove (replicate capacity (mkDDA empty blank)) None 0%nat 0%nat 0%nat
         (active raw) (idleCount raw) (stepErrors raw)
         (scheduledMoves raw) (completedMoves raw) (numHiccups raw)
         (rest raw).

(** The [i]-th slot from the get cursor, going round the ring. *)
Definition slot_from_get (m : Move) (i : nat) : slot :=
  ((ddaRingGetPointer m + i) mod length (ring m))%nat.

(** The moves that are in the ring: the contents of the descriptors
    that are not [empty], from the get cursor round the ring. *)
Definition pending_moves (m : Move) : list Timing :=
  omap (λ i, d ← ring m !! slot_from_get m i;
             if bool_decide (GetState d = empty) then None
             else Some (timing d))
       (seq 0 (length (ring m))).

(** What the task and the interrupt do to the ring, one action at a time,
    and what an observer records: which requests were accepted, which
    descriptors completed and which were discarded, in order, and when
    the counters were reset. *)
Inductive action : Type :=
| Enqueue (requestedMove : Timing)
| LookAhead
| StartNext (startTime : Z)
| Complete
| ResetCounters
| Stop (whichDrivers : Z).

Inductive observation : Type :=
| Accepted (requestedMove : Timing)
| Completed (finished : Timing)
| Discarded (dropped : Timing)
| CountersReset.

(** Modelled from the spec: section 4.4 and section 2, data flow.  A
    request is enqueued; the planner freezes; the scheduler, when nothing
    is executing, promotes the descriptor [PeekForExecution] yields with
    [StartNextMove] (the function of Move.h); when the executing
    descriptor is exhausted the scheduler signals completion and
    reclaims the slot.  The counters are reset with [ResetMoveCounters]
    (the function of Move.h), and [StopDrivers] discards what is in the
    ring. *)
Definition perform (a : action) (m : Move) : Move * list observation :=
  match a with
  | Enqueue r =>
      let '(m', ok) := TryEnqueue r m in
      (m', if ok : bool then [Accepted r] else [])
  | LookAhead => (Freeze m, [])
  | StartNext startTime =>
      match currentDda m, PeekForExecution m with
      | None, Some _ =>
          match StartNextMove startTime m with
          | Returns _ m' _ => (m', [])
          | _ => (m, [])
          end
      | _, _ => (m, [])
      end
  | Complete =>
      match currentDda m with
      | Some c =>
          match ring m !! c with
          | Some d => (Reclaim (CurrentMoveCompleted m), [Completed (timing d)])
          | None => (m, [])
          end
      | None => (m, [])
      end
  | ResetCounters =>
      match ResetMoveCounters m with
      | Returns _ m' _ => (m', [CountersReset])
      | _ => (m, [])
      end
  | Stop whichDrivers =>
      (StopDrivers whichDrivers m, Discarded <$> pending_moves m)
  end.

Fixpoint run (acts : list action) (m : Move) : Move * list observation :=
  match acts with
  | [] => (m, [])
  | a :: acts' =>
      let '(m1, obs1) := perform a m in
      let '(m2, obs2) := run acts' m1 in
      (m2, obs1 ++ obs2)
  end.

Definition accepted (obs : list observation) : list Timing :=
  omap (λ o, match o with Accepted r => Some r | _ => None end) obs.

Definition completed (obs : list observation) : list Timing :=
  omap (λ o, match o with Completed r => Some r | _ => None end) obs.





End Model.

#[global] Arguments DDA : clear implicits.
#[global] Arguments Move : clear implicits.
#[global] Arguments event : clear implicits.
#[global] Arguments outcome : clear implicits.
#[global] Arguments M : clear implicits.
#[global] Arguments DDAMethods : clear implicits.
#[global] Arguments action : clear implicits.
#[global] Arguments observation : clear implicits.

(** *** A small executable descriptor, for the examples

    [timing] is the number of step events the move still has to emit.
    [Start] marks the descriptor [executing] and asks for an immediate
    [Step]; [Step] emits one event and says whether more are due now;
    the step interval of an axis is the count scaled down by the
    microstep shift. *)
Module Demo.
Definition set_slot (p : slot) (d : DDA nat) (m : Move nat unit)
  : Move nat unit :=
  set_ring (<[p := d]> (ring m)) m.

Definition Start (p : slot) (startTime : Z) (m : Move nat unit)
  : Move nat unit * bool :=
  match ring m !! p with
  | Some d => (set_slot p (mkDDA executing (timing d)) m, true)
  | None => (m, false)
  end.

Definition Step (p : slot) (m : Move nat unit) : Move nat unit * bool :=
  match ring m !! p with
  | Some d =>
      (set_slot p (mkDDA (GetState d) (Nat.pred (timing d))) m,
       bool_decide (1 < timing d)%nat)
  | None => (m, false)
  end.

Definition StepInterval (d : DDA nat) (axis : nat) (microstepShift : Z) : Z :=
  wrap32 (Z.shiftr (Z.of_nat (timing d) + Z.of_nat axis) microstepShift).

#[global] Instance methods : DDAMethods nat unit :=
  {| DDA_Start := Start; DDA_Step := Step; DDA_GetStepInterval := StepInterval |}.

(** Three slots: one frozen move of three step events at the get
    cursor, one provisional move behind it, one free slot. *)
Definition queued : Move nat unit :=
  mkMove [mkDDA frozen 3%nat; mkDDA provisional 5%nat; mkDDA empty 0%nat]
         None 2%nat 0%nat 1%nat true 0 0 2 0 7 ().

(** The same ring with the move at the get cursor being executed. *)
Definition running : Move nat unit :=
  mkMove [mkDDA executing 3%nat; mkDDA provisional 5%nat; mkDDA empty 0%nat]
         (Some 0%nat) 2%nat 0%nat 1%nat true 0 0 2 0 7 ().

(** A full ring: the cursors meet on a descriptor that is not empty. *)
Definition full : Move nat unit :=
  mkMove [mkDDA frozen 3%nat; mkDDA provisional 5%nat; mkDDA provisional 4%nat]
         None 0%nat 0%nat 1%nat true 0 0 3 0 0 ().

(** An empty ring of three slots, nothing executing, with the
    completed-move counter at a chosen value. *)
Definition idle (completed : Z) : Move nat unit :=
  mkMove [mkDDA empty 0%nat; mkDDA empty 0%nat; mkDDA empty 0%nat]
         None 0%nat 0%nat 0%nat true 0 0 0 completed 0 ().

(** [running] after its three step events have been emitted. *)
Definition stepped : Move nat unit :=
  set_slot 0%nat (mkDDA executing 0%nat) running.


(** Two requests, planned, run and completed one after the other, and a
    third one accepted in between. *)
Definition session : list (action nat) :=
  [Enqueue 3%nat; Enqueue 5%nat; LookAhead; StartNext 100; Complete;
   Enqueue 7%nat; LookAhead; StartNext 200; Complete].

(** One request taken through its whole life. *)
Definition one_move : list (action nat) :=
  [Enqueue 3%nat; LookAhead; StartNext 100; Complete].

(** A move completed, two more queued and one of them started when
    [StopDrivers] discards them; then the counters are reset and another
    move runs to completion. *)
Definition stopped_session : list (action nat) :=
  [Enqueue 3%nat; LookAhead; StartNext 100; Complete;
   Enqueue 5%nat; Enqueue 7%nat; LookAhead; StartNext 200; Stop 1;
   ResetCounters;
   Enqueue 9%nat; LookAhead; StartNext 300; Complete].
End Demo.

End Movement.

(** ** Hardware/AnalogIn.cpp: [AdcClass], the enable path *)

Module AnalogIn.

Inductive State : Type :=
| noChannels
| starting
| idle
| converting
| ready.

#[global] Instance State_eq_dec : EqDecision State.
Proof. solve_decision. Defined.

Definition NumAdcChannels : Z := 32.
Definition MaxSequenceLength : Z := 16.

(** [arr[i] = v]: [None] when [i] is outside the array. *)
Definition store {A} (arr : list A) (i : Z) (v : A) : option (list A) :=
  if bool_decide (0 ≤ i < Z.of_nat (length arr))
  then Some (<[Z.to_nat i := v]> arr)
  else None.

Section Adc.

(** [Fn] is the type of callback function pointers, [Param] that of
    [CallbackParameter], [Task] that of [TaskBase] pointers and [HW] the
    state of the peripherals (ADC, DMAC and SUPC registers). *)
Context {Fn Param Task HW : Type}.

(** Register constants of the device header, which is not among the
    sources, and the register writes of the block that runs when the
    first channel is enabled (AnalogIn.cpp lines 130 to 194), as one
    transformer of the peripherals. *)
Variable ADC_INPUTCTRL_MUXPOS_PTAT_Val : Z.
Variable ADC_INPUTCTRL_MUXNEG_GND : Z.
Variable ADC_REFCTRL_REFSEL_INTVCC1 : Z.
Variable InitialiseAdc : HW → HW.
Variable param0 : Param.           (* a [CallbackParameter] with [u32 == 0] *)

Record AdcClass : Type := mkAdc {
  numChannelsEnabled : Z;                    (* size_t *)
  channelsEnabled : Z;                       (* uint32_t *)
  taskToWake : option Task;
  state : State;
  justStarted : bool;
  callbackFunctions : list (option Fn);      (* [MaxSequenceLength] *)
  callbackParams : list Param;               (* [MaxSequenceLength] *)
  ticksPerCall : list Z;                     (* [MaxSequenceLength] *)
  ticksAtLastCall : list Z;                  (* [MaxSequenceLength] *)
  inputRegisters : list Z;                   (* [MaxSequenceLength * 2] *)
  results : list Z;                          (* [MaxSequenceLength] *)
  resultsByChannel : list Z                  (* [32] *)
}.

(** Every array has the length it is declared with. *)
Definition sized (a : AdcClass) : Prop :=
  length (callbackFunctions a) = 16%nat
  ∧ length (callbackParams a) = 16%nat
  ∧ length (ticksPerCall a) = 16%nat
  ∧ length (ticksAtLastCall a) = 16%nat
  ∧ length (inputRegisters a) = 32%nat
  ∧ length (results a) = 16%nat
  ∧ length (resultsByChannel a) = 32%nat.

(** The constructor.  [raw] is the storage the object is built in: the
    members the constructor does not mention keep what the storage held.
    The loop [for (i = 0; i < MaxSequenceLength; ++i)] clears the first
    16 entries of each of the three arrays it names. *)
Definition construct (raw : AdcClass) : AdcClass :=
  mkAdc 0 0 None noChannels (justStarted raw)
        (replicate 16 None ++ drop 16 (callbackFunctions raw))
        (replicate 16 param0 ++ drop 16 (callbackParams raw))
        (ticksPerCall raw) (ticksAtLastCall raw) (inputRegisters raw)
        (results raw)
        (replicate 16 0 ++ drop 16 (resultsByChannel raw)).

(** [InternalEnableChannel].  [now] is what [millis()] returns.  The
    result is [None] when one of the array writes falls outside its
    array. *)
Definition InternalEnableChannel (chan refCtrl : Z) (fn : option Fn)
    (param : Param) (p_ticksPerCall now : Z) (a : AdcClass) (hw : HW)
  : option (bool * AdcClass * HW) :=
  if bool_decide (chan < 32) then
    let n := numChannelsEnabled a in
    cf ← store (callbackFunctions a) n fn;
    cp ← store (callbackParams a) n param;
    tp ← store (ticksPerCall a) n p_ticksPerCall;
    tl ← store (ticksAtLastCall a) n now;
    ir0 ← store (inputRegisters a) (n * 2)
                (Z.lor ADC_INPUTCTRL_MUXNEG_GND chan);
    ir ← store ir0 (n * 2 + 1) refCtrl;
    rb ← store (resultsByChannel a) chan 0;
    let n' := wrap32 (n + 1) in
    let ce := Z.lor (channelsEnabled a) (wrap32 (Z.shiftl 1 chan)) in
    if bool_decide (n' = 1) then
      Some (true,
            mkAdc n' ce (taskToWake a) starting (justStarted a)
                  cf cp tp tl ir (results a) rb,
            InitialiseAdc hw)
    else
      Some (true,
            mkAdc n' ce (taskToWake a) (state a) (justStarted a)
                  cf cp tp tl ir (results a) rb,
            hw)
  else Some (false, a, hw).

(** [EnableChannel] *)
Definition EnableChannel (chan : Z) (fn : option Fn) (param : Param)
    (p_ticksPerCall now : Z) (a : AdcClass) (hw : HW)
  : option (bool * AdcClass * HW) :=
  if bool_decide (numChannelsEnabled a = MaxSequenceLength)
     || bool_decide (chan >= MaxSequenceLength)
  then Some (false, a, hw)
  else InternalEnableChannel chan (ADC_REFCTRL_REFSEL_INTVCC1 mod 256)
                             fn param p_ticksPerCall now a hw.

(** [IsChannelEnabled] *)
Definition IsChannelEnabled (chan : Z) (a : AdcClass) : bool :=
  bool_decide (Z.land (channelsEnabled a) (wrap32 (Z.shiftl 1 chan)) ≠ 0).

(** [EnableTemperatureSensor] *)
Definition EnableTemperatureSensor (sensorNumber : Z) (fn : option Fn)
    (param : Param) (p_ticksPerCall now : Z) (a : AdcClass) (hw : HW)
  : option (bool * AdcClass * HW) :=
  if bool_decide (numChannelsEnabled a = MaxSequenceLength)
     || bool_decide (sensorNumber >= 2)
  then Some (false, a, hw)
  else InternalEnableChannel
         (wrap32 (sensorNumber + ADC_INPUTCTRL_MUXPOS_PTAT_Val))
         (ADC_REFCTRL_REFSEL_INTVCC1 mod 256)
         fn param p_ticksPerCall now a hw.

(** One call of either public enable function, with its arguments and
    the time [millis()] shows during it. *)
Inductive call : Type :=
| CallEnableChannel (chan : Z) (fn : option Fn) (param : Param)
                    (p_ticksPerCall now : Z)
| CallEnableTemperatureSensor (sensorNumber : Z) (fn : option Fn)
                              (param : Param) (p_ticksPerCall now : Z).

(** The argument that selects the input is an [unsigned int]. *)
Definition call_typed (c : call) : Prop :=
  match c with
  | CallEnableChannel chan _ _ _ _ => is_uint32 chan
  | CallEnableTemperatureSensor sensorNumber _ _ _ _ => is_uint32 sensorNumber
  end.

Definition do_call (c : call) (a : AdcClass) (hw : HW)
  : option (bool * AdcClass * HW) :=
  match c with
  | CallEnableChannel chan fn param t now =>
      EnableChannel chan fn param t now a hw
  | CallEnableTemperatureSensor sensorNumber fn param t now =>
      EnableTemperatureSensor sensorNumber fn param t now a hw
  end.

(** A sequence of calls, oldest first; the results in call order. *)
Fixpoint do_calls (cs : list call) (a : AdcClass) (hw : HW)
  : option (list bool * AdcClass * HW) :=
  match cs with
  | [] => Some ([], a, hw)
  | c :: cs' =>
      '(r, a1, hw1) ← do_call c a hw;
      '(rs, a2, hw2) ← do_calls cs' a1 hw1;
      Some (r :: rs, a2, hw2)
  end.

(** The sequence is within its bound and the arrays have their sizes. *)
Definition within_bounds (a : AdcClass) : Prop :=
  sized a ∧ 0 ≤ numChannelsEnabled a ≤ MaxSequenceLength.

(** The cases in which an enable call has to be refused: the sequence
    is full, or the number that selects the input is out of range. *)
Definition refused (c : call) (a : AdcClass) : Prop :=
  numChannelsEnabled a = MaxSequenceLength
  ∨ match c with
    | CallEnableChannel chan _ _ _ _ => MaxSequenceLength ≤ chan
    | CallEnableTemperatureSensor sensorNumber _ _ _ _ => 2 ≤ sensorNumber
    end.

(** *** The other member functions of [AdcClass] *)

(** [arr[i]] read: [None] when [i] is outside the array. *)
Definition load {A} (arr : list A) (i : Z) : option A :=
  if bool_decide (0 ≤ i) then arr !! Z.to_nat i else None.

(** [size_t GetChannel(size_t slot) { return inputRegisters[2 * slot] & 0x1F; }] *)
Definition GetChannel (slot : Z) (a : AdcClass) : option Z :=
  r ← load (inputRegisters a) (2 * slot);
  Some (Z.land r 0x1F).

(** [uint16_t ReadChannel(unsigned int chan) const { return resultsByChannel[chan]; }] *)
Definition ReadChannel (chan : Z) (a : AdcClass) : option Z :=
  load (resultsByChannel a) chan.

(** [State GetState() const { return state; }] *)
Definition GetState (a : AdcClass) : State := state a.

(** The DMA set-up of [StartConversion] (the read of [RESULT] and the
    six [Dmac...] calls, AnalogIn.cpp lines 212 to 222), which depends on
    the number of channels, and the [DmacDisableChannel] of
    [ResultReadyCallback], as transformers of the peripherals. *)
Variable StartDma : Z → HW → HW.
Variable DisableSequencerDma : HW → HW.

(** [StartConversion].  [started] is the file-level counter
    [conversionsStarted]. *)
Definition StartConversion (p_taskToWake : option Task)
    (a : AdcClass) (hw : HW) (started : Z) : bool * AdcClass * HW * Z :=
  if bool_decide (numChannelsEnabled a = 0)
     || bool_decide (state a = converting)
  then (false, a, hw, started)
  else (true,
        mkAdc (numChannelsEnabled a) (channelsEnabled a) p_taskToWake
              converting (justStarted a)
              (callbackFunctions a) (callbackParams a) (ticksPerCall a)
              (ticksAtLastCall a) (inputRegisters a) (results a)
              (resultsByChannel a),
        StartDma (numChannelsEnabled a) hw,
        wrap32 (started + 1)).

(** One round of the loop of [ExecuteCallbacks], for slot [i]; [called]
    lists the callbacks invoked so far with their two arguments. *)
Definition ExecuteCallbacks_slot (now i : Z)
    (st : AdcClass * list (Fn * Param * Z))
  : option (AdcClass * list (Fn * Param * Z)) :=
  let '(a, called) := st in
  ch ← GetChannel i a;
  r ← load (results a) i;
  rb ← store (resultsByChannel a) ch r;
  tl ← load (ticksAtLastCall a) i;
  tp ← load (ticksPerCall a) i;
  if bool_decide (wrap32 (now - tl) >= tp) then
    tl' ← store (ticksAtLastCall a) i now;
    cf ← load (callbackFunctions a) i;
    let a' := mkAdc (numChannelsEnabled a) (channelsEnabled a) (taskToWake a)
                    (state a) (justStarted a)
                    (callbackFunctions a) (callbackParams a) (ticksPerCall a)
                    tl' (inputRegisters a) (results a) rb in
    match cf with
    | Some fn =>
        cp ← load (callbackParams a) i;
        r' ← load (results a) i;
        Some (a', called ++ [(fn, cp, r')])
    | None => Some (a', called)
    end
  else
    Some (mkAdc (numChannelsEnabled a) (channelsEnabled a) (taskToWake a)
                (state a) (justStarted a)
                (callbackFunctions a) (callbackParams a) (ticksPerCall a)
                (ticksAtLastCall a) (inputRegisters a) (results a) rb,
          called).

(** [for (size_t i = 0; i < numChannelsEnabled; ++i)]: [count] rounds
    from slot [i] on. *)
Fixpoint ExecuteCallbacks_from (count : nat) (now i : Z)
    (st : AdcClass * list (Fn * Param * Z))
  : option (AdcClass * list (Fn * Param * Z)) :=
  match count with
  | O => Some st
  | S count' =>
      st' ← ExecuteCallbacks_slot now i st;
      ExecuteCallbacks_from count' now (i + 1) st'
  end.

(** [ExecuteCallbacks].  [now] is what [millis()] returns. *)
Definition ExecuteCallbacks (now : Z) (a : AdcClass)
  : option (AdcClass * list (Fn * Param * Z)) :=
  ExecuteCallbacks_from (Z.to_nat (numChannelsEnabled a)) now 0 (a, []).

(** [ResultReadyCallback].  [completed] is the file-level counter
    [conversionsCompleted]; the last component is the task that is given
    a notification, if any. *)
Definition ResultReadyCallback (a : AdcClass) (hw : HW) (completed : Z)
  : AdcClass * HW * Z * option Task :=
  (mkAdc (numChannelsEnabled a) (channelsEnabled a) (taskToWake a)
         ready (justStarted a)
         (callbackFunctions a) (callbackParams a) (ticksPerCall a)
         (ticksAtLastCall a) (inputRegisters a) (results a)
         (resultsByChannel a),
   DisableSequencerDma hw,
   wrap32 (completed + 1),
   taskToWake a).

(** The [switch] that [AinLoop] runs for one ADC: in state [ready] the
    callbacks are executed and control falls through to the conversion
    start of [idle] and [starting]; the boolean is [conversionStarted],
    which is set whatever [StartConversion] returned. *)
Definition AinLoop_service (now : Z) (analogInTask : Task)
    (a : AdcClass) (hw : HW) (started : Z)
  : option (bool * AdcClass * HW * Z * list (Fn * Param * Z)) :=
  match GetState a with
  | ready =>
      '(a1, called) ← ExecuteCallbacks now a;
      let '(_, a2, hw2, started2) :=
        StartConversion (Some analogInTask) a1 hw started in
      Some (true, a2, hw2, started2, called)
  | idle | starting =>
      let '(_, a2, hw2, started2) :=
        StartConversion (Some analogInTask) a hw started in
      Some (true, a2, hw2, started2, [])
  | noChannels | converting => Some (false, a, hw, started, [])
  end.

(** The object together with what its member functions reach outside
    it: the peripherals, the two file-level counters, the callbacks
    invoked and the tasks notified, oldest first. *)
Record World : Type := mkWorld {
  adc : AdcClass;
  peripherals : HW;
  conversionsStarted : Z;
  conversionsCompleted : Z;
  called : list (Fn * Param * Z);
  woken : list Task
}.

(** Any use of the object after construction. *)
Inductive operation : Type :=
| OpEnable (c : call)
| OpStartConversion (p_taskToWake : option Task)
| OpExecuteCallbacks (now : Z)
| OpResultReady
| OpService (now : Z) (analogInTask : Task).

Definition operation_typed (op : operation) : Prop :=
  match op with
  | OpEnable c => call_typed c
  | _ => True
  end.

Definition apply_operation (op : operation) (w : World) : option World :=
  match op with
  | OpEnable c =>
      '(_, a, hw) ← do_call c (adc w) (peripherals w);
      Some (mkWorld a hw (conversionsStarted w) (conversionsCompleted w)
                    (called w) (woken w))
  | OpStartConversion t =>
      let '(_, a, hw, n) :=
        StartConversion t (adc w) (peripherals w) (conversionsStarted w) in
      Some (mkWorld a hw n (conversionsCompleted w) (called w) (woken w))
  | OpExecuteCallbacks now =>
      '(a, cs) ← ExecuteCallbacks now (adc w);
      Some (mkWorld a (peripherals w) (conversionsStarted w)
                    (conversionsCompleted w) (called w ++ cs) (woken w))
  | OpResultReady =>
      let '(a, hw, n, t) :=
        ResultReadyCallback (adc w) (peripherals w) (conversionsCompleted w) in
      Some (mkWorld a hw (conversionsStarted w) n (called w)
                    (woken w ++ match t with Some t' => [t'] | None => [] end))
  | OpService now t =>
      '(_, a, hw, n, cs) ←
        AinLoop_service now t (adc w) (peripherals w) (conversionsStarted w);
      Some (mkWorld a hw n (conversionsCompleted w) (called w ++ cs) (woken w))
  end.

Fixpoint apply_operations (ops : list operation) (w : World) : option World :=
  match ops with
  | [] => Some w
  | op :: ops' => w' ← apply_operation op w; apply_operations ops' w'
  end.

(** The world right after the constructor has run on [raw]. *)
Definition constructed (raw : AdcClass) (hw : HW) : World :=
  mkWorld (construct raw) hw 0 0 [] [].

(** The callback that is due for slot [i] at time [now], read off the
    arrays: the interval of the slot has elapsed and its function
    pointer is not null; with the parameter and the result of the slot. *)
Definition due_callback (now : Z) (a : AdcClass) (i : nat)
  : option (Fn * Param * Z) :=
  tl ← ticksAtLastCall a !! i;
  tp ← ticksPerCall a !! i;
  cf ← callbackFunctions a !! i;
  cp ← callbackParams a !! i;
  r ← results a !! i;
  if bool_decide (wrap32 (now - tl) >= tp)
  then (λ fn, (fn, cp, r)) <$> cf
  else None.

(** The callbacks due at time [now], for the slots below
    [numChannelsEnabled] in slot order. *)
Definition due_callbacks (now : Z) (a : AdcClass) : list (Fn * Param * Z) :=
  omap (due_callback now a) (seq 0 (Z.to_nat (numChannelsEnabled a))).

(** The ADC input a call asks for: the channel itself, or the input of
    the temperature sensor, [sensorNumber + ADC_INPUTCTRL_MUXPOS_PTAT_Val]
    in [unsigned int] arithmetic. *)
Definition selected_channel (c : call) : Z :=
  match c with
  | CallEnableChannel chan _ _ _ _ => chan
  | CallEnableTemperatureSensor sensorNumber _ _ _ _ =>
      wrap32 (sensorNumber + ADC_INPUTCTRL_MUXPOS_PTAT_Val)
  end.

(** The callback, its parameter, the interval and the time of a call. *)
Definition call_callback (c : call) : option Fn * Param * Z * Z :=
  match c with
  | CallEnableChannel _ fn param t now => (fn, param, t, now)
  | CallEnableTemperatureSensor _ fn param t now => (fn, param, t, now)
  end.

(** [a'] differs from [a] at most in the contents of [ticksAtLastCall]
    and [resultsByChannel]. *)
Definition only_readings_change (a a' : AdcClass) : Prop :=
  numChannelsEnabled a' = numChannelsEnabled a
  ∧ channelsEnabled a' = channelsEnabled a
  ∧ taskToWake a' = taskToWake a
  ∧ state a' = state a
  ∧ justStarted a' = justStarted a
  ∧ callbackFunctions a' = callbackFunctions a
  ∧ callbackParams a' = callbackParams a
  ∧ ticksPerCall a' = ticksPerCall a
  ∧ inputRegisters a' = inputRegisters a
  ∧ results a' = results a
  ∧ length (ticksAtLastCall a') = length (ticksAtLastCall a)
  ∧ length (resultsByChannel a') = length (resultsByChannel a).

(** Once a channel is enabled the ADC is not in state [noChannels]. *)
Definition serviceable (a : AdcClass) : Prop :=
  0 < numChannelsEnabled a → state a ≠ noChannels.

(** The channel bitmap and the conversion sequence name the same
    channels. *)
Definition bitmap_matches_sequence (a : AdcClass) : Prop :=
  ∀ chan, 0 ≤ chan < 32 →
    (IsChannelEnabled chan a = true
     ↔ ∃ slot, 0 ≤ slot < numChannelsEnabled a
               ∧ GetChannel slot a = Some chan).

(** [a'] has the conversion sequence of [a], possibly with more slots
    at its end, and at least the channels of [a] enabled. *)
Definition sequence_extended (a a' : AdcClass) : Prop :=
  numChannelsEnabled a ≤ numChannelsEnabled a'
  ∧ (∀ slot, 0 ≤ slot < numChannelsEnabled a →
       GetChannel slot a' = GetChannel slot a)
  ∧ (∀ chan, 0 ≤ chan < 32 →
       IsChannelEnabled chan a = true → IsChannelEnabled chan a' = true).

(** *** The functions of namespace [AnalogIn]

    [Adcs], the array of ADC instances, is a list of [AdcClass].  The
    type [AdcInput] (whose value [AdcInput::none] is [None] here),
    [PinTable], [IoPort::PinToAdcInput], [IoPort::SetPinMode],
    [GetDeviceNumber] and [GetInputNumber] are declared in headers that
    are not among the sources; [NumPins] is [ARRAY_SIZE(PinTable)] and
    [SetPinModeAIN pin] is [IoPort::SetPinMode(pin, AIN)]. *)
Context {AdcInput : Type}.
Variable NumPins : Z.
Variable PinToAdcInput : Z → option AdcInput.
Variable GetDeviceNumber GetInputNumber : AdcInput → Z.
Variable SetPinModeAIN : Z → HW → HW.

(** [Adcs[device].f(...)] for a member function [f] that may change the
    object: [None] when [device] is outside [Adcs]. *)
Definition on_adc (adcs : list AdcClass) (device : Z)
    (f : AdcClass → HW → option (bool * AdcClass * HW)) (hw : HW)
  : option (bool * list AdcClass * HW) :=
  a ← load adcs device;
  '(r, a', hw') ← f a hw;
  adcs' ← store adcs device a';
  Some (r, adcs', hw').

(** [AnalogIn::EnableChannel] *)
Definition AnalogIn_EnableChannel (pin : Z) (fn : option Fn) (param : Param)
    (p_ticksPerCall now : Z) (adcs : list AdcClass) (hw : HW)
  : option (bool * list AdcClass * HW) :=
  if bool_decide (pin < NumPins) then
    match PinToAdcInput pin with
    | Some adcin =>
        on_adc adcs (GetDeviceNumber adcin)
               (EnableChannel (GetInputNumber adcin) fn param
                              p_ticksPerCall now)
               (SetPinModeAIN pin hw)
    | None => Some (false, adcs, hw)
    end
  else Some (false, adcs, hw).

(** [AnalogIn::IsChannelEnabled] *)
Definition AnalogIn_IsChannelEnabled (pin : Z) (adcs : list AdcClass)
  : option bool :=
  if bool_decide (pin < NumPins) then
    match PinToAdcInput pin with
    | Some adcin =>
        a ← load adcs (GetDeviceNumber adcin);
        Some (IsChannelEnabled (GetInputNumber adcin) a)
    | None => Some false
    end
  else Some false.

(** [AnalogIn::ReadChannel] *)
Definition AnalogIn_ReadChannel (adcin : option AdcInput)
    (adcs : list AdcClass) : option Z :=
  match adcin with
  | Some ain =>
      a ← load adcs (GetDeviceNumber ain);
      ReadChannel (GetInputNumber ain) a
  | None => Some 0
  end.

(** [AnalogIn::EnableTemperatureSensor] *)
Definition AnalogIn_EnableTemperatureSensor (sensorNumber : Z)
    (fn : option Fn) (param : Param) (p_ticksPerCall adcnum now : Z)
    (adcs : list AdcClass) (hw : HW)
  : option (bool * list AdcClass * HW) :=
  if bool_decide (adcnum < Z.of_nat (length adcs)) then
    on_adc adcs adcnum
           (EnableTemperatureSensor sensorNumber fn param p_ticksPerCall now)
           hw
  else Some (false, adcs, hw).

End Adc.

#[global] Arguments AdcClass : clear implicits.
#[global] Arguments call : clear implicits.
#[global] Arguments World : clear implicits.
#[global] Arguments operation : clear implicits.

(** *** A concrete ADC, for the examples

    Callbacks and their parameters are numbers, the peripherals are
    represented by the count of initialisations; the constants are those
    of the SAME51 header ([PTAT] is input 0x1C, [MUXNEG_GND] is
    0x18 << 8, [REFSEL_INTVCC1] is 3). *)
Module Demo.
Definition PTAT_Val : Z := 28.
Definition MUXNEG_GND : Z := 6144.
Definition REFSEL_INTVCC1 : Z := 3.

(** Storage with arbitrary contents before the constructor runs. *)
Definition raw : AdcClass nat nat nat :=
  mkAdc 5 7 None ready true
        (replicate 16 (Some 1%nat)) (replicate 16 3%nat)
        (replicate 16 9) (replicate 16 9) (replicate 32 9)
        (replicate 16 9) (replicate 32 9).

(** A channel, the second temperature sensor, a channel number that is
    too large and a sensor number that is too large. *)
Definition calls : list (call nat nat) :=
  [CallEnableChannel 3 (Some 4%nat) 5%nat 10 1000;
   CallEnableTemperatureSensor 1 None 6%nat 0 1001;
   CallEnableChannel 16 None 5%nat 10 1002;
   CallEnableTemperatureSensor 2 None 6%nat 0 1003].

(** Seventeen requests for channel 0: one more than the sequence holds. *)
Definition too_many : list (call nat nat) :=
  replicate 17 (CallEnableChannel 0 None 0%nat 0 0).

(** The first of [calls]. *)
Definition first_call : call nat nat :=
  CallEnableChannel 3 (Some 4%nat) 5%nat 10 1000.

(** The object after the constructor and [first_call]. *)
Definition one_channel : AdcClass nat nat nat :=
  mkAdc 1 8 None starting true
        (Some 4%nat :: replicate 15 None) (5%nat :: replicate 15 0%nat)
        (10 :: replicate 15 9) (1000 :: replicate 15 9)
        (6147 :: 3 :: replicate 30 9)
        (replicate 16 9) (replicate 16 0 ++ replicate 16 9).

(** Channel 3 and the second temperature sensor (input 29) enabled, a
    conversion just completed with results 111 and 222. *)
Definition two_channels : AdcClass nat nat nat :=
  mkAdc 2 536870920 None ready true
        (Some 4%nat :: Some 7%nat :: replicate 14 None)
        (5%nat :: 6%nat :: replicate 14 0%nat)
        (10 :: 0 :: replicate 14 9) (1000 :: 1001 :: replicate 14 9)
        (6147 :: 3 :: 6173 :: 3 :: replicate 28 9)
        (111 :: 222 :: replicate 14 9) (replicate 32 0).

(** Enabling, a service pass, the completion interrupt, another service
    pass and a refused enable call. *)
Definition session : list (operation nat nat nat) :=
  [OpEnable first_call;
   OpEnable (CallEnableTemperatureSensor 1 (Some 7%nat) 6%nat 0 1001);
   OpService 1002 9%nat; OpResultReady; OpService 1020 9%nat;
   OpEnable (CallEnableChannel 16 None 5%nat 10 1030);
   OpStartConversion None; OpExecuteCallbacks 1040].

(** Eight pins, of which the first four are ADC inputs: even pins on
    ADC 0, odd pins on ADC 1, with the pin number as input number.  An
    ADC input is the pair of its device and input numbers; switching a
    pin to analog mode adds ten to the state of the peripherals. *)
Definition NumPins : Z := 8.
Definition PinToAdcInput (pin : Z) : option (Z * Z) :=
  if bool_decide (pin < 4) then Some (pin mod 2, pin) else None.
Definition GetDeviceNumber (adcin : Z * Z) : Z := adcin.1.
Definition GetInputNumber (adcin : Z * Z) : Z := adcin.2.
Definition SetPinModeAIN (pin : Z) (hw : nat) : nat := (hw + 10)%nat.

(** Two ADCs fresh from the constructor. *)
Definition Adcs : list (AdcClass nat nat nat) :=
  [construct 0%nat raw; construct 0%nat raw].
End Demo.

End AnalogIn.

(** ** CommandProcessing/CommandProcessor.cpp: the self-test report *)

Module CommandProcessor.

Local Open Scope string_scope.

(** The value of the C++ expression [a || b] for two integers. *)
Definition logical_or (a b : Z) : Z :=
  if bool_decide (a ≠ 0) || bool_decide (b ≠ 0) then 1 else 0.

(** [reply.lcatf(...)]: the text goes on a line of its own. *)
Definition lcatf (reply : list string) (line : string) : list string :=
  (reply ++ [line])%list.

Definition over_temperature_line (driver : nat) : string :=
  "Driver " +:+ pretty driver +:+ " reports over temperature".

Definition short_to_ground_line (driver : nat) : string :=
  "Driver " +:+ pretty driver +:+ " reports short-to-ground".

Section Report.

(** The driver status bits are defined in the TMC driver headers and
    the driver count in the board configuration; neither is among the
    sources.  [GetAccumulatedStatus driver mask] is what
    [SmartDrivers::GetAccumulatedStatus] returns, a [uint32_t]. *)
Variable TMC_RR_OT TMC_RR_OTPW TMC_RR_S2G : Z.
Variable NumDrivers : nat.
Variable GetAccumulatedStatus : nat → Z → Z.
Variable UniqueId : string.

(** The body of the [for] loop over the drivers, on the pair of the
    reply so far and [driversOK]. *)
Definition check_driver (driver : nat) (st : list string * bool)
  : list string * bool :=
  let stat := GetAccumulatedStatus driver 0xFFFFFFFF in
  let st1 :=
    if bool_decide (Z.land stat (logical_or TMC_RR_OT TMC_RR_OTPW) ≠ 0)
    then (lcatf st.1 (over_temperature_line driver), false)
    else st in
  if bool_decide (Z.land stat TMC_RR_S2G ≠ 0)
  then (lcatf st1.1 (short_to_ground_line driver), false)
  else st1.

(** [for (size_t driver = 0; driver < NumDrivers; ++driver)] *)
Definition check_drivers (reply : list string) : list string * bool :=
  foldl (λ st driver, check_driver driver st) (reply, true) (seq 0 NumDrivers).

(** [GenerateTestReport] with [HAS_SMART_DRIVERS] set.  The temperature
    and voltage checks that come first compare floating-point readings;
    what they leave behind, the lines they wrote and [testFailed], is
    the argument [earlier].  The result is the finished reply and the
    final [testFailed]. *)
Definition GenerateTestReport (earlier : list string * bool)
  : list string * bool :=
  let '(reply0, testFailed0) := earlier in
  let '(reply1, driversOK) := check_drivers reply0 in
  let '(reply2, testFailed) :=
    if driversOK : bool then (lcatf reply1 "Driver status OK", testFailed0)
    else (reply1, true) in
  let reply3 :=
    lcatf reply2 (if testFailed : bool
                  then "***** ONE OR MORE CHECKS FAILED *****"
                  else "All checks passed") in
  if testFailed : bool then (reply3, testFailed)
  else (lcatf reply3 ("Board ID: " +:+ UniqueId), testFailed).

End Report.

Local Open Scope Z_scope.

(** *** The driver part of the report, driver by driver *)

Section ReportShape.

Variable TMC_RR_OT TMC_RR_OTPW TMC_RR_S2G : Z.
Variable GetAccumulatedStatus : nat → Z → Z.

(** The two tests the loop body makes on the status word of a driver. *)
Definition reports_over_temperature (driver : nat) : bool :=
  bool_decide (Z.land (GetAccumulatedStatus driver 0xFFFFFFFF)
                      (logical_or TMC_RR_OT TMC_RR_OTPW) ≠ 0).

Definition reports_short_to_ground (driver : nat) : bool :=
  bool_decide (Z.land (GetAccumulatedStatus driver 0xFFFFFFFF) TMC_RR_S2G ≠ 0).

(** The lines the report has for one driver. *)
Definition driver_lines (driver : nat) : list string :=
  ((if reports_over_temperature driver
    then [over_temperature_line driver] else [])
   ++ (if reports_short_to_ground driver
       then [short_to_ground_line driver] else []))%list.

End ReportShape.

(** *** The result code of a command *)

(** [GCodeResult] is declared in a header that is not among the
    sources; these are the two values CommandProcessor.cpp names. *)
Module GCodeResult.
Inductive t : Type :=
| ok
| error.
End GCodeResult.

(** [InitiateFirmwareUpdate].  [address] is what
    [CanInterface::GetCanAddress()] returns, a [uint8_t]; in
    [(uint8_t)~address] the operand is promoted to [int], complemented
    and cut back to eight bits.  The result is the reply text, the
    result code and whether [Platform::StartFirmwareUpdate()] was
    called. *)
Definition InitiateFirmwareUpdate (boardId invertedBoardId address : Z)
  : string * GCodeResult.t * bool :=
  if bool_decide (boardId ≠ address)
     || bool_decide (invertedBoardId ≠ Z.lnot address mod 256)
  then ("Invalid firmware update command received", GCodeResult.error, false)
  else ("Board " +:+ pretty address +:+ " starting firmware update",
        GCodeResult.ok, true).

(** *** [CommandProcessor::Spin]: sending the reply in fragments *)

(** The terminator of a C string. *)
Definition NUL : ascii := Ascii.zero.

(** [memcpy(dst, src, n)] on character arrays: [None] when [n] bytes do
    not fit into [dst] or are not there in [src]. *)
Definition memcpy (dst src : list ascii) (n : Z) : option (list ascii) :=
  if bool_decide (0 ≤ n ≤ Z.of_nat (length dst))
     && bool_decide (n ≤ Z.of_nat (length src))
  then Some (take (Z.to_nat n) src ++ drop (Z.to_nat n) dst)%list
  else None.

(** What is handed to [CanInterface::Send] or [SendAndFree]: the fields
    of the [CanMessageStandardReply] in the buffer and the buffer's
    [dataLength]. *)
Record Frame : Type := mkFrame {
  resultCode : GCodeResult.t;
  extra : Z;
  fragmentNumber : Z;                (* uint8_t *)
  moreFollows : bool;
  text : list ascii;                 (* char text[] *)
  dataLength : Z
}.

(** The characters a receiver finds in [text]: those before the first
    NUL, or the whole array when there is none. *)
Fixpoint c_string (buffer : list ascii) : list ascii :=
  match buffer with
  | [] => []
  | c :: buffer' => if bool_decide (c = NUL) then [] else c :: c_string buffer'
  end.

Section Reply.

(** [CanMessageStandardReply] is declared in a header that is not among
    the sources: [MaxTextLength] is its constant of that name, [TextSize]
    is [ARRAY_SIZE(msg->text)], and [GetActualDataLength] its member
    function. *)
Variable MaxTextLength : Z.
Variable TextSize : Z.
Variable GetActualDataLength : Z → Z.

(** The [for (;;)] loop at the end of [Spin], from the state
    [lengthDone], [fragmentNumber] and the present contents [buffer] of
    [msg->text]; [reply] holds the characters of the reply, without the
    terminator.  The result is the frames sent, oldest first; [None]
    when [memcpy] or the write of the terminator falls outside [text],
    or when the loop is still running after [fuel] rounds. *)
Fixpoint send_fragments (fuel : nat) (rslt : GCodeResult.t) (extra : Z)
    (reply : list ascii) (lengthDone fragmentNumber : Z) (buffer : list ascii)
  : option (list Frame) :=
  match fuel with
  | O => None
  | S fuel' =>
      let totalLength := Z.of_nat (length reply) in
      let fragmentLength :=
        Z.min (wrap32 (totalLength - lengthDone)) MaxTextLength in
      buffer1 ← memcpy buffer (drop (Z.to_nat lengthDone) (reply ++ [NUL])%list)
                       fragmentLength;
      let lengthDone' := wrap32 (lengthDone + fragmentLength) in
      '(buffer2, fragmentLength') ←
        (if bool_decide (fragmentLength < TextSize)
         then b ← AnalogIn.store buffer1 fragmentLength NUL;
              Some (b, wrap32 (fragmentLength + 1))
         else Some (buffer1, fragmentLength));
      let dataLength := GetActualDataLength fragmentLength' in
      if bool_decide (lengthDone' = totalLength) then
        Some [mkFrame rslt extra fragmentNumber false buffer2 dataLength]
      else
        rest ← send_fragments fuel' rslt extra reply lengthDone'
                              ((fragmentNumber + 1) mod 256) buffer2;
        Some (mkFrame rslt extra fragmentNumber true buffer2 dataLength :: rest)
  end.

(** The reply part of [Spin]: [msg->resultCode = rslt; msg->extra = extra;
    lengthDone = 0; fragmentNumber = 0;] and the loop.  [buffer] is what
    [msg->text] holds when the response message has been set up. *)
Definition send_reply (fuel : nat) (rslt : GCodeResult.t) (extra : Z)
    (reply buffer : list ascii) : option (list Frame) :=
  send_fragments fuel rslt extra reply 0 0 buffer.

(** The number of frames a reply of [r] characters takes: one for the
    empty reply, otherwise [r / MaxTextLength] rounded up. *)
Definition frames_needed (r : Z) : Z :=
  if bool_decide (r = 0) then 1 else (r - 1) / MaxTextLength + 1.

End Reply.

(** *** [ProcessM569]: driver configuration *)

(** The registers [ProcessM569] writes; [SmartDriverRegister] is
    declared in a header that is not among the sources. *)
Inductive SmartDriverRegister : Type :=
| toff
| tblank
| hstart
| hend
| hdec
| tpwmthrs
| thigh.

(** The calls [ProcessM569] makes that change a driver. *)
Inductive driver_call {Float : Type} : Type :=
| CallSetDirectionValue (drive : Z) (dVal : bool)
| CallSetEnableValue (drive : Z) (eVal : Z)
| CallSetDriverStepTiming (drive : Z) (timings : list Float)
| CallSetDriverMode (drive : Z) (mode : Z)
| CallSetRegister (drive : Z) (reg : SmartDriverRegister) (val : Z).
#[global] Arguments driver_call : clear implicits.


(** What [CanMessageGenericParser] finds in an M569 message: for each
    parameter letter the value its [Get...Param] call stores, or [None]
    when that call returns false.  The parser is not among the
    sources. *)
Record M569 {Float : Type} : Type := mkM569 {
  param_P : option Z;                (* uint8_t drive *)
  param_S : option Z;                (* uint8_t direction *)
  param_R : option Z;                (* int8_t rValue *)
  param_T : option (list Float);     (* numTimings, timings *)
  param_D : option Z;                (* uint32_t val *)
  param_F : option Z;
  param_B : option Z;
  param_V : option Z;
  param_H : option Z;
  param_Y : option (list Z)          (* numHvalues, hvalues *)
}.
#[global] Arguments M569 : clear implicits.
#[global] Arguments mkM569 {Float} _ _ _ _ _ _ _ _ _ _.

Section M569.

(** [Float] is the type [float]; [Drivers] is the state that [Platform]
    and [SmartDrivers] keep about the drivers. *)
Context {Float Drivers : Type}.

(** The build options the function is compiled under, the number of
    drivers of the board and the CAN address of the board. *)
Variables SUPPORT_SLOW_DRIVERS HAS_SMART_DRIVERS SUPPORT_TMC51xx : bool.
Variable NumDrivers : Z.
Variable CanAddress : Z.

(** The functions of [Platform] and [SmartDrivers] that are called;
    neither is among the sources.  [report_tail] is the text that the
    [catf] and [cat] calls after the first [printf] of the report add
    (CommandProcessor.cpp lines 356 to 417), which prints floating-point
    values. *)
Variable SetDirectionValue : Z → bool → Drivers → Drivers.
Variable SetEnableValue : Z → Z → Drivers → Drivers.
Variable SetDriverStepTiming : Z → list Float → Drivers → Drivers.
Variable SetDriverMode : Z → Z → Drivers → Drivers * bool.
Variable SetRegister : Z → SmartDriverRegister → Z → Drivers → Drivers * bool.
Variable GetDirectionValue : Z → Drivers → bool.
Variable GetEnableValue : Z → Drivers → bool.
Variable TranslateDriverMode : Z → string.
Variable report_tail : Z → Drivers → string.

(** The state of a run of the function: the drivers, the calls made on
    them so far, oldest first, and the local variable [seen]. *)
Record Run : Type := mkRun {
  drivers : Drivers;
  calls : list (driver_call Float);
  seen : bool
}.

(** A piece of the function body either falls through to the next
    piece ([inr]) or executes [return GCodeResult::error] with the
    reply it has written ([inl]). *)
Definition step : Type := Run → (string * Run) + Run.

Definition skip : step := λ r, inr r.

Definition and_next (s1 s2 : step) : step := λ r,
  match s1 r with
  | inl e => inl e
  | inr r' => s2 r'
  end.

(** [if (parser.Get...Param(letter, v)) { seen = true; body }] *)
Definition when_given {A} (p : option A) (body : A → step) : step := λ r,
  match p with
  | Some v => body v (mkRun (drivers r) (calls r) true)
  | None => inr r
  end.

(** A call whose result is not tested. *)
Definition do_call (c : driver_call Float) (f : Drivers → Drivers) : step :=
  λ r, inr (mkRun (f (drivers r)) (calls r ++ [c])%list (seen r)).

(** [if (!f(...)) { reply.printf(failure); return GCodeResult::error; }] *)
Definition check_call (c : driver_call Float) (f : Drivers → Drivers * bool)
    (failure : string) : step := λ r,
  let '(ds, ok) := f (drivers r) in
  let r' := mkRun ds (calls r ++ [c])%list (seen r) in
  if ok : bool then inr r' else inl (failure, r').

(** The four (with [SUPPORT_TMC51xx], five) blocks of the form
    [if (parser.GetUintParam(letter, val)) { seen = true;
       if (!SmartDrivers::SetRegister(drive, reg, val)) { ... } }]. *)
Definition set_register (p : option Z) (drive : Z) (reg : SmartDriverRegister)
    (failure : string) : step :=
  when_given p (λ val,
    check_call (CallSetRegister drive reg val) (SetRegister drive reg val)
               failure).

(** The hysteresis block: [hstart], then [hend], then [hstart] again
    and, with three values, [hdec]; the result of the first call is
    discarded and each later call is made only while [ok] holds. *)
Definition set_hysteresis (drive : Z) (hvalues : list Z) : step := λ r,
  let failure := "Bad hysteresis setting for driver " +:+ pretty drive in
  match hvalues with
  | h0 :: h1 :: rest =>
      if bool_decide (rest = []) || bool_decide (length rest = 1%nat) then
        let '(ds1, _) := SetRegister drive hstart h0 (drivers r) in
        let '(ds2, ok2) := SetRegister drive hend h1 ds1 in
        let cs2 := (calls r ++ [CallSetRegister drive hstart h0;
                                 CallSetRegister drive hend h1])%list in
        if ok2 : bool then
          let '(ds3, ok3) := SetRegister drive hstart h0 ds2 in
          let cs3 := (cs2 ++ [CallSetRegister drive hstart h0])%list in
          match ok3, rest with
          | true, h2 :: _ =>
              let '(ds4, ok4) := SetRegister drive hdec h2 ds3 in
              let r4 := mkRun ds4 (cs3 ++ [CallSetRegister drive hdec h2])%list
                              (seen r) in
              if ok4 : bool then inr r4 else inl (failure, r4)
          | true, [] => inr (mkRun ds3 cs3 (seen r))
          | false, _ => inl (failure, mkRun ds3 cs3 (seen r))
          end
        else inl (failure, mkRun ds2 cs2 (seen r))
      else inl ("Expected 2 or 3 Y values", r)
  | _ => inl ("Expected 2 or 3 Y values", r)
  end.

(** The body between the range check of the driver number and the
    test of [seen]. *)
Definition apply_settings (drive : Z) (msg : M569 Float) : step :=
  and_next
    (when_given (param_S msg) (λ direction,
       do_call (CallSetDirectionValue drive (bool_decide (direction ≠ 0)))
               (SetDirectionValue drive (bool_decide (direction ≠ 0)))))
 (and_next
    (when_given (param_R msg) (λ rValue,
       do_call (CallSetEnableValue drive rValue)
               (SetEnableValue drive rValue)))
 (and_next
    (if SUPPORT_SLOW_DRIVERS then
       when_given (param_T msg) (λ timings,
         if bool_decide (length timings ≠ 4%nat)
         then λ r, inl ("bad timing parameter", r)
         else do_call (CallSetDriverStepTiming drive timings)
                      (SetDriverStepTiming drive timings))
     else skip)
    (if HAS_SMART_DRIVERS then
       and_next
         (when_given (param_D msg) (λ val,
            check_call (CallSetDriverMode drive val) (SetDriverMode drive val)
              ("Driver " +:+ pretty CanAddress +:+ "." +:+ pretty drive
               +:+ " does not support mode '" +:+ TranslateDriverMode val
               +:+ "'")))
      (and_next
         (set_register (param_F msg) drive toff
            ("Bad off time for driver " +:+ pretty drive))
      (and_next
         (set_register (param_B msg) drive tblank
            ("Bad blanking time for driver " +:+ pretty drive))
      (and_next
         (set_register (param_V msg) drive tpwmthrs
            ("Bad mode change microstep interval for driver "
             +:+ pretty drive))
      (and_next
         (if SUPPORT_TMC51xx then
            set_register (param_H msg) drive thigh
              ("Bad high speed microstep interval for driver "
               +:+ pretty drive)
          else skip)
         (when_given (param_Y msg) (set_hysteresis drive))))))
     else skip))).

(** The first [printf] of the report. *)
Definition report_head (drive : Z) (ds : Drivers) : string :=
  "Driver " +:+ pretty CanAddress +:+ "." +:+ pretty drive +:+ " runs "
  +:+ (if GetDirectionValue drive ds then "forwards" else "in reverse")
  +:+ ", active "
  +:+ (if GetEnableValue drive ds then "high" else "low") +:+ " enable".

(** What [ProcessM569] leaves behind: the text in [reply], the result
    code, the state of the drivers and the calls made on them. *)
Record Outcome : Type := mkOutcome {
  reply_text : string;
  result : GCodeResult.t;
  drivers_after : Drivers;
  calls_made : list (driver_call Float)
}.

(** [ProcessM569].  [reply0] is what [reply] holds on entry. *)
Definition ProcessM569 (msg : M569 Float) (reply0 : string) (ds : Drivers)
  : Outcome :=
  match param_P msg with
  | None =>
      mkOutcome "Missing P parameter in CAN message" GCodeResult.error ds []
  | Some drive =>
      if bool_decide (drive >= NumDrivers) then
        mkOutcome ("Driver number " +:+ pretty CanAddress +:+ "."
                   +:+ pretty drive +:+ " out of range")
                  GCodeResult.error ds []
      else
        match apply_settings drive msg (mkRun ds [] false) with
        | inl (failure, r) =>
            mkOutcome failure GCodeResult.error (drivers r) (calls r)
        | inr r =>
            if seen r
            then mkOutcome reply0 GCodeResult.ok (drivers r) (calls r)
            else mkOutcome (report_head drive (drivers r)
                            +:+ report_tail drive (drivers r))
                           GCodeResult.ok (drivers r) (calls r)
        end
  end.

(** The message asks for a setting to be changed: one of the
    parameters that the build looks at is present. *)
Definition any_setting (msg : M569 Float) : bool :=
  bool_decide (is_Some (param_S msg))
  || bool_decide (is_Some (param_R msg))
  || (SUPPORT_SLOW_DRIVERS && bool_decide (is_Some (param_T msg)))
  || (HAS_SMART_DRIVERS
      && (bool_decide (is_Some (param_D msg))
          || bool_decide (is_Some (param_F msg))
          || bool_decide (is_Some (param_B msg))
          || bool_decide (is_Some (param_V msg))
          || (SUPPORT_TMC51xx && bool_decide (is_Some (param_H msg)))
          || bool_decide (is_Some (param_Y msg)))).

(** What a call returns and what it does to the drivers; the
    functions that return nothing count as returning true. *)
Definition carry_out (c : driver_call Float) (ds : Drivers) : Drivers * bool :=
  match c with
  | CallSetDirectionValue drive dVal => (SetDirectionValue drive dVal ds, true)
  | CallSetEnableValue drive eVal => (SetEnableValue drive eVal ds, true)
  | CallSetDriverStepTiming drive timings =>
      (SetDriverStepTiming drive timings ds, true)
  | CallSetDriverMode drive mode => SetDriverMode drive mode ds
  | CallSetRegister drive reg val => SetRegister drive reg val ds
  end.

(** The calls [cs] made one after the other from the drivers [ds]:
    what each of them returned, and the drivers afterwards. *)
Fixpoint replay (cs : list (driver_call Float)) (ds : Drivers)
  : list bool * Drivers :=
  match cs with
  | [] => ([], ds)
  | c :: cs' =>
      let '(ds1, ok) := carry_out c ds in
      let '(oks, ds2) := replay cs' ds1 in
      (ok :: oks, ds2)
  end.

(** The calls a message asks for, in the order S, R, T, D, F, B, V, H,
    Y of the function body, each with whether the function body looks
    at what the call returns: it does so for every call but the first
    write of [hstart] in the hysteresis block, whose result is cast to
    [void]. *)
Definition requested_register (p : option Z) (drive : Z)
    (reg : SmartDriverRegister) : list (driver_call Float * bool) :=
  match p with
  | Some val => [(CallSetRegister drive reg val, true)]
  | None => []
  end.

Definition requested_hysteresis (drive : Z) (hvalues : list Z)
  : list (driver_call Float * bool) :=
  match hvalues with
  | [h0; h1] =>
      [(CallSetRegister drive hstart h0, false);
       (CallSetRegister drive hend h1, true);
       (CallSetRegister drive hstart h0, true)]
  | [h0; h1; h2] =>
      [(CallSetRegister drive hstart h0, false);
       (CallSetRegister drive hend h1, true);
       (CallSetRegister drive hstart h0, true);
       (CallSetRegister drive hdec h2, true)]
  | _ => []
  end.

Definition requested_steps (drive : Z) (msg : M569 Float)
  : list (driver_call Float * bool) :=
  (match param_S msg with
   | Some direction =>
       [(CallSetDirectionValue drive (bool_decide (direction ≠ 0)), true)]
   | None => []
   end
   ++ match param_R msg with
      | Some rValue => [(CallSetEnableValue drive rValue, true)]
      | None => []
      end
   ++ (if SUPPORT_SLOW_DRIVERS then
         match param_T msg with
         | Some timings =>
             if bool_decide (length timings ≠ 4%nat) then []
             else [(CallSetDriverStepTiming drive timings, true)]
         | None => []
         end
       else [])
   ++ (if HAS_SMART_DRIVERS then
         match param_D msg with
         | Some val => [(CallSetDriverMode drive val, true)]
         | None => []
         end
         ++ requested_register (param_F msg) drive toff
         ++ requested_register (param_B msg) drive tblank
         ++ requested_register (param_V msg) drive tpwmthrs
         ++ (if SUPPORT_TMC51xx
             then requested_register (param_H msg) drive thigh else [])
         ++ match param_Y msg with
            | Some hvalues => requested_hysteresis drive hvalues
            | None => []
            end
       else []))%list.

Definition requested_calls (drive : Z) (msg : M569 Float)
  : list (driver_call Float) :=
  (requested_steps drive msg).*1.

(** Every call of [plan] whose result the function body looks at
    returned true; [oks] are the results of the calls of [plan]. *)
Definition accepted_where_tested (plan : list (driver_call Float * bool))
    (oks : list bool) : Prop :=
  Forall2 (λ st ok, st.2 = true → ok = true) plan oks.

(** A piece [s] of the function body carries out the part [plan] of a
    request that is present exactly when [given] holds.  When it falls
    through it has made the calls of [plan], each call that is looked at
    returned true, and [seen] is set if [given].  When it returns an
    error the request was present and the calls made are the first few
    of [plan]: either all of them were accepted where looked at (the
    error is a malformed parameter), or the last one is looked at and
    returned false and those before it were accepted where looked at.
    The drivers change through the calls only. *)
Definition follows (given : bool) (plan : list (driver_call Float * bool))
    (s : step) : Prop :=
  ∀ r,
    match s r with
    | inl (_, r') =>
        given = true
        ∧ ∃ l, calls r' = (calls r ++ l.*1)%list ∧ l `prefix_of` plan
               ∧ drivers r' = (replay l.*1 (drivers r)).2
               ∧ (accepted_where_tested l (replay l.*1 (drivers r)).1
                  ∨ ∃ l0 c oks0,
                      l = (l0 ++ [(c, true)])%list
                      ∧ (replay l.*1 (drivers r)).1 = (oks0 ++ [false])%list
                      ∧ accepted_where_tested l0 oks0)
    | inr r' =>
        seen r' = seen r || given
        ∧ calls r' = (calls r ++ plan.*1)%list
        ∧ drivers r' = (replay plan.*1 (drivers r)).2
        ∧ accepted_where_tested plan (replay plan.*1 (drivers r)).1
        ∧ (given = false → r' = r)
    end.

End M569.

(** A reply channel with five characters of text per frame, for the
    examples. *)
Module Demo.
Definition MaxTextLength : Z := 5.
Definition buffer : list ascii := replicate 5 "x"%char.
Definition reply : list ascii := String.list_ascii_of_string "Board 7 ok".

(** A board with two drivers at CAN address 7.  The state of the
    drivers is the list of the settings made so far; a register takes
    values below 16 and there are four driver modes. *)
Definition Drivers : Type := list (driver_call nat).
Definition NumDrivers : Z := 2.
Definition CanAddress : Z := 7.

Definition SetDirectionValue (drive : Z) (dVal : bool) (ds : Drivers)
  : Drivers := (ds ++ [CallSetDirectionValue drive dVal])%list.
Definition SetEnableValue (drive eVal : Z) (ds : Drivers) : Drivers :=
  (ds ++ [CallSetEnableValue drive eVal])%list.
Definition SetDriverStepTiming (drive : Z) (timings : list nat) (ds : Drivers)
  : Drivers := (ds ++ [CallSetDriverStepTiming drive timings])%list.
Definition SetDriverMode (drive mode : Z) (ds : Drivers) : Drivers * bool :=
  if bool_decide (mode < 4)
  then ((ds ++ [CallSetDriverMode drive mode])%list, true)
  else (ds, false).
Definition SetRegister (drive : Z) (reg : SmartDriverRegister) (val : Z)
    (ds : Drivers) : Drivers * bool :=
  if bool_decide (val < 16)
  then ((ds ++ [CallSetRegister drive reg val])%list, true)
  else (ds, false).
Definition GetDirectionValue (drive : Z) (ds : Drivers) : bool := true.
Definition GetEnableValue (drive : Z) (ds : Drivers) : bool := false.
Definition TranslateDriverMode (mode : Z) : string :=
  if bool_decide (mode = 0) then "spreadCycle" else "unknown".
Definition report_tail (drive : Z) (ds : Drivers) : string :=
  ", mode spreadCycle".

(** [ProcessM569] of a TMC51xx build on this board. *)
Definition M569_run (msg : M569 nat) (reply0 : string) (ds : Drivers)
  : Outcome (Float := nat) (Drivers := Drivers) :=
  ProcessM569 false true true NumDrivers CanAddress
              SetDirectionValue SetEnableValue SetDriverStepTiming
              SetDriverMode SetRegister GetDirectionValue GetEnableValue
              TranslateDriverMode report_tail msg reply0 ds.

(** M569 P1 S0 Y3:20 : the second hysteresis value is refused. *)
Definition refused_hysteresis : M569 nat :=
  mkM569 (Some 1) (Some 0) None None None None None None None (Some [3; 20]).

(** M569 P1 Y20:5 : the first hysteresis write is refused, and so is
    the third. *)
Definition refused_hstart : M569 nat :=
  mkM569 (Some 1) None None None None None None None None (Some [20; 5]).

(** M569 P1 S1 D0 Y3:5:2 *)
Definition accepted_settings : M569 nat :=
  mkM569 (Some 1) (Some 1) None None (Some 0) None None None None
         (Some [3; 5; 2]).

(** M569 P1 *)
Definition query : M569 nat :=
  mkM569 (Some 1) None None None None None None None None None.
End Demo.

(** The status bits of the two driver families the firmware supports, as
    their data sheets number them in DRV_STATUS. *)
Module TMC51xx.
Definition TMC_RR_OT : Z := Z.shiftl 1 25.
Definition TMC_RR_OTPW : Z := Z.shiftl 1 26.
Definition TMC_RR_S2G : Z := Z.lor (Z.shiftl 3 27) (Z.shiftl 3 12).
End TMC51xx.

Module TMC22xx.
Definition TMC_RR_OT : Z := Z.shiftl 1 1.
Definition TMC_RR_OTPW : Z := Z.shiftl 1 0.
Definition TMC_RR_S2G : Z := Z.shiftl 15 2.
End TMC22xx.

End CommandProcessor.

(** * Theorems *)

Section MoveTheorems.
Import Movement.
Context {Timing Rest : Type} {dda_methods : DDAMethods Timing Rest}.
Implicit Types (m : Move Timing Rest) (d : DDA Timing).

Ltac unfold_M :=
  unfold and_then, mbind, mret, M_bind, M_ret, bind, ret, undefined,
    out_of_fuel, load_currentDda, store_currentDda, load_ddaRingGetPointer,
    read_ddaRingAddPointer, read_scheduledMoves, write_scheduledMoves,
    load_completedMoves, store_completedMoves, call_GetState, call_Start,
    call_Step, call_GetStepInterval in *.

Lemma DDARingEmpty_differ m :
  ddaRingGetPointer m ≠ ddaRingAddPointer m →
  DDARingEmpty m = Returns false m [LoadGetPointer (ddaRingGetPointer m)].
Proof.
  intros Hne. unfold DDARingEmpty. unfold_M. simpl.
  rewrite bool_decide_eq_false_2 by done. done.
Qed.

Lemma DDARingEmpty_equal m d :
  ddaRingGetPointer m = ddaRingAddPointer m →
  ring m !! ddaRingAddPointer m = Some d →
  DDARingEmpty m =
    Returns (bool_decide (GetState d = empty)) m
            [LoadGetPointer (ddaRingGetPointer m);
             CallGetState (ddaRingAddPointer m)].
Proof.
  intros Heq Hd. unfold DDARingEmpty. unfold_M. simpl.
  rewrite bool_decide_eq_true_2 by done. simpl. rewrite Hd. done.
Qed.

(** C1.  In a state whose add cursor points at a ring slot,
    [DDARingEmpty] returns, leaves the object as it was, and its result is
    true exactly when the get cursor equals the add cursor and the
    descriptor at the add cursor is in state [empty].  Equal cursors alone
    do not make it true: with equal cursors and a descriptor at the add
    cursor that is not [empty] (the full ring) the result is false. *)
Theorem DDARingEmpty_iff_cursors_equal_and_slot_empty m d :
  ring m !! ddaRingAddPointer m = Some d →
  ∃ b tr,
    DDARingEmpty m = Returns b m tr
    ∧ (b = true ↔
         ddaRingGetPointer m = ddaRingAddPointer m ∧ GetState d = empty)
    ∧ (ddaRingGetPointer m = ddaRingAddPointer m → GetState d ≠ empty →
         b = false).
Proof.
  intros Hd.
  destruct (decide (ddaRingGetPointer m = ddaRingAddPointer m)) as [Heq|Hne].
  - eexists _, _. split; [by apply DDARingEmpty_equal|].
    split.
    + rewrite bool_decide_eq_true. tauto.
    + intros _ Hs. by apply bool_decide_eq_false_2.
  - eexists _, _. split; [by apply DDARingEmpty_differ|].
    split; [|done]. split; [done|]. intros [? _]. done.
Qed.

Lemma NoLiveMovement_value m d :
  ring m !! ddaRingAddPointer m = Some d →
  ∃ e tr1,
    DDARingEmpty m = Returns e m tr1
    ∧ NoLiveMovement m =
        Returns (e && bool_decide (currentDda m = None)) m
                (tr1 ++ if e then [LoadCurrentDda (currentDda m)] else [])
    ∧ forallb is_read tr1 = true.
Proof.
  intros Hd. unfold NoLiveMovement.
  unfold and_then at 1. unfold mbind, M_bind, bind.
  destruct (decide (ddaRingGetPointer m = ddaRingAddPointer m)) as [Heq|Hne].
  - eexists _, _. split; [by apply DDARingEmpty_equal|].
    rewrite (DDARingEmpty_equal m d) by done.
    destruct (bool_decide (GetState d = empty)); unfold_M; simpl; done.
  - eexists _, _. split; [by apply DDARingEmpty_differ|].
    rewrite DDARingEmpty_differ by done. unfold_M. simpl. done.
Qed.

Lemma poll_fixed m d b tr0 :
  ring m !! ddaRingAddPointer m = Some d →
  AllMovesAreFinished m = Returns b m tr0 →
  ∀ n, poll n m = Returns (replicate n b) m (mjoin (replicate n tr0)).
Proof.
  intros Hd Hcall. induction n as [|n IH]; [done|].
  simpl. unfold mbind, M_bind, bind. rewrite Hcall.
  fold (@bind Timing Rest). unfold mbind, M_bind, bind in IH |- *.
  rewrite IH. unfold mret, M_ret, ret. by rewrite app_nil_r.
Qed.

(** C4.  In a state whose add cursor points at a ring slot,
    [AllMovesAreFinished] returns [DDARingEmpty() && currentDda == nullptr],
    performs only loads and [const] calls, and leaves the whole [Move]
    object (ring, cursors, [currentDda], counters) as it was; so any
    number [n] of calls in a row return the same boolean [n] times in the
    same state, and [DDARingEmpty] answers afterwards what it answered
    before. *)
Theorem AllMovesAreFinished_is_a_pure_query m d :
  ring m !! ddaRingAddPointer m = Some d →
  ∃ e tr1 tr,
    DDARingEmpty m = Returns e m tr1
    ∧ AllMovesAreFinished m =
        Returns (e && bool_decide (currentDda m = None)) m tr
    ∧ forallb is_read tr = true
    ∧ ∀ n, ∃ m' trn,
        poll n m =
          Returns (replicate n (e && bool_decide (currentDda m = None))) m' trn
        ∧ m' = m
        ∧ forallb is_read trn = true
        ∧ DDARingEmpty m' = Returns e m' tr1.
Proof.
  intros Hd.
  destruct (NoLiveMovement_value m d Hd) as (e & tr1 & He & Hn & Hr1).
  set (tr := tr1 ++ if e then [LoadCurrentDda (currentDda m)] else []) in *.
  assert (Hr : forallb is_read tr = true).
  { unfold tr. rewrite forallb_app, Hr1. by destruct e. }
  exists e, tr1, tr. repeat split; try done.
  intros n. eexists m, _. split.
  - by apply (poll_fixed m d _ tr).
  - repeat split; try done.
    induction n as [|n IH]; [done|]. simpl.
    rewrite forallb_app. rewrite Hr, IH. done.
Qed.

Lemma StartNextMove_run (startTime : Z) m d :
  ring m !! ddaRingGetPointer m = Some d →
  StartNextMove startTime m =
    Returns
      (DDA_Start (ddaRingGetPointer m) startTime
                 (set_currentDda (Some (ddaRingGetPointer m)) m)).2
      (DDA_Start (ddaRingGetPointer m) startTime
                 (set_currentDda (Some (ddaRingGetPointer m)) m)).1
      [LoadGetPointer (ddaRingGetPointer m);
       StoreCurrentDda (Some (ddaRingGetPointer m));
       LoadCurrentDda (Some (ddaRingGetPointer m));
       CallStart (ddaRingGetPointer m) startTime].
Proof.
  intros Hd. unfold StartNextMove. unfold_M. cbn beta iota.
  change (currentDda (set_currentDda (Some (ddaRingGetPointer m)) m))
    with (Some (ddaRingGetPointer m)).
  cbn beta iota.
  change (ring (set_currentDda (Some (ddaRingGetPointer m)) m)) with (ring m).
  rewrite Hd.
  destruct (DDA_Start _ startTime _) as [m' r]. done.
Qed.

(** C2.  Under the precondition of [StartNextMove], that the descriptor
    at the get cursor is [frozen], the call stores the get cursor into
    [currentDda] (the only store it makes), calls [Start(startTime)] on
    exactly that descriptor with [currentDda] pointing at it, and returns
    what [Start] returned; every descriptor it installs as [currentDda]
    is frozen, hence not [provisional]. *)
Theorem StartNextMove_installs_the_frozen_descriptor (startTime : Z) m d :
  ring m !! ddaRingGetPointer m = Some d →
  GetState d = frozen →
  let g := ddaRingGetPointer m in
  let m1 := set_currentDda (Some g) m in
  ∃ tr,
    StartNextMove startTime m =
      Returns (DDA_Start g startTime m1).2 (DDA_Start g startTime m1).1 tr
    ∧ tr = [LoadGetPointer g; StoreCurrentDda (Some g);
            LoadCurrentDda (Some g); CallStart g startTime]
    ∧ currentDda m1 = Some g
    ∧ ring m1 !! g = Some d
    ∧ ∀ p, p ∈ currentDda_stores tr →
        ∃ q d', p = Some q ∧ ring m !! q = Some d'
                ∧ GetState d' = frozen ∧ GetState d' ≠ provisional.
Proof.
  intros Hd Hfrozen g m1. eexists. split; [|split; [reflexivity|]].
  - by apply (StartNextMove_run startTime m d).
  - split; [done|]. split; [done|].
    intros p Hp. simpl in Hp. apply list_elem_of_singleton in Hp as ->.
    exists g, d. rewrite Hfrozen. done.
Qed.

Lemma Interrupt_loop_sound (fuel : nat) : ∀ m m' tr,
  Interrupt_loop fuel m = Returns () m' tr →
  ∃ k : nat, (k < fuel)%nat ∧ StepsUntilFalse m k m'
             ∧ step_results tr = replicate k true ++ [false]
             ∧ length (currentDda_loads tr) = S k.
Proof.
  induction fuel as [|fuel IH]; intros m m' tr Hrun; [done|].
  simpl in Hrun. unfold_M. simpl in Hrun.
  destruct (currentDda m) as [p|] eqn:Hcd; [|done].
  destruct (ring m !! p) as [dp|] eqn:Hp; [|done].
  destruct (DDA_Step p m) as [m1 again] eqn:Hstep.
  destruct again.
  - destruct (Interrupt_loop fuel m1) as [[] m2 tr2| |] eqn:Hrest; [|done..].
    simplify_eq. destruct (IH _ _ _ Hrest) as (k & Hk & Hsuf & Hres & Hloads).
    exists (S k). split; [lia|]. split; [by eapply suf_more|].
    simpl. rewrite Hres, Hloads. done.
  - simplify_eq. exists 0%nat. split; [lia|]. split; [by eapply suf_last|].
    done.
Qed.

Lemma Interrupt_loop_complete m (k : nat) m' :
  StepsUntilFalse m k m' →
  ∀ fuel : nat, (k < fuel)%nat →
  ∃ tr, Interrupt_loop fuel m = Returns () m' tr
        ∧ step_results tr = replicate k true ++ [false]
        ∧ length (currentDda_loads tr) = S k.
Proof.
  induction 1 as [m p m' Hcd [dp Hp] Hstep
                 |m p m1 k m' Hcd [dp Hp] Hstep Hsuf IH];
    intros [|fuel] Hfuel; try lia.
  - eexists. simpl. unfold_M. simpl. rewrite Hcd, Hp, Hstep.
    split; [reflexivity|]. done.
  - destruct (IH fuel) as (tr & Hrun & Hres & Hloads); [lia|].
    eexists. simpl. unfold_M. simpl. rewrite Hcd, Hp, Hstep, Hrun.
    split; [reflexivity|]. simpl. rewrite Hres, Hloads. done.
Qed.

(** C3.  [Interrupt] with [currentDda] null returns at once, the object
    untouched and no [Step] called.  With [currentDda] not null, whenever
    it returns it has called [Step] on the then-current descriptor some
    [k + 1] times, the first [k] calls returned true and the last one
    false, and the state is the one that last call left; and it does
    return, as soon as the loop is given more than [k] iterations, when
    the [k + 1]-th such call is the first that returns false. *)
Theorem Interrupt_steps_until_Step_returns_false m :
  (currentDda m = None →
     ∀ fuel, Interrupt fuel m = Returns () m [LoadCurrentDda None]
             ∧ step_results [LoadCurrentDda None] = [])
  ∧ (currentDda m ≠ None →
       ∀ fuel m' tr, Interrupt fuel m = Returns () m' tr →
         ∃ k : nat, (k < fuel)%nat ∧ StepsUntilFalse m k m'
                    ∧ step_results tr = replicate k true ++ [false])
  ∧ (∀ (k : nat) m', StepsUntilFalse m k m' →
       ∀ fuel : nat, (k < fuel)%nat →
         ∃ tr, Interrupt fuel m = Returns () m' tr
               ∧ step_results tr = replicate k true ++ [false]).
Proof.
  split; [|split].
  - intros Hcd fuel. unfold Interrupt. unfold_M. simpl. rewrite Hcd. done.
  - intros Hcd fuel m' tr. unfold Interrupt.
    unfold mbind, M_bind, bind, load_currentDda.
    rewrite bool_decide_eq_true_2 by done.
    destruct (Interrupt_loop fuel m) as [[] m2 tr2| |] eqn:Hrun; [|done..].
    intros [= -> <-].
    destruct (Interrupt_loop_sound _ _ _ _ Hrun) as (k & ? & ? & ? & _).
    by exists k.
  - intros k m' Hsuf fuel Hfuel.
    destruct (Interrupt_loop_complete _ _ _ Hsuf fuel Hfuel)
      as (tr & Hrun & Hres & _).
    assert (currentDda m ≠ None) as Hcd by (inversion Hsuf; congruence).
    eexists. unfold Interrupt. unfold mbind, M_bind, bind, load_currentDda.
    rewrite bool_decide_eq_true_2 by done. rewrite Hrun. done.
Qed.

(** C10.  [GetStepInterval] loads [currentDda] exactly once.  When the
    value loaded is null it returns 0 and touches no descriptor; when it
    points at a descriptor of the ring it returns that descriptor's
    [GetStepInterval(axis, microstepShift)].  The object is left as it
    was in both cases. *)
Theorem GetStepInterval_zero_when_no_current_move
    (axis : nat) (microstepShift : Z) m :
  (currentDda m = None →
     GetStepInterval axis microstepShift m =
       Returns 0 m [LoadCurrentDda None])
  ∧ (∀ p d, currentDda m = Some p → ring m !! p = Some d →
       GetStepInterval axis microstepShift m =
         Returns (DDA_GetStepInterval d axis microstepShift) m
                 [LoadCurrentDda (Some p);
                  CallGetStepInterval p axis microstepShift])
  ∧ (∀ r m' tr, GetStepInterval axis microstepShift m = Returns r m' tr →
       length (currentDda_loads tr) = 1%nat ∧ m' = m).
Proof.
  unfold GetStepInterval. unfold_M. simpl.
  split; [|split].
  - intros ->. done.
  - intros p d -> Hp. simpl. rewrite Hp. done.
  - intros r m' tr. destruct (currentDda m) as [p|]; simpl.
    + destruct (ring m !! p); [|done]. by intros [= <- <- <-].
    + by intros [= <- <- <-].
Qed.

(** C7.  [ResetMoveCounters] returns with [GetScheduledMoves()] and
    [GetCompletedMoves()] both 0 and with every other part of the object
    as it was: the ring, [currentDda], the three cursors, [active], the
    idle count, the step-error count, the hiccup count (so
    [GetAndClearHiccups] returns afterwards what it would have returned
    before) and the remaining members. *)
Theorem ResetMoveCounters_zeroes_only_the_two_counters m :
  ∃ m' tr,
    ResetMoveCounters m = Returns () m' tr
    ∧ GetScheduledMoves m' = Returns 0 m' []
    ∧ GetCompletedMoves m' = Returns 0 m' [LoadCompletedMoves 0]
    ∧ m' = set_scheduledMoves 0 (set_completedMoves 0 m)
    ∧ ring m' = ring m
    ∧ currentDda m' = currentDda m
    ∧ ddaRingAddPointer m' = ddaRingAddPointer m
    ∧ ddaRingGetPointer m' = ddaRingGetPointer m
    ∧ ddaRingCheckPointer m' = ddaRingCheckPointer m
    ∧ active m' = active m
    ∧ idleCount m' = idleCount m
    ∧ stepErrors m' = stepErrors m
    ∧ numHiccups m' = numHiccups m
    ∧ rest m' = rest m
    ∧ (∃ m1 m2, GetAndClearHiccups m' = Returns (numHiccups m) m1 []
                ∧ GetAndClearHiccups m = Returns (numHiccups m) m2 []).
Proof.
  eexists _, _. split; [reflexivity|]. simpl.
  repeat split. eexists _, _. split; reflexivity.
Qed.

End MoveTheorems.

(** ** First in, first out: the ring operations of Move.cpp *)

Section RingTheorems.
Import Movement.
Context {Timing Rest : Type} {dda_methods : DDAMethods Timing Rest}.
Implicit Types (m : Move Timing Rest) (d : DDA Timing)
               (pending : list Timing).



Lemma slot_from_get_lt m (i : nat) :
  (0 < length (ring m))%nat → (slot_from_get m i < length (ring m))%nat.
Proof. intros. unfold slot_from_get. apply Nat.mod_upper_bound. lia. Qed.










Lemma wrap32_range (z : Z) : 0 ≤ wrap32 z < UINT32_MOD.
Proof. unfold wrap32. apply Z.mod_pos_bound. done. Qed.























Lemma completed_app (o1 o2 : list (observation Timing)) :
  completed (o1 ++ o2) = completed o1 ++ completed o2.
Proof. apply omap_app. Qed.











End RingTheorems.

(** ** The examples: the executable descriptor of [Movement.Demo] *)

Section DemoFacts.
Import Movement.



End DemoFacts.

(** ** The ADC conversion sequence stays within its arrays *)

Section AdcTheorems.
Import AnalogIn.
Context {Fn Param Task HW : Type}.
Variables (PTAT_Val MUXNEG_GND REFSEL_INTVCC1 : Z) (InitialiseAdc : HW → HW).
Implicit Types (a : AdcClass Fn Param Task) (hw : HW) (c : call Fn Param).

Lemma store_in_range {A} (arr : list A) (i : Z) (v : A) :
  0 ≤ i < Z.of_nat (length arr) →
  store arr i v = Some (<[Z.to_nat i := v]> arr).
Proof. intros. unfold store. by rewrite bool_decide_eq_true_2. Qed.

Lemma InternalEnableChannel_within_bounds
    (chan refCtrl : Z) fn (param : Param) (t now : Z) a hw :
  within_bounds a → numChannelsEnabled a ≠ MaxSequenceLength → 0 ≤ chan →
  ∃ r a' hw',
    InternalEnableChannel MUXNEG_GND InitialiseAdc
                          chan refCtrl fn param t now a hw
      = Some (r, a', hw')
    ∧ within_bounds a'
    ∧ (r = false → a' = a ∧ hw' = hw).
Proof.
  intros [Hsized Hn] Hroom Hchan. unfold MaxSequenceLength in *.
  destruct Hsized as (Hcf & Hcp & Htp & Htl & Hir & Hres & Hrb).
  unfold InternalEnableChannel.
  case_bool_decide as Hc32; [|by eexists _, _, _].
  repeat (rewrite store_in_range
            by (rewrite ?length_insert, ?Hcf, ?Hcp, ?Htp, ?Htl, ?Hir, ?Hrb;
                lia);
          cbn [mbind option_bind]).
  assert (wrap32 (numChannelsEnabled a + 1) = numChannelsEnabled a + 1) as Hw.
  { unfold wrap32, UINT32_MOD. apply Z.mod_small. lia. }
  rewrite Hw.
  case_bool_decide; eexists _, _, _; (split; [reflexivity|]);
    (split; [|done]);
    (split; [|simpl; unfold MaxSequenceLength; lia]);
    unfold sized; simpl; rewrite !length_insert; done.
Qed.

Lemma do_call_within_bounds c a hw :
  within_bounds a → call_typed c →
  ∃ r a' hw',
    do_call PTAT_Val MUXNEG_GND REFSEL_INTVCC1 InitialiseAdc c a hw
      = Some (r, a', hw')
    ∧ within_bounds a'
    ∧ (r = false → a' = a ∧ hw' = hw)
    ∧ (refused c a → r = false).
Proof.
  intros Hin Htyped. destruct c as [chan fn param t now|sn fn param t now];
    simpl in *; unfold is_uint32 in Htyped.
  - unfold EnableChannel.
    destruct (bool_decide (numChannelsEnabled a = MaxSequenceLength)
              || bool_decide (chan >= MaxSequenceLength)) eqn:Hguard.
    + exists false, a, hw. done.
    + apply orb_false_iff in Hguard as [Hn Hc].
      apply bool_decide_eq_false in Hn, Hc.
      destruct (InternalEnableChannel_within_bounds chan
                  (REFSEL_INTVCC1 mod 256) fn param t now a hw)
        as (r & a' & hw' & -> & ? & ?); [done|done|lia|].
      exists r, a', hw'. split; [done|]. split; [done|]. split; [done|].
      intros [?|?]; [done | unfold MaxSequenceLength in *; lia].
  - unfold EnableTemperatureSensor.
    destruct (bool_decide (numChannelsEnabled a = MaxSequenceLength)
              || bool_decide (sn >= 2)) eqn:Hguard.
    + exists false, a, hw. done.
    + apply orb_false_iff in Hguard as [Hn Hc].
      apply bool_decide_eq_false in Hn, Hc.
      destruct (InternalEnableChannel_within_bounds (wrap32 (sn + PTAT_Val))
                  (REFSEL_INTVCC1 mod 256) fn param t now a hw)
        as (r & a' & hw' & -> & ? & ?); [done|done| |].
      { unfold wrap32. apply Z.mod_pos_bound. done. }
      exists r, a', hw'. split; [done|]. split; [done|]. split; [done|].
      intros [?|?]; [done | lia].
Qed.

Lemma do_calls_within_bounds (cs : list (call Fn Param)) : ∀ a hw,
  within_bounds a → Forall call_typed cs →
  ∃ rs a' hw',
    do_calls PTAT_Val MUXNEG_GND REFSEL_INTVCC1 InitialiseAdc cs a hw
      = Some (rs, a', hw')
    ∧ within_bounds a'.
Proof.
  induction cs as [|c cs IH]; intros a hw Hin Htyped.
  - by eexists _, _, _.
  - apply Forall_cons in Htyped as [Hc Hcs].
    destruct (do_call_within_bounds c a hw Hin Hc)
      as (r & a1 & hw1 & Hcall & Hin1 & _).
    destruct (IH a1 hw1 Hin1 Hcs) as (rs & a2 & hw2 & Hrest & Hin2).
    exists (r :: rs), a2, hw2. simpl. rewrite Hcall. simpl.
    rewrite Hrest. done.
Qed.

Lemma construct_within_bounds (param0 : Param) (raw : AdcClass Fn Param Task) :
  sized raw → within_bounds (construct param0 raw).
Proof.
  intros (Hcf & Hcp & Htp & Htl & Hir & Hres & Hrb).
  split; [|simpl; unfold MaxSequenceLength; lia].
  unfold sized. cbn [callbackFunctions callbackParams ticksPerCall
    ticksAtLastCall inputRegisters results resultsByChannel construct].
  rewrite !length_app, !length_replicate, !length_drop, Hcf, Hcp, Hrb. done.
Qed.

(** C9.  After the constructor and any sequence of [EnableChannel] and
    [EnableTemperatureSensor] calls (with [unsigned int] arguments, in an
    object whose arrays have their declared sizes), no array write has
    fallen outside its array, [numChannelsEnabled] is at most
    [MaxSequenceLength = 16], and a further call of either function
    again writes within the arrays; it returns false, with the object
    and the peripherals untouched, whenever [numChannelsEnabled] equals
    [MaxSequenceLength] or the channel number is at least 16 (the
    sensor number at least 2), and whenever it returns false nothing
    has changed. *)
Theorem numChannelsEnabled_never_exceeds_MaxSequenceLength
    (param0 : Param) (raw : AdcClass Fn Param Task)
    (cs : list (call Fn Param)) hw :
  sized raw → Forall call_typed cs →
  ∃ rs a hw',
    do_calls PTAT_Val MUXNEG_GND REFSEL_INTVCC1 InitialiseAdc cs
             (construct param0 raw) hw = Some (rs, a, hw')
    ∧ 0 ≤ numChannelsEnabled a ≤ MaxSequenceLength
    ∧ MaxSequenceLength = 16
    ∧ sized a
    ∧ ∀ c, call_typed c →
        ∃ r a1 hw1,
          do_call PTAT_Val MUXNEG_GND REFSEL_INTVCC1 InitialiseAdc c a hw'
            = Some (r, a1, hw1)
          ∧ 0 ≤ numChannelsEnabled a1 ≤ MaxSequenceLength
          ∧ (r = false → a1 = a ∧ hw1 = hw')
          ∧ (refused c a → r = false).
Proof.
  intros Hsized Htyped.
  destruct (do_calls_within_bounds cs (construct param0 raw) hw)
    as (rs & a & hw' & Hrun & Hin);
    [by apply construct_within_bounds | done |].
  exists rs, a, hw'. destruct Hin as [Hs Hn].
  split; [done|]. split; [done|]. split; [done|]. split; [done|].
  intros c Hc.
  destruct (do_call_within_bounds c a hw' (conj Hs Hn) Hc)
    as (r & a1 & hw1 & Hcall & [_ Hn1] & Hsame & Href).
  by exists r, a1, hw1.
Qed.

End AdcTheorems.

(** ** The self-test report tests bit 0 of the status word *)

Section ReportTheorems.
Import CommandProcessor.

Lemma logical_or_nonzero (a b : Z) : a ≠ 0 ∨ b ≠ 0 → logical_or a b = 1.
Proof.
  intros Hab. unfold logical_or.
  destruct (decide (a = 0)) as [->|Ha].
  - destruct Hab as [?|Hb]; [done|].
    by rewrite (bool_decide_eq_true_2 (b ≠ 0)), orb_true_r.
  - by rewrite (bool_decide_eq_true_2 (a ≠ 0)).
Qed.

Lemma land_1_odd (stat : Z) : Z.land stat 1 ≠ 0 ↔ Z.odd stat = true.
Proof.
  change 1 with (Z.ones 1). rewrite Z.land_ones by lia.
  change (2 ^ 1) with 2. rewrite Zmod_odd.
  destruct (Z.odd stat); split; done.
Qed.

(** What the loop body does for one driver: whichever nonzero values
    the two temperature constants have, the over-temperature line is
    written, and [driversOK] cleared, exactly when bit 0 of the status
    word is set. *)
Lemma check_driver_over_temperature
    (OT OTPW S2G : Z) (status : nat → Z → Z) (driver : nat)
    (reply : list string) (ok : bool) :
  OT ≠ 0 ∨ OTPW ≠ 0 →
  Z.land (status driver 0xFFFFFFFF) S2G = 0 →
  check_driver OT OTPW S2G status driver (reply, ok) =
    if Z.odd (status driver 0xFFFFFFFF)
    then (lcatf reply (over_temperature_line driver), false)
    else (reply, ok).
Proof.
  intros Hc Hs2g. unfold check_driver.
  rewrite logical_or_nonzero by done. rewrite Hs2g.
  rewrite (bool_decide_eq_false_2 (0 ≠ 0)) by (intros ?; done).
  destruct (Z.odd (status driver 0xFFFFFFFF)) eqn:Hodd.
  - rewrite bool_decide_eq_true_2; [done|]. by apply land_1_odd.
  - rewrite bool_decide_eq_false_2; [done|].
    rewrite land_1_odd, Hodd. done.
Qed.

(** C8, what the code does.  With the TMC51xx bits (OT is bit 25, OTPW
    bit 26) a single driver whose status word has OT set gets no
    over-temperature line and the test passes, while a driver whose
    status word is 1, neither bit set, is reported over temperature and
    the test fails; with the TMC22xx bits (OTPW is bit 0, OT bit 1) a
    status word with only OT set passes too. *)
Theorem GenerateTestReport_over_temperature_test_reads_bit_0 :
  Z.land TMC51xx.TMC_RR_OT (Z.lor TMC51xx.TMC_RR_OT TMC51xx.TMC_RR_OTPW) ≠ 0
  ∧ GenerateTestReport TMC51xx.TMC_RR_OT TMC51xx.TMC_RR_OTPW
      TMC51xx.TMC_RR_S2G 1 (λ _ _, TMC51xx.TMC_RR_OT) "0123" ([], false)
    = (["Driver status OK"; "All checks passed"; "Board ID: 0123"], false)
  ∧ Z.land 1 (Z.lor TMC51xx.TMC_RR_OT TMC51xx.TMC_RR_OTPW) = 0
  ∧ GenerateTestReport TMC51xx.TMC_RR_OT TMC51xx.TMC_RR_OTPW
      TMC51xx.TMC_RR_S2G 1 (λ _ _, 1) "0123" ([], false)
    = (["Driver 0 reports over temperature";
        "***** ONE OR MORE CHECKS FAILED *****"], true)
  ∧ Z.land TMC22xx.TMC_RR_OT (Z.lor TMC22xx.TMC_RR_OT TMC22xx.TMC_RR_OTPW) ≠ 0
  ∧ GenerateTestReport TMC22xx.TMC_RR_OT TMC22xx.TMC_RR_OTPW
      TMC22xx.TMC_RR_S2G 1 (λ _ _, TMC22xx.TMC_RR_OT) "0123" ([], false)
    = (["Driver status OK"; "All checks passed"; "Board ID: 0123"], false).
Proof. repeat split; done. Qed.

End ReportTheorems.

(** ** The theorems at concrete inputs *)

Section Examples.
Import Movement.

(** The full ring: the cursors are equal and yet the ring is not empty. *)
Example DDARingEmpty_full_ring :
  ddaRingGetPointer Demo.full = ddaRingAddPointer Demo.full
  ∧ DDARingEmpty Demo.full
    = Returns false Demo.full [LoadGetPointer 0%nat; CallGetState 0%nat].
Proof. split; reflexivity. Qed.

Lemma DDARingEmpty_iff_cursors_equal_and_slot_empty_witness :
  ring Demo.full !! ddaRingAddPointer Demo.full = Some (mkDDA frozen 3%nat)
  ∧ ∃ b tr,
      DDARingEmpty Demo.full = Returns b Demo.full tr
      ∧ (b = true ↔
           ddaRingGetPointer Demo.full = ddaRingAddPointer Demo.full
           ∧ GetState (mkDDA frozen 3%nat) = empty)
      ∧ (ddaRingGetPointer Demo.full = ddaRingAddPointer Demo.full →
         GetState (mkDDA frozen 3%nat) ≠ empty → b = false).
Proof.
  split; [reflexivity|].
  apply (DDARingEmpty_iff_cursors_equal_and_slot_empty
           Demo.full (mkDDA frozen 3%nat)).
  reflexivity.
Defined.

Lemma StartNextMove_installs_the_frozen_descriptor_witness :
  ring Demo.queued !! ddaRingGetPointer Demo.queued
    = Some (mkDDA frozen 3%nat)
  ∧ GetState (mkDDA frozen 3%nat) = frozen
  ∧ ∃ tr,
      StartNextMove 100 Demo.queued = Returns true Demo.running tr
      ∧ tr = [LoadGetPointer 0%nat; StoreCurrentDda (Some 0%nat);
              LoadCurrentDda (Some 0%nat); CallStart 0%nat 100]
      ∧ currentDda (set_currentDda (Some 0%nat) Demo.queued) = Some 0%nat
      ∧ ring (set_currentDda (Some 0%nat) Demo.queued) !! 0%nat
        = Some (mkDDA frozen 3%nat)
      ∧ ∀ p, p ∈ currentDda_stores tr →
          ∃ q d', p = Some q ∧ ring Demo.queued !! q = Some d'
                  ∧ GetState d' = frozen ∧ GetState d' ≠ provisional.
Proof.
  split; [reflexivity|]. split; [reflexivity|].
  exact (StartNextMove_installs_the_frozen_descriptor
           100 Demo.queued (mkDDA frozen 3%nat) eq_refl eq_refl).
Defined.

Lemma Demo_running_steps : StepsUntilFalse Demo.running 2 Demo.stepped.
Proof.
  eapply suf_more; [reflexivity | by eexists | reflexivity |].
  eapply suf_more; [reflexivity | by eexists | reflexivity |].
  eapply suf_last; [reflexivity | by eexists | reflexivity].
Qed.

Lemma Interrupt_steps_until_Step_returns_false_witness :
  StepsUntilFalse Demo.running 2 Demo.stepped
  ∧ (2 < 5)%nat
  ∧ ∃ tr, Interrupt 5 Demo.running = Returns () Demo.stepped tr
          ∧ step_results tr = replicate 2 true ++ [false].
Proof.
  split; [exact Demo_running_steps|]. split; [lia|].
  apply (proj2 (proj2 (Interrupt_steps_until_Step_returns_false Demo.running))
           2%nat Demo.stepped Demo_running_steps 5%nat).
  lia.
Defined.

(** With nothing executing the interrupt does nothing; with too few
    iterations granted the loop is still running. *)
Example Interrupt_runs :
  Interrupt 5 Demo.queued = Returns () Demo.queued [LoadCurrentDda None]
  ∧ Interrupt 5 Demo.running
    = Returns () Demo.stepped
        [LoadCurrentDda (Some 0%nat);
         LoadCurrentDda (Some 0%nat); CallStep 0%nat true;
         LoadCurrentDda (Some 0%nat); CallStep 0%nat true;
         LoadCurrentDda (Some 0%nat); CallStep 0%nat false]
  ∧ Interrupt 2 Demo.running
    = OutOfFuel
        [LoadCurrentDda (Some 0%nat);
         LoadCurrentDda (Some 0%nat); CallStep 0%nat true;
         LoadCurrentDda (Some 0%nat); CallStep 0%nat true].
Proof. repeat split; reflexivity. Qed.

Lemma AllMovesAreFinished_is_a_pure_query_witness :
  ring (Demo.idle 0) !! ddaRingAddPointer (Demo.idle 0)
    = Some (mkDDA empty 0%nat)
  ∧ ∃ e tr1 tr,
      DDARingEmpty (Demo.idle 0) = Returns e (Demo.idle 0) tr1
      ∧ AllMovesAreFinished (Demo.idle 0) =
          Returns (e && bool_decide (currentDda (Demo.idle 0) = None))
                  (Demo.idle 0) tr
      ∧ forallb is_read tr = true
      ∧ ∀ n, ∃ m' trn,
          poll n (Demo.idle 0) =
            Returns (replicate n
                       (e && bool_decide (currentDda (Demo.idle 0) = None)))
                    m' trn
          ∧ m' = Demo.idle 0
          ∧ forallb is_read trn = true
          ∧ DDARingEmpty m' = Returns e m' tr1.
Proof.
  split; [reflexivity|].
  apply (AllMovesAreFinished_is_a_pure_query
           (Demo.idle 0) (mkDDA empty 0%nat)).
  reflexivity.
Defined.

Example AllMovesAreFinished_runs :
  AllMovesAreFinished (Demo.idle 0)
  = Returns true (Demo.idle 0)
      [LoadGetPointer 0%nat; CallGetState 0%nat; LoadCurrentDda None]
  ∧ AllMovesAreFinished Demo.running
    = Returns false Demo.running [LoadGetPointer 0%nat]
  ∧ poll 3 Demo.full
    = Returns [false; false; false] Demo.full
        [LoadGetPointer 0%nat; CallGetState 0%nat;
         LoadGetPointer 0%nat; CallGetState 0%nat;
         LoadGetPointer 0%nat; CallGetState 0%nat].
Proof. repeat split; reflexivity. Qed.

Lemma GetStepInterval_zero_when_no_current_move_witness :
  currentDda Demo.queued = None
  ∧ GetStepInterval 1 0 Demo.queued
    = Returns 0 Demo.queued [LoadCurrentDda None]
  ∧ currentDda Demo.running = Some 0%nat
  ∧ ring Demo.running !! 0%nat = Some (mkDDA executing 3%nat)
  ∧ GetStepInterval 1 0 Demo.running
    = Returns (DDA_GetStepInterval (mkDDA executing 3%nat) 1 0) Demo.running
        [LoadCurrentDda (Some 0%nat); CallGetStepInterval 0%nat 1 0].
Proof.
  split; [reflexivity|]. split.
  { apply (proj1 (GetStepInterval_zero_when_no_current_move 1 0 Demo.queued)).
    reflexivity. }
  split; [reflexivity|]. split; [reflexivity|].
  apply (proj1 (proj2 (GetStepInterval_zero_when_no_current_move
                         1 0 Demo.running))
           0%nat (mkDDA executing 3%nat)); reflexivity.
Defined.

Example ResetMoveCounters_runs :
  ResetMoveCounters Demo.queued
  = Returns () (set_scheduledMoves 0 Demo.queued) [StoreCompletedMoves 0]
  ∧ GetAndClearHiccups (set_scheduledMoves 0 Demo.queued)
    = Returns 7 (set_numHiccups 0 (set_scheduledMoves 0 Demo.queued)) [].
Proof. split; reflexivity. Qed.

Example DdaRingLength_values :
  MainBoard.DdaRingLength (mkBuildConfig true false false) = 30%nat
  ∧ MainBoard.DdaRingLength (mkBuildConfig false true false) = 30%nat
  ∧ MainBoard.DdaRingLength (mkBuildConfig false false true) = 30%nat
  ∧ MainBoard.DdaRingLength (mkBuildConfig false false false) = 20%nat
  ∧ ExpansionBoard.DdaRingLength = 20%nat.
Proof. repeat split; reflexivity. Qed.


(** [StopDrivers] discards the two queued moves, which therefore never
    complete; the counter shows 1 before the reset and 1 again after
    the move that follows it. *)
Example stopped_session_runs :
  (run Demo.stopped_session (Demo.idle 0)).2
  = [Accepted 3%nat; Completed 3%nat; Accepted 5%nat; Accepted 7%nat;
     Discarded 5%nat; Discarded 7%nat; CountersReset;
     Accepted 9%nat; Completed 9%nat]
  ∧ completedMoves (run Demo.stopped_session (Demo.idle 0)).1 = 1
  ∧ pending_moves (run Demo.stopped_session (Demo.idle 0)).1 = [].
Proof.
  split; [vm_compute; reflexivity|].
  split; vm_compute; reflexivity.
Qed.


(** A ring of the expansion-board size takes twenty requests and
    refuses the twenty-first. *)
Example twenty_first_request_refused :
  accepted (run (Enqueue <$> seq 1 21)
                (Init (DdaRingLength ExpansionBoardHeader) 0%nat Demo.queued)).2
  = seq 1 20.
Proof. vm_compute. reflexivity. Qed.

Example session_runs :
  (run Demo.session (Demo.idle 0)).2
  = [Accepted 3%nat; Accepted 5%nat; Completed 3%nat;
     Accepted 7%nat; Completed 5%nat]
  ∧ completedMoves (run Demo.session (Demo.idle 0)).1 = 2.
Proof. split; vm_compute; reflexivity. Qed.

End Examples.

Section AdcExamples.
Import AnalogIn.

Lemma Demo_raw_sized : sized Demo.raw.
Proof. repeat split. Qed.

Lemma Demo_calls_typed : Forall call_typed Demo.calls.
Proof. repeat constructor; done. Qed.

Lemma numChannelsEnabled_never_exceeds_MaxSequenceLength_witness :
  sized Demo.raw
  ∧ Forall call_typed Demo.calls
  ∧ ∃ rs a hw',
      do_calls Demo.PTAT_Val Demo.MUXNEG_GND Demo.REFSEL_INTVCC1 S
               Demo.calls (construct 0%nat Demo.raw) 0%nat
        = Some (rs, a, hw')
      ∧ 0 ≤ numChannelsEnabled a ≤ MaxSequenceLength
      ∧ MaxSequenceLength = 16
      ∧ sized a
      ∧ ∀ c, call_typed c →
          ∃ r a1 hw1,
            do_call Demo.PTAT_Val Demo.MUXNEG_GND Demo.REFSEL_INTVCC1 S
                    c a hw' = Some (r, a1, hw1)
            ∧ 0 ≤ numChannelsEnabled a1 ≤ MaxSequenceLength
            ∧ (r = false → a1 = a ∧ hw1 = hw')
            ∧ (refused c a → r = false).
Proof.
  split; [exact Demo_raw_sized|]. split; [exact Demo_calls_typed|].
  exact (numChannelsEnabled_never_exceeds_MaxSequenceLength
           Demo.PTAT_Val Demo.MUXNEG_GND Demo.REFSEL_INTVCC1 S
           0%nat Demo.raw Demo.calls 0%nat Demo_raw_sized Demo_calls_typed).
Defined.

(** The four calls of [Demo.calls]: two accepted, two refused; and of
    seventeen requests the seventeenth is refused with sixteen entries in
    the sequence. *)
Example enable_calls_run :
  (λ r, (r.1.1, numChannelsEnabled r.1.2, r.2)) <$>
    do_calls Demo.PTAT_Val Demo.MUXNEG_GND Demo.REFSEL_INTVCC1 S
             Demo.calls (construct 0%nat Demo.raw) 0%nat
  = Some ([true; true; false; false], 2, 1%nat)
  ∧ (λ r, (r.1.1, numChannelsEnabled r.1.2, r.2)) <$>
      do_calls Demo.PTAT_Val Demo.MUXNEG_GND Demo.REFSEL_INTVCC1 S
               Demo.too_many (construct 0%nat Demo.raw) 0%nat
    = Some (replicate 16 true ++ [false], 16, 1%nat).
Proof. split; vm_compute; reflexivity. Qed.

End AdcExamples.

(** ** The reply fragments of [CommandProcessor::Spin] *)

Section ReplyTheorems.
Import CommandProcessor.
Variables (MaxTextLength TextSize : Z) (GetActualDataLength : Z → Z).
Hypothesis MaxTextLength_fits : 0 < MaxTextLength ≤ TextSize.

Lemma c_string_clean (l : list ascii) :
  NUL ∉ l → c_string l = l.
Proof.
  induction l as [|c l IH]; intros Hl; [done|]. cbn [c_string].
  apply not_elem_of_cons in Hl as [Hc Hl].
  rewrite bool_decide_eq_false_2 by done. by rewrite IH.
Qed.

Lemma c_string_terminated (l rest : list ascii) :
  NUL ∉ l → c_string (l ++ NUL :: rest) = l.
Proof.
  induction l as [|c l IH]; intros Hl; cbn [c_string app].
  - by rewrite bool_decide_eq_true_2.
  - apply not_elem_of_cons in Hl as [Hc Hl].
    rewrite bool_decide_eq_false_2 by done. by rewrite IH.
Qed.

(** What one round of the loop puts into [text]: [k] characters of the
    source followed, if there is room, by the terminator. *)
Lemma fragment_text (buffer src : list ascii) (k : nat) :
  Z.of_nat (length buffer) = TextSize →
  (k ≤ length src)%nat → Z.of_nat k ≤ TextSize → NUL ∉ src →
  ∃ buffer1 buffer2 k',
    memcpy buffer (src ++ [NUL]) (Z.of_nat k) = Some buffer1
    ∧ (if bool_decide (Z.of_nat k < TextSize)
       then b ← AnalogIn.store buffer1 (Z.of_nat k) NUL;
            Some (b, wrap32 (Z.of_nat k + 1))
       else Some (buffer1, Z.of_nat k)) = Some (buffer2, k')
    ∧ Z.of_nat (length buffer2) = TextSize
    ∧ c_string buffer2 = take k src.
Proof.
  intros Hbuf Hk HkT Hsrc. unfold memcpy.
  rewrite (bool_decide_eq_true_2 (0 ≤ Z.of_nat k ≤ Z.of_nat (length buffer)))
    by lia.
  rewrite (bool_decide_eq_true_2 (Z.of_nat k ≤ _))
    by (rewrite length_app; simpl; lia).
  simpl. rewrite Nat2Z.id.
  rewrite take_app_le by done.
  assert (length (take k src ++ drop k buffer) = length buffer) as Hlen.
  { rewrite length_app, length_take, length_drop. lia. }
  assert (NUL ∉ take k src) as Hclean.
  { intros Hin. apply Hsrc. by apply (subseteq_take k src). }
  exists (take k src ++ drop k buffer). case_bool_decide as Hroom.
  - unfold AnalogIn.store. rewrite bool_decide_eq_true_2 by lia.
    simpl. rewrite Nat2Z.id. eexists _, _. split; [reflexivity|].
    split; [reflexivity|].
    rewrite length_insert. split; [lia|].
    destruct (drop k buffer) as [|c rest] eqn:Hdrop.
    { apply (f_equal length) in Hdrop. rewrite length_drop in Hdrop.
      simpl in Hdrop. lia. }
    replace k with (length (take k src) + 0)%nat at 1
      by (rewrite length_take; lia).
    rewrite insert_app_r. simpl. by apply c_string_terminated.
  - eexists _, _. split; [reflexivity|]. split; [reflexivity|].
    split; [lia|].
    rewrite drop_ge by lia. rewrite app_nil_r. by apply c_string_clean.
Qed.

Section OneReply.
Variables (rslt : GCodeResult.t) (extra0 : Z) (reply : list ascii).
Hypothesis reply_clean : NUL ∉ reply.
Hypothesis reply_short : Z.of_nat (length reply) < UINT32_MOD.

Lemma send_fragments_spec (fuel : nat) : ∀ (sent : nat) (fn : Z) buffer,
  Z.of_nat (length buffer) = TextSize →
  (sent ≤ length reply)%nat → 0 ≤ fn < 256 →
  (length reply - sent < fuel)%nat →
  ∃ frames,
    send_fragments MaxTextLength TextSize GetActualDataLength fuel rslt extra0
                   reply (Z.of_nat sent) fn buffer = Some frames
    ∧ mjoin ((λ f, c_string (text f)) <$> frames) = drop sent reply
    ∧ Forall (λ f, resultCode f = rslt ∧ extra f = extra0
                   ∧ Z.of_nat (length (text f)) = TextSize
                   ∧ Z.of_nat (length (c_string (text f))) ≤ MaxTextLength
                   ∧ (moreFollows f = true →
                      Z.of_nat (length (c_string (text f))) = MaxTextLength))
             frames
    ∧ moreFollows <$> frames
      = replicate (length frames - 1) true ++ [false]
    ∧ fragmentNumber <$> frames
      = (λ i : nat, (fn + Z.of_nat i) mod 256) <$> seq 0 (length frames)
    ∧ Z.of_nat (length frames)
      = frames_needed MaxTextLength
          (Z.of_nat (length reply) - Z.of_nat sent).
Proof.
  induction fuel as [|fuel IH]; intros sent fn buffer Hbuf Hsent Hfn Hfuel;
    [lia|].
  cbn [send_fragments].
  remember (length reply - sent)%nat as r eqn:Hr0.
  assert (wrap32 (Z.of_nat (length reply) - Z.of_nat sent) = Z.of_nat r) as ->.
  { unfold wrap32. rewrite Z.mod_small; lia. }
  remember (Z.to_nat (Z.min (Z.of_nat r) MaxTextLength)) as k eqn:Hk0.
  assert (Z.min (Z.of_nat r) MaxTextLength = Z.of_nat k) as Hk by lia.
  rewrite Hk. rewrite Nat2Z.id.
  rewrite drop_app_le by done.
  assert (length (drop sent reply) = r) as Hr by (rewrite length_drop; lia).
  assert (NUL ∉ drop sent reply) as Hclean.
  { intros Hin. apply reply_clean. by apply (subseteq_drop sent reply). }
  destruct (fragment_text buffer (drop sent reply) k)
    as (b1 & b2 & k' & Hcopy & Hterm & Hlen2 & Hstr); [done|lia|lia|done|].
  rewrite Hcopy. cbn [mbind option_bind]. rewrite Hterm.
  cbn [mbind option_bind].
  assert (wrap32 (Z.of_nat sent + Z.of_nat k) = Z.of_nat (sent + k)) as ->.
  { unfold wrap32. rewrite Z.mod_small; lia. }
  assert (Z.of_nat (length (c_string b2)) = Z.of_nat k) as Hpay.
  { rewrite Hstr, length_take. lia. }
  clear Hcopy Hterm. case_bool_decide as Hdone.
  - (* the last fragment *)
    assert (k = r) as -> by lia.
    eexists. split; [reflexivity|]. simpl.
    rewrite app_nil_r, Hstr, take_ge by lia.
    split; [done|]. split.
    { constructor; [|done]. simpl. split; [done|]. split; [done|].
      split; [done|]. split; [lia|]. done. }
    split; [done|]. split.
    { simpl. by rewrite Z.add_0_r, Z.mod_small. }
    unfold frames_needed. case_bool_decide; [done|].
    rewrite Z.div_small; lia.
  - (* a full fragment, and more to come *)
    assert (Z.of_nat k = MaxTextLength ∧ (k < r)%nat) as [HkM Hkr] by lia.
    destruct (IH (sent + k)%nat ((fn + 1) mod 256) b2)
      as (frames & Hrun & Hcat & Hall & Hmore & Hnum & Hcount);
      [done|lia| by apply Z.mod_pos_bound |lia|].
    rewrite Hrun. cbn [mbind option_bind].
    eexists. split; [reflexivity|].
    assert (frames ≠ []) as Hne.
    { intros ->. simpl in Hmore. discriminate Hmore. }
    split.
    { rewrite fmap_cons. cbn [mjoin list_join text]. fold (@mjoin list _).
      rewrite Hstr.
      rewrite <- (take_drop k (drop sent reply)) at 2.
      f_equal. rewrite drop_drop. exact Hcat. }
    split.
    { constructor; [|done]. simpl. split; [done|]. split; [done|].
      split; [done|]. split; lia. }
    split.
    { rewrite fmap_cons, Hmore. destruct frames as [|f frames]; [done|].
      cbn [length moreFollows].
      replace (S (S (length frames)) - 1)%nat
        with (S (S (length frames) - 1)) by lia.
      done. }
    split.
    { rewrite fmap_cons, Hnum. cbn [length seq fragmentNumber].
      rewrite fmap_cons. change (Z.of_nat 0) with 0.
      rewrite Z.add_0_r, (Z.mod_small fn) by lia. f_equal.
      rewrite <- fmap_S_seq, <- list_fmap_compose.
      apply list_fmap_ext. intros _ i _. simpl.
      rewrite Zplus_mod_idemp_l. f_equal. lia. }
    cbn [length]. rewrite Nat2Z.inj_succ, Hcount. unfold frames_needed.
    rewrite !bool_decide_eq_false_2 by lia.
    replace (Z.of_nat (length reply) - Z.of_nat sent - 1)
      with ((Z.of_nat (length reply) - Z.of_nat (sent + k) - 1)
            + 1 * MaxTextLength) by lia.
    rewrite Z.div_add by lia. lia.
Qed.

End OneReply.

(** X1.  A reply without NUL characters, shorter than 2^32, sent
    through a text array of [TextSize >= MaxTextLength > 0] characters:
    the loop ends within [length reply + 1] rounds without writing
    outside [text], and the texts a receiver reads from the frames (up to
    the terminator, or the whole array), put one after the other in the
    order sent, are the reply. *)
Theorem reply_fragments_reassemble
    (rslt : GCodeResult.t) (extra0 : Z) (reply buffer : list ascii)
    (fuel : nat) :
  NUL ∉ reply →
  Z.of_nat (length reply) < UINT32_MOD →
  Z.of_nat (length buffer) = TextSize →
  (length reply < fuel)%nat →
  ∃ frames,
    send_reply MaxTextLength TextSize GetActualDataLength fuel rslt extra0
               reply buffer = Some frames
    ∧ mjoin ((λ f, c_string (text f)) <$> frames) = reply.
Proof.
  intros Hclean Hshort Hbuf Hfuel.
  destruct (send_fragments_spec rslt extra0 reply Hclean Hshort fuel
              0%nat 0 buffer) as (frames & Hrun & Hcat & _);
    [done|lia|lia|lia|].
  exists frames. split; [exact Hrun | exact Hcat].
Qed.

(** X2.  Under the same conditions the frames are numbered 0, 1, 2, ...
    modulo 256; every frame but the last has [moreFollows] set and
    carries exactly [MaxTextLength] characters, the last has it clear and
    carries at most that many; every frame has the result code and the
    [extra] byte of the command; and there are
    [ceil (length reply / MaxTextLength)] frames, one for the empty
    reply. *)
Theorem reply_fragments_are_framed
    (rslt : GCodeResult.t) (extra0 : Z) (reply buffer : list ascii)
    (fuel : nat) :
  NUL ∉ reply →
  Z.of_nat (length reply) < UINT32_MOD →
  Z.of_nat (length buffer) = TextSize →
  (length reply < fuel)%nat →
  ∃ frames,
    send_reply MaxTextLength TextSize GetActualDataLength fuel rslt extra0
               reply buffer = Some frames
    ∧ Z.of_nat (length frames)
      = frames_needed MaxTextLength (Z.of_nat (length reply))
    ∧ fragmentNumber <$> frames
      = (λ i : nat, Z.of_nat i mod 256) <$> seq 0 (length frames)
    ∧ moreFollows <$> frames = replicate (length frames - 1) true ++ [false]
    ∧ Forall (λ f, resultCode f = rslt ∧ extra f = extra0
                   ∧ Z.of_nat (length (text f)) = TextSize
                   ∧ Z.of_nat (length (c_string (text f))) ≤ MaxTextLength
                   ∧ (moreFollows f = true →
                      Z.of_nat (length (c_string (text f))) = MaxTextLength))
             frames.
Proof.
  intros Hclean Hshort Hbuf Hfuel.
  destruct (send_fragments_spec rslt extra0 reply Hclean Hshort fuel
              0%nat 0 buffer)
    as (frames & Hrun & _ & Hall & Hmore & Hnum & Hcount);
    [done|lia|lia|lia|].
  exists frames. split; [exact Hrun|].
  split; [by rewrite Hcount, Z.sub_0_r|].
  split; [exact Hnum|]. split; [exact Hmore | exact Hall].
Qed.

End ReplyTheorems.

Section ReplyExamples.
Import CommandProcessor.

Lemma Demo_reply_clean : NUL ∉ Demo.reply.
Proof.
  unfold Demo.reply. simpl. intros Hin.
  repeat (apply elem_of_cons in Hin as [Hin|Hin]; [discriminate Hin|]).
  by apply elem_of_nil in Hin.
Qed.

Lemma reply_fragments_reassemble_witness :
  (0 < Demo.MaxTextLength ≤ 5)
  ∧ (NUL ∉ Demo.reply)
  ∧ Z.of_nat (length Demo.reply) < UINT32_MOD
  ∧ Z.of_nat (length Demo.buffer) = 5
  ∧ (length Demo.reply < 11)%nat
  ∧ ∃ frames,
      send_reply Demo.MaxTextLength 5 (λ n, n + 8) 11 GCodeResult.ok 3
                 Demo.reply Demo.buffer = Some frames
      ∧ mjoin ((λ f, c_string (text f)) <$> frames) = Demo.reply.
Proof.
  assert (0 < Demo.MaxTextLength ≤ 5) as H1 by (unfold Demo.MaxTextLength; lia).
  assert (Z.of_nat (length Demo.reply) < UINT32_MOD) as H2 by (vm_compute; done).
  assert (Z.of_nat (length Demo.buffer) = 5) as H3 by reflexivity.
  assert (length Demo.reply < 11)%nat as H4 by (vm_compute; lia).
  split; [exact H1|]. split; [exact Demo_reply_clean|].
  split; [exact H2|]. split; [exact H3|]. split; [exact H4|].
  exact (reply_fragments_reassemble Demo.MaxTextLength 5 (λ n, n + 8) H1
           GCodeResult.ok 3 Demo.reply Demo.buffer 11
           Demo_reply_clean H2 H3 H4).
Defined.

Lemma reply_fragments_are_framed_witness :
  (0 < Demo.MaxTextLength ≤ 5)
  ∧ (NUL ∉ Demo.reply)
  ∧ Z.of_nat (length Demo.reply) < UINT32_MOD
  ∧ Z.of_nat (length Demo.buffer) = 5
  ∧ (length Demo.reply < 11)%nat
  ∧ ∃ frames,
      send_reply Demo.MaxTextLength 5 (λ n, n + 8) 11 GCodeResult.ok 3
                 Demo.reply Demo.buffer = Some frames
      ∧ Z.of_nat (length frames)
        = frames_needed Demo.MaxTextLength (Z.of_nat (length Demo.reply))
      ∧ fragmentNumber <$> frames
        = (λ i : nat, Z.of_nat i mod 256) <$> seq 0 (length frames)
      ∧ moreFollows <$> frames
        = replicate (length frames - 1) true ++ [false]
      ∧ Forall (λ f, resultCode f = GCodeResult.ok ∧ extra f = 3
                     ∧ Z.of_nat (length (text f)) = 5
                     ∧ Z.of_nat (length (c_string (text f)))
                       ≤ Demo.MaxTextLength
                     ∧ (moreFollows f = true →
                        Z.of_nat (length (c_string (text f)))
                        = Demo.MaxTextLength))
               frames.
Proof.
  assert (0 < Demo.MaxTextLength ≤ 5) as H1 by (unfold Demo.MaxTextLength; lia).
  assert (Z.of_nat (length Demo.reply) < UINT32_MOD) as H2 by (vm_compute; done).
  assert (Z.of_nat (length Demo.buffer) = 5) as H3 by reflexivity.
  assert (length Demo.reply < 11)%nat as H4 by (vm_compute; lia).
  split; [exact H1|]. split; [exact Demo_reply_clean|].
  split; [exact H2|]. split; [exact H3|]. split; [exact H4|].
  exact (reply_fragments_are_framed Demo.MaxTextLength 5 (λ n, n + 8) H1
           GCodeResult.ok 3 Demo.reply Demo.buffer 11
           Demo_reply_clean H2 H3 H4).
Defined.

(** The ten characters of the example go out as two full frames; the
    empty reply as one frame that holds only the terminator. *)
Example send_reply_runs :
  (λ fs : list Frame, (λ f, (fragmentNumber f, moreFollows f,
                String.string_of_list_ascii (c_string (text f)),
                dataLength f)) <$> fs) <$>
    send_reply 5 5 (λ n, n + 8) 11 GCodeResult.ok 3 Demo.reply Demo.buffer
  = Some [(0, true, "Board", 13); (1, false, " 7 ok", 13)]
  ∧ (λ fs : list Frame, (λ f, (fragmentNumber f, moreFollows f,
                  String.string_of_list_ascii (c_string (text f)),
                  dataLength f)) <$> fs) <$>
      send_reply 5 5 (λ n, n + 8) 11 GCodeResult.ok 3 [] Demo.buffer
    = Some [(0, false, "", 9)].
Proof. split; vm_compute; reflexivity. Qed.

End ReplyExamples.

(** ** The other member functions of [AdcClass] *)

Section AdcMoreTheorems.
Import AnalogIn.
Context {Fn Param Task HW : Type}.
Variables (PTAT_Val MUXNEG_GND REFSEL_INTVCC1 : Z) (InitialiseAdc : HW → HW)
          (StartDma : Z → HW → HW) (DisableSequencerDma : HW → HW).
Implicit Types (a : AdcClass Fn Param Task) (hw : HW) (c : call Fn Param)
               (w : World Fn Param Task HW).

Lemma land_31_range (r : Z) : 0 ≤ Z.land r 31 < 32.
Proof.
  change 31 with (Z.ones 5). rewrite Z.land_ones by lia.
  apply Z.mod_pos_bound. lia.
Qed.

Lemma load_in_range {A} (arr : list A) (i : nat) (x : A) :
  arr !! i = Some x → load arr (Z.of_nat i) = Some x.
Proof.
  intros Hx. unfold load. rewrite bool_decide_eq_true_2 by lia.
  by rewrite Nat2Z.id.
Qed.

Lemma lookup_sized {A} (arr : list A) (i n : nat) :
  length arr = n → (i < n)%nat → ∃ x, arr !! i = Some x.
Proof. intros <- Hi. by apply lookup_lt_is_Some_2. Qed.

(** One round of the loop of [ExecuteCallbacks] for a slot below
    [numChannelsEnabled], written out. *)
Lemma ExecuteCallbacks_slot_run (now : Z) (j : nat) a
    (called : list (Fn * Param * Z)) :
  within_bounds a → (Z.of_nat j < numChannelsEnabled a) →
  ∃ ir r tl tp cf cp,
    inputRegisters a !! (2 * j)%nat = Some ir
    ∧ results a !! j = Some r
    ∧ ticksAtLastCall a !! j = Some tl
    ∧ ticksPerCall a !! j = Some tp
    ∧ callbackFunctions a !! j = Some cf
    ∧ callbackParams a !! j = Some cp
    ∧ GetChannel (Z.of_nat j) a = Some (Z.land ir 31)
    ∧ ExecuteCallbacks_slot now (Z.of_nat j) (a, called)
      = Some
          (mkAdc (numChannelsEnabled a) (channelsEnabled a) (taskToWake a)
                 (state a) (justStarted a)
                 (callbackFunctions a) (callbackParams a) (ticksPerCall a)
                 (if bool_decide (wrap32 (now - tl) >= tp)
                  then <[j := now]> (ticksAtLastCall a)
                  else ticksAtLastCall a)
                 (inputRegisters a) (results a)
                 (<[Z.to_nat (Z.land ir 31) := r]> (resultsByChannel a)),
           called ++
             (if bool_decide (wrap32 (now - tl) >= tp)
              then match cf with Some fn => [(fn, cp, r)] | None => [] end
              else [])).
Proof.
  intros [Hsized Hn] Hj. unfold MaxSequenceLength in Hn.
  destruct Hsized as (Hcf & Hcp & Htp & Htl & Hir & Hres & Hrb).
  destruct (lookup_sized (inputRegisters a) (2 * j) 32) as [ir Hir'];
    [done|lia|].
  destruct (lookup_sized (results a) j 16) as [r Hr]; [done|lia|].
  destruct (lookup_sized (ticksAtLastCall a) j 16) as [tl Htl']; [done|lia|].
  destruct (lookup_sized (ticksPerCall a) j 16) as [tp Htp']; [done|lia|].
  destruct (lookup_sized (callbackFunctions a) j 16) as [cf Hcf']; [done|lia|].
  destruct (lookup_sized (callbackParams a) j 16) as [cp Hcp']; [done|lia|].
  exists ir, r, tl, tp, cf, cp. repeat (split; [done|]).
  pose proof (land_31_range ir) as Hch.
  assert (GetChannel (Z.of_nat j) a = Some (Z.land ir 31)) as Hget.
  { unfold GetChannel.
    replace (2 * Z.of_nat j) with (Z.of_nat (2 * j)) by lia.
    by rewrite (load_in_range _ _ _ Hir'). }
  split; [done|].
  unfold ExecuteCallbacks_slot. rewrite Hget. cbn [mbind option_bind].
  rewrite (load_in_range _ _ _ Hr). cbn [mbind option_bind].
  rewrite (store_in_range (resultsByChannel a)) by lia.
  cbn [mbind option_bind].
  rewrite (load_in_range _ _ _ Htl'). cbn [mbind option_bind].
  rewrite (load_in_range _ _ _ Htp'). cbn [mbind option_bind].
  case_bool_decide as Hdue; [|by rewrite app_nil_r].
  rewrite (store_in_range (ticksAtLastCall a)) by lia.
  cbn [mbind option_bind]. rewrite Nat2Z.id.
  rewrite (load_in_range _ _ _ Hcf'). cbn [mbind option_bind].
  destruct cf as [fn|]; [|by rewrite app_nil_r].
  rewrite (load_in_range _ _ _ Hcp'). cbn [mbind option_bind].
  done.
Qed.

Lemma shiftl_1_uint32 (chan : Z) :
  0 ≤ chan < 32 → wrap32 (Z.shiftl 1 chan) = 2 ^ chan.
Proof.
  intros Hc. rewrite Z.shiftl_1_l. unfold wrap32, UINT32_MOD.
  apply Z.mod_small. split; [lia|]. apply Z.pow_lt_mono_r; lia.
Qed.

Lemma land_pow2 (x chan : Z) :
  0 ≤ chan →
  Z.land x (2 ^ chan) = if Z.testbit x chan then 2 ^ chan else 0.
Proof.
  intros Hc. apply Z.bits_inj'. intros n Hn.
  rewrite Z.land_spec, Z.pow2_bits_eqb by done.
  destruct (Z.eqb_spec chan n) as [->|Hne].
  - destruct (Z.testbit x n) eqn:Hx; simpl.
    + by rewrite Z.pow2_bits_true.
    + by rewrite Z.bits_0.
  - rewrite andb_false_r. destruct (Z.testbit x chan).
    + by rewrite Z.pow2_bits_false.
    + by rewrite Z.bits_0.
Qed.

Lemma IsChannelEnabled_testbit (chan : Z) a :
  0 ≤ chan < 32 →
  IsChannelEnabled chan a = Z.testbit (channelsEnabled a) chan.
Proof.
  intros Hc. unfold IsChannelEnabled.
  rewrite shiftl_1_uint32, land_pow2 by lia.
  destruct (Z.testbit (channelsEnabled a) chan).
  - apply bool_decide_eq_true_2.
    pose proof (Z.pow_pos_nonneg 2 chan). lia.
  - apply bool_decide_eq_false_2. intros Hne. by apply Hne.
Qed.

Lemma GetChannel_lookup (slot : nat) a :
  GetChannel (Z.of_nat slot) a
  = (λ r, Z.land r 31) <$> inputRegisters a !! (2 * slot)%nat.
Proof.
  unfold GetChannel, load. rewrite bool_decide_eq_true_2 by lia.
  replace (Z.to_nat (2 * Z.of_nat slot)) with (2 * slot)%nat by lia.
  by destruct (inputRegisters a !! (2 * slot)%nat).
Qed.

(** [InternalEnableChannel] with room in the sequence and an input
    number below 32, written out. *)
Lemma InternalEnableChannel_run
    (chan refCtrl : Z) fn (param : Param) (t now : Z) a hw :
  within_bounds a → numChannelsEnabled a ≠ MaxSequenceLength →
  0 ≤ chan < 32 →
  let n := numChannelsEnabled a in
  InternalEnableChannel MUXNEG_GND InitialiseAdc
                        chan refCtrl fn param t now a hw
  = Some (true,
          mkAdc (n + 1) (Z.lor (channelsEnabled a) (2 ^ chan)) (taskToWake a)
                (if bool_decide (n + 1 = 1) then starting else state a)
                (justStarted a)
                (<[Z.to_nat n := fn]> (callbackFunctions a))
                (<[Z.to_nat n := param]> (callbackParams a))
                (<[Z.to_nat n := t]> (ticksPerCall a))
                (<[Z.to_nat n := now]> (ticksAtLastCall a))
                (<[Z.to_nat (n * 2 + 1) := refCtrl]>
                   (<[Z.to_nat (n * 2) := Z.lor MUXNEG_GND chan]>
                      (inputRegisters a)))
                (results a)
                (<[Z.to_nat chan := 0]> (resultsByChannel a)),
          if bool_decide (n + 1 = 1) then InitialiseAdc hw else hw).
Proof.
  intros [Hsized Hn] Hroom Hchan n. unfold MaxSequenceLength in *.
  destruct Hsized as (Hcf & Hcp & Htp & Htl & Hir & Hres & Hrb).
  unfold InternalEnableChannel. fold n.
  rewrite bool_decide_eq_true_2 by lia.
  repeat (rewrite store_in_range
            by (rewrite ?length_insert, ?Hcf, ?Hcp, ?Htp, ?Htl, ?Hir, ?Hrb;
                lia);
          cbn [mbind option_bind]).
  assert (wrap32 (n + 1) = n + 1) as ->.
  { unfold wrap32, UINT32_MOD. apply Z.mod_small. lia. }
  rewrite shiftl_1_uint32 by done.
  by case_bool_decide.
Qed.

Lemma omap_seq_ext {A} (f g : nat → option A) (count : nat) : ∀ j : nat,
  (∀ k, (j ≤ k < j + count)%nat → f k = g k) →
  omap f (seq j count) = omap g (seq j count).
Proof.
  induction count as [|count IH]; intros j Hfg; [done|].
  cbn [seq omap list_omap]. rewrite (Hfg j) by lia.
  rewrite (IH (S j)); [done|]. intros k Hk. apply Hfg. lia.
Qed.

Lemma only_readings_change_refl a : only_readings_change a a.
Proof. repeat split. Qed.

Lemma only_readings_change_trans a1 a2 a3 :
  only_readings_change a1 a2 → only_readings_change a2 a3 →
  only_readings_change a1 a3.
Proof.
  unfold only_readings_change. intros H12 H23.
  destruct H12 as (?&?&?&?&?&?&?&?&?&?&?&?).
  destruct H23 as (?&?&?&?&?&?&?&?&?&?&?&?).
  repeat split; congruence.
Qed.

Lemma only_readings_change_within_bounds a a' :
  only_readings_change a a' → within_bounds a → within_bounds a'.
Proof.
  intros (Hn&?&?&?&?&Hcf&Hcp&Htp&Hir&Hres&Htl&Hrb) [Hs Hb].
  destruct Hs as (?&?&?&?&?&?&?).
  split; [|by rewrite Hn].
  unfold sized. rewrite Hcf, Hcp, Htp, Hir, Hres, Htl, Hrb. done.
Qed.

(** The whole loop of [ExecuteCallbacks], from slot [j] on. *)
Lemma ExecuteCallbacks_from_run (now : Z) (count : nat) : ∀ (j : nat) a called,
  within_bounds a → Z.of_nat (j + count) ≤ numChannelsEnabled a →
  ∃ a',
    ExecuteCallbacks_from count now (Z.of_nat j) (a, called)
      = Some (a', called ++ omap (due_callback now a) (seq j count))
    ∧ only_readings_change a a'
    ∧ (∀ (k : nat) ch, (j ≤ k < j + count)%nat →
         GetChannel (Z.of_nat k) a = Some ch →
         (∀ k' : nat, (k < k' < j + count)%nat →
            GetChannel (Z.of_nat k') a ≠ Some ch) →
         ReadChannel ch a' = results a !! k)
    ∧ (∀ ch, 0 ≤ ch →
         (∀ k : nat, (j ≤ k < j + count)%nat →
            GetChannel (Z.of_nat k) a ≠ Some ch) →
         ReadChannel ch a' = ReadChannel ch a).
Proof.
  induction count as [|count IH]; intros j a called Hin Hcount.
  - exists a. cbn [ExecuteCallbacks_from seq omap list_omap].
    rewrite app_nil_r. split; [done|].
    split; [apply only_readings_change_refl|]. split; [intros; lia | done].
  - cbn [ExecuteCallbacks_from].
    destruct (ExecuteCallbacks_slot_run now j a called Hin)
      as (ir & r & tl & tp & cf & cp & Hir & Hr & Htl & Htp & Hcf & Hcp
          & Hget & Hslot); [lia|].
    rewrite Hslot. cbn [mbind option_bind].
    set (a1 := mkAdc _ _ _ _ _ _ _ _ _ _ _ _) in *.
    assert (only_readings_change a a1) as Hframe1.
    { unfold only_readings_change, a1. cbn.
      repeat (split; [done|]). rewrite length_insert.
      split; [|done]. case_bool_decide; [by rewrite length_insert | done]. }
    assert (within_bounds a1) as Hin1
      by (by eapply only_readings_change_within_bounds).
    replace (Z.of_nat j + 1) with (Z.of_nat (S j)) by lia.
    destruct (IH (S j) a1
                (called ++
                   (if bool_decide (wrap32 (now - tl) >= tp)
                    then match cf with Some fn => [(fn, cp, r)] | None => [] end
                    else [])) Hin1)
      as (a' & Hrun & Hframe & Hlast & Hother); [cbn; lia|].
    exists a'. split.
    { rewrite Hrun. f_equal. f_equal. rewrite <- app_assoc. f_equal.
      cbn [seq omap list_omap].
      assert (due_callback now a j
              = if bool_decide (wrap32 (now - tl) >= tp)
                then (λ fn, (fn, cp, r)) <$> cf else None) as ->.
      { unfold due_callback. rewrite Htl, Htp, Hcf, Hcp, Hr. done. }
      rewrite (omap_seq_ext (due_callback now a1) (due_callback now a)).
      - case_bool_decide; [|done]. by destruct cf.
      - intros k Hk. unfold due_callback, a1. cbn.
        case_bool_decide; [|done].
        rewrite list_lookup_insert_ne by lia. done. }
    split; [by eapply only_readings_change_trans|].
    assert (∀ k : nat, GetChannel (Z.of_nat k) a1 = GetChannel (Z.of_nat k) a)
      as Hchan by done.
    assert (Z.of_nat (length (resultsByChannel a)) = 32) as Hrb.
    { destruct Hin as [(?&?&?&?&?&?&Hrb) _]. by rewrite Hrb. }
    pose proof (land_31_range ir) as Hch.
    split.
    + intros k ch Hk Hgk Hlater.
      destruct (decide (k = j)) as [->|Hne].
      * rewrite Hget in Hgk. injection Hgk as <-.
        rewrite Hother; [|lia|].
        -- unfold ReadChannel, load, a1. cbn.
           rewrite bool_decide_eq_true_2 by lia.
           rewrite list_lookup_insert_eq by lia. by rewrite Hr.
        -- intros k' Hk'. rewrite Hchan. apply Hlater. lia.
      * rewrite (Hlast k ch); [done|lia|by rewrite Hchan|].
        intros k' Hk'. rewrite Hchan. apply Hlater. lia.
    + intros ch Hch0 Hnone. rewrite Hother; [|done|].
      * unfold ReadChannel, load, a1. cbn.
        rewrite bool_decide_eq_true_2 by lia.
        rewrite list_lookup_insert_ne; [done|].
        intros Heq. apply (Hnone j); [lia|]. rewrite Hget. f_equal. lia.
      * intros k Hk. rewrite Hchan. apply Hnone. lia.
Qed.

(** A call that returns true has gone through [InternalEnableChannel]
    with room in the sequence and an input number below 32. *)
Lemma do_call_true_inv c a hw a' hw' :
  within_bounds a → call_typed c →
  do_call PTAT_Val MUXNEG_GND REFSEL_INTVCC1 InitialiseAdc c a hw
    = Some (true, a', hw') →
  let n := numChannelsEnabled a in
  let chan := selected_channel PTAT_Val c in
  0 ≤ n < 16 ∧ 0 ≤ chan < 32
  ∧ a' = mkAdc (n + 1) (Z.lor (channelsEnabled a) (2 ^ chan)) (taskToWake a)
               (if bool_decide (n + 1 = 1) then starting else state a)
               (justStarted a)
               (<[Z.to_nat n := (call_callback c).1.1.1]> (callbackFunctions a))
               (<[Z.to_nat n := (call_callback c).1.1.2]> (callbackParams a))
               (<[Z.to_nat n := (call_callback c).1.2]> (ticksPerCall a))
               (<[Z.to_nat n := (call_callback c).2]> (ticksAtLastCall a))
               (<[Z.to_nat (n * 2 + 1) := REFSEL_INTVCC1 mod 256]>
                  (<[Z.to_nat (n * 2) := Z.lor MUXNEG_GND chan]>
                     (inputRegisters a)))
               (results a)
               (<[Z.to_nat chan := 0]> (resultsByChannel a))
  ∧ hw' = if bool_decide (n + 1 = 1) then InitialiseAdc hw else hw.
Proof.
  intros Hin Htyped Hrun n chan.
  pose proof Hin as [_ Hn]. unfold MaxSequenceLength in Hn.
  assert (∀ ch fn param t now,
            0 ≤ ch → numChannelsEnabled a ≠ 16 →
            InternalEnableChannel MUXNEG_GND InitialiseAdc ch
              (REFSEL_INTVCC1 mod 256) fn param t now a hw
              = Some (true, a', hw') → ch < 32) as Hlt.
  { intros ch fn param t now Hch Hroom Hint.
    destruct (decide (ch < 32)) as [|Hge]; [done|].
    unfold InternalEnableChannel in Hint.
    rewrite bool_decide_eq_false_2 in Hint by done. discriminate Hint. }
  destruct c as [ch fn param t now|sn fn param t now];
    simpl in Hrun, Htyped; unfold is_uint32 in Htyped.
  - unfold EnableChannel in Hrun.
    destruct (bool_decide (numChannelsEnabled a = MaxSequenceLength)
              || bool_decide (ch >= MaxSequenceLength)) eqn:Hguard;
      [discriminate Hrun|].
    apply orb_false_iff in Hguard as [Hroom Hc].
    apply bool_decide_eq_false in Hroom, Hc. unfold MaxSequenceLength in *.
    assert (0 ≤ ch < 32) as Hch by lia.
    rewrite InternalEnableChannel_run in Hrun by done.
    injection Hrun as <- <-. subst n chan. simpl. repeat split; lia || done.
  - unfold EnableTemperatureSensor in Hrun.
    destruct (bool_decide (numChannelsEnabled a = MaxSequenceLength)
              || bool_decide (sn >= 2)) eqn:Hguard;
      [discriminate Hrun|].
    apply orb_false_iff in Hguard as [Hroom Hc].
    apply bool_decide_eq_false in Hroom, Hc. unfold MaxSequenceLength in *.
    assert (0 ≤ wrap32 (sn + PTAT_Val)) as Hch0.
    { unfold wrap32. apply Z.mod_pos_bound. done. }
    pose proof (Hlt _ _ _ _ _ Hch0 Hroom Hrun) as Hch.
    rewrite InternalEnableChannel_run in Hrun by (done || lia).
    injection Hrun as <- <-. subst n chan. simpl. repeat split; lia || done.
Qed.

Lemma do_call_true_effect c a hw a' hw' :
  within_bounds a → call_typed c →
  do_call PTAT_Val MUXNEG_GND REFSEL_INTVCC1 InitialiseAdc c a hw
    = Some (true, a', hw') →
  let n := numChannelsEnabled a in
  let chan := selected_channel PTAT_Val c in
  0 ≤ n < MaxSequenceLength ∧ 0 ≤ chan < 32
  ∧ numChannelsEnabled a' = n + 1
  ∧ (Z.land MUXNEG_GND 31 = 0 → GetChannel n a' = Some chan)
  ∧ IsChannelEnabled chan a' = true
  ∧ ReadChannel chan a' = Some 0
  ∧ callbackFunctions a' !! Z.to_nat n = Some (call_callback c).1.1.1
  ∧ callbackParams a' !! Z.to_nat n = Some (call_callback c).1.1.2
  ∧ ticksPerCall a' !! Z.to_nat n = Some (call_callback c).1.2
  ∧ ticksAtLastCall a' !! Z.to_nat n = Some (call_callback c).2
  ∧ (∀ slot, 0 ≤ slot < n →
       GetChannel slot a' = GetChannel slot a
       ∧ callbackFunctions a' !! Z.to_nat slot
         = callbackFunctions a !! Z.to_nat slot
       ∧ callbackParams a' !! Z.to_nat slot
         = callbackParams a !! Z.to_nat slot
       ∧ ticksPerCall a' !! Z.to_nat slot = ticksPerCall a !! Z.to_nat slot)
  ∧ (∀ other, 0 ≤ other < 32 → other ≠ chan →
       IsChannelEnabled other a' = IsChannelEnabled other a
       ∧ ReadChannel other a' = ReadChannel other a).
Proof.
  intros Hin Htyped Hrun n chan.
  destruct (do_call_true_inv c a hw a' hw' Hin Htyped Hrun)
    as (Hn & Hchan & -> & _).
  fold n chan in Hn, Hchan |- *.
  destruct Hin as [(Hcf & Hcp & Htp & Htl & Hir & Hres & Hrb) _].
  split; [done|]. split; [done|]. split; [done|].
  split.
  { intros Hgnd. replace n with (Z.of_nat (Z.to_nat n)) at 1 by lia.
    rewrite GetChannel_lookup. cbn [inputRegisters].
    rewrite list_lookup_insert_ne by lia.
    replace (Z.to_nat (n * 2)) with (2 * Z.to_nat n)%nat by lia.
    rewrite list_lookup_insert_eq by lia. cbn. f_equal.
    rewrite Z.land_lor_distr_l, Hgnd, Z.lor_0_l.
    change 31 with (Z.ones 5). rewrite Z.land_ones by lia.
    apply Z.mod_small. lia. }
  split.
  { rewrite IsChannelEnabled_testbit by done. cbn [channelsEnabled].
    rewrite Z.lor_spec, Z.pow2_bits_true by lia. apply orb_true_r. }
  split.
  { unfold ReadChannel, load. cbn [resultsByChannel].
    rewrite bool_decide_eq_true_2 by lia.
    by rewrite list_lookup_insert_eq by lia. }
  cbn [callbackFunctions callbackParams ticksPerCall ticksAtLastCall].
  rewrite !list_lookup_insert_eq by lia.
  split; [done|]. split; [done|]. split; [done|]. split; [done|].
  split.
  - intros slot Hslot.
    rewrite !list_lookup_insert_ne by lia. split; [|done].
    replace slot with (Z.of_nat (Z.to_nat slot)) by lia.
    rewrite !GetChannel_lookup. cbn [inputRegisters].
    by rewrite !list_lookup_insert_ne by lia.
  - intros other Hother Hne. split.
    + rewrite !IsChannelEnabled_testbit by done. cbn [channelsEnabled].
      rewrite Z.lor_spec, Z.pow2_bits_false by lia. apply orb_false_r.
    + unfold ReadChannel, load. cbn [resultsByChannel].
      rewrite bool_decide_eq_true_2 by lia.
      by rewrite list_lookup_insert_ne by lia.
Qed.

(** X3.  An enable call that returns true took the next free slot of the
    conversion sequence for the input it selects: with [n] the old
    [numChannelsEnabled], the new count is [n + 1], [GetChannel(n)] is
    the selected input (given that [ADC_INPUTCTRL_MUXNEG_GND] has none of
    the five low bits set), [IsChannelEnabled] is true for it, its
    reading is reset to 0, and slot [n] holds the callback, its
    parameter, the interval and the time of the call; the slots below
    [n], the channels that were enabled and the readings of the other
    channels are as before. *)
Theorem enable_call_takes_the_next_slot c a hw a' hw' :
  within_bounds a → call_typed c → Z.land MUXNEG_GND 31 = 0 →
  do_call PTAT_Val MUXNEG_GND REFSEL_INTVCC1 InitialiseAdc c a hw
    = Some (true, a', hw') →
  let n := numChannelsEnabled a in
  let chan := selected_channel PTAT_Val c in
  0 ≤ n < MaxSequenceLength ∧ 0 ≤ chan < 32
  ∧ numChannelsEnabled a' = n + 1
  ∧ GetChannel n a' = Some chan
  ∧ IsChannelEnabled chan a' = true
  ∧ ReadChannel chan a' = Some 0
  ∧ callbackFunctions a' !! Z.to_nat n = Some (call_callback c).1.1.1
  ∧ callbackParams a' !! Z.to_nat n = Some (call_callback c).1.1.2
  ∧ ticksPerCall a' !! Z.to_nat n = Some (call_callback c).1.2
  ∧ ticksAtLastCall a' !! Z.to_nat n = Some (call_callback c).2
  ∧ (∀ slot, 0 ≤ slot < n →
       GetChannel slot a' = GetChannel slot a
       ∧ callbackFunctions a' !! Z.to_nat slot
         = callbackFunctions a !! Z.to_nat slot
       ∧ callbackParams a' !! Z.to_nat slot
         = callbackParams a !! Z.to_nat slot
       ∧ ticksPerCall a' !! Z.to_nat slot = ticksPerCall a !! Z.to_nat slot)
  ∧ (∀ other, 0 ≤ other < 32 → other ≠ chan →
       IsChannelEnabled other a' = IsChannelEnabled other a
       ∧ ReadChannel other a' = ReadChannel other a).
Proof.
  intros Hin Htyped Hgnd Hrun n chan.
  destruct (do_call_true_effect c a hw a' hw' Hin Htyped Hrun)
    as (H1 & H2 & H3 & H4 & Hrest).
  split; [exact H1|]. split; [exact H2|]. split; [exact H3|].
  split; [exact (H4 Hgnd) | exact Hrest].
Qed.

Lemma same_sequence_facts a a' :
  numChannelsEnabled a' = numChannelsEnabled a →
  channelsEnabled a' = channelsEnabled a →
  inputRegisters a' = inputRegisters a →
  sequence_extended a a'
  ∧ (bitmap_matches_sequence a → bitmap_matches_sequence a').
Proof.
  intros Hn Hce Hir.
  assert (∀ slot, GetChannel slot a' = GetChannel slot a) as Hget.
  { intros slot. unfold GetChannel. by rewrite Hir. }
  assert (∀ chan, IsChannelEnabled chan a' = IsChannelEnabled chan a) as Hen.
  { intros chan. unfold IsChannelEnabled. by rewrite Hce. }
  split.
  - unfold sequence_extended. rewrite Hn. split; [lia|].
    split; [intros; apply Hget | intros ? ?; by rewrite Hen].
  - intros Hmatch chan Hchan. rewrite Hen, Hn.
    rewrite (Hmatch chan Hchan). by setoid_rewrite Hget.
Qed.

Lemma sequence_extended_refl a : sequence_extended a a.
Proof. split; [lia|]. split; done. Qed.

Lemma sequence_extended_trans a1 a2 a3 :
  sequence_extended a1 a2 → sequence_extended a2 a3 →
  sequence_extended a1 a3.
Proof.
  intros (Hn12 & Hs12 & He12) (Hn23 & Hs23 & He23).
  split; [lia|]. split.
  - intros slot Hslot. rewrite Hs23 by lia. by apply Hs12.
  - intros chan Hchan Hen. apply He23; [done|]. by apply He12.
Qed.

Lemma StartConversion_facts (t : option Task) a hw (started : Z) :
  within_bounds a →
  let a' := (StartConversion StartDma t a hw started).1.1.2 in
  within_bounds a' ∧ (serviceable a → serviceable a')
  ∧ sequence_extended a a'
  ∧ (bitmap_matches_sequence a → bitmap_matches_sequence a').
Proof.
  intros Hin. unfold StartConversion.
  destruct (bool_decide (numChannelsEnabled a = 0)
            || bool_decide (state a = converting)); cbn.
  - split; [done|]. split; [done|].
    split; [apply sequence_extended_refl | done].
  - split; [done|]. split; [by intros _ _|].
    by apply same_sequence_facts.
Qed.

Lemma ExecuteCallbacks_facts (now : Z) a :
  within_bounds a →
  ∃ a',
    ExecuteCallbacks now a = Some (a', due_callbacks now a)
    ∧ only_readings_change a a'
    ∧ within_bounds a' ∧ (serviceable a → serviceable a')
    ∧ sequence_extended a a'
    ∧ (bitmap_matches_sequence a → bitmap_matches_sequence a').
Proof.
  intros Hin. pose proof Hin as [_ Hn].
  destruct (ExecuteCallbacks_from_run now (Z.to_nat (numChannelsEnabled a))
              0%nat a [] Hin) as (a' & Hrun & Hframe & _); [lia|].
  exists a'. split; [exact Hrun|]. split; [exact Hframe|].
  split; [by eapply only_readings_change_within_bounds|].
  destruct Hframe as (Hn' & Hce & _ & Hst & _ & _ & _ & _ & Hir & _).
  split; [unfold serviceable; by rewrite Hn', Hst|].
  by apply same_sequence_facts.
Qed.

(** What every operation keeps, and how it can change the sequence. *)
Lemma apply_operation_facts (op : operation Fn Param Task) w :
  within_bounds (adc w) → operation_typed op →
  ∃ w',
    apply_operation PTAT_Val MUXNEG_GND REFSEL_INTVCC1 InitialiseAdc
                    StartDma DisableSequencerDma op w = Some w'
    ∧ within_bounds (adc w')
    ∧ (serviceable (adc w) → serviceable (adc w'))
    ∧ sequence_extended (adc w) (adc w')
    ∧ (Z.land MUXNEG_GND 31 = 0 →
       bitmap_matches_sequence (adc w) → bitmap_matches_sequence (adc w')).
Proof.
  intros Hin Htyped. destruct op as [c|t|now| |now t]; cbn in Htyped.
  - (* an enable call *)
    destruct (do_call_within_bounds PTAT_Val MUXNEG_GND REFSEL_INTVCC1
                InitialiseAdc c (adc w) (peripherals w) Hin Htyped)
      as (r & a' & hw' & Hcall & Hin' & Hsame & _).
    eexists. cbn [apply_operation]. rewrite Hcall. cbn.
    split; [reflexivity|]. cbn [adc]. split; [done|].
    destruct r.
    + destruct (do_call_true_inv c _ _ _ _ Hin Htyped Hcall)
        as (Hn & Hchan & Ha' & _).
      destruct (do_call_true_effect c _ _ _ _ Hin Htyped Hcall)
        as (_ & _ & Hn' & Hslot & Hon & _ & _ & _ & _ & _ & Hbelow & Hother).
      split.
      { intros Hserv _. rewrite Ha'. cbn. case_bool_decide; [done|].
        apply Hserv. lia. }
      split.
      { split; [lia|]. split; [intros slot Hs; by apply Hbelow|].
        intros chan Hc Hen.
        destruct (decide (chan = selected_channel PTAT_Val c)) as [->|Hne];
          [done|].
        by rewrite (proj1 (Hother chan Hc Hne)). }
      intros Hgnd Hmatch chan Hc. rewrite Hn'.
      destruct (decide (chan = selected_channel PTAT_Val c)) as [->|Hne].
      * split; [|done]. intros _.
        exists (numChannelsEnabled (adc w)). split; [lia | by apply Hslot].
      * rewrite (proj1 (Hother chan Hc Hne)), (Hmatch chan Hc). split.
        -- intros (slot & Hs & Hget). exists slot. split; [lia|].
           by rewrite (proj1 (Hbelow slot Hs)).
        -- intros (slot & Hs & Hget).
           destruct (decide (slot = numChannelsEnabled (adc w))) as [->|Hlt].
           ++ rewrite (Hslot Hgnd) in Hget. congruence.
           ++ exists slot. split; [lia|].
              by rewrite <- (proj1 (Hbelow slot ltac:(lia))).
    + destruct (Hsame eq_refl) as [-> _].
      split; [done|]. split; [apply sequence_extended_refl | done].
  - (* StartConversion *)
    pose proof (StartConversion_facts t (adc w) (peripherals w)
                  (conversionsStarted w) Hin) as Hfacts.
    cbn [apply_operation].
    destruct (StartConversion _ _ _ _ _) as [[[r a'] hw'] n'].
    eexists. split; [reflexivity|]. cbn in Hfacts |- *.
    destruct Hfacts as (? & ? & ? & ?).
    split; [done|]. split; [done|]. split; [done|]. auto.
  - (* ExecuteCallbacks *)
    destruct (ExecuteCallbacks_facts now (adc w) Hin)
      as (a' & Hrun & _ & ? & ? & ? & ?).
    eexists. cbn [apply_operation]. rewrite Hrun. cbn.
    split; [reflexivity|].
    split; [done|]. split; [done|]. split; [done|]. auto.
  - (* ResultReadyCallback *)
    eexists. cbn [apply_operation ResultReadyCallback].
    split; [reflexivity|]. cbn.
    split; [done|]. split; [by intros _ _|].
    pose proof (same_sequence_facts (adc w)
                (mkAdc (numChannelsEnabled (adc w)) (channelsEnabled (adc w))
                   (taskToWake (adc w)) ready (justStarted (adc w))
                   (callbackFunctions (adc w)) (callbackParams (adc w))
                   (ticksPerCall (adc w)) (ticksAtLastCall (adc w))
                   (inputRegisters (adc w)) (results (adc w))
                   (resultsByChannel (adc w))) eq_refl eq_refl eq_refl)
      as [? ?].
    split; [done | auto].
  - (* the switch of AinLoop *)
    cbn [apply_operation]. unfold AinLoop_service, GetState.
    destruct (state (adc w)) eqn:Hstate.
    + eexists. split; [reflexivity|]. cbn.
      split; [done|]. split; [done|].
      split; [apply sequence_extended_refl | done].
    + pose proof (StartConversion_facts (Some t) (adc w) (peripherals w)
                    (conversionsStarted w) Hin) as Hfacts.
      destruct (StartConversion _ _ _ _ _) as [[[r a'] hw'] n'].
      eexists. split; [reflexivity|]. cbn in Hfacts |- *.
      destruct Hfacts as (? & ? & ? & ?).
      split; [done|]. split; [done|]. split; [done|]. auto.
    + pose proof (StartConversion_facts (Some t) (adc w) (peripherals w)
                    (conversionsStarted w) Hin) as Hfacts.
      destruct (StartConversion _ _ _ _ _) as [[[r a'] hw'] n'].
      eexists. split; [reflexivity|]. cbn in Hfacts |- *.
      destruct Hfacts as (? & ? & ? & ?).
      split; [done|]. split; [done|]. split; [done|]. auto.
    + eexists. split; [reflexivity|]. cbn.
      split; [done|]. split; [done|].
      split; [apply sequence_extended_refl | done].
    + destruct (ExecuteCallbacks_facts now (adc w) Hin)
        as (a1 & Hrun & _ & Hin1 & Hserv1 & Hext1 & Hmatch1).
      rewrite Hrun. cbn [mbind option_bind].
      pose proof (StartConversion_facts (Some t) a1 (peripherals w)
                    (conversionsStarted w) Hin1) as Hfacts.
      destruct (StartConversion _ _ _ _ _) as [[[r a'] hw'] n'].
      eexists. split; [reflexivity|]. cbn in Hfacts |- *.
      destruct Hfacts as (? & ? & ? & ?).
      split; [done|]. split; [auto|].
      split; [by eapply sequence_extended_trans|]. auto.
Qed.

Lemma apply_operations_facts (ops : list (operation Fn Param Task)) : ∀ w,
  within_bounds (adc w) → Forall operation_typed ops →
  ∃ w',
    apply_operations PTAT_Val MUXNEG_GND REFSEL_INTVCC1 InitialiseAdc
                     StartDma DisableSequencerDma ops w = Some w'
    ∧ within_bounds (adc w')
    ∧ (serviceable (adc w) → serviceable (adc w'))
    ∧ sequence_extended (adc w) (adc w')
    ∧ (Z.land MUXNEG_GND 31 = 0 →
       bitmap_matches_sequence (adc w) → bitmap_matches_sequence (adc w')).
Proof.
  induction ops as [|op ops IH]; intros w Hin Htyped.
  - exists w. split; [done|]. split; [done|]. split; [done|].
    split; [apply sequence_extended_refl | done].
  - apply Forall_cons in Htyped as [Hop Hops].
    destruct (apply_operation_facts op w Hin Hop)
      as (w1 & Hrun1 & Hin1 & Hserv1 & Hext1 & Hmatch1).
    destruct (IH w1 Hin1 Hops)
      as (w2 & Hrun2 & Hin2 & Hserv2 & Hext2 & Hmatch2).
    exists w2. cbn [apply_operations]. rewrite Hrun1. cbn.
    split; [done|]. split; [done|]. split; [auto|].
    split; [by eapply sequence_extended_trans | auto].
Qed.

Lemma construct_facts (param0 : Param) (raw : AdcClass Fn Param Task) :
  serviceable (construct param0 raw)
  ∧ bitmap_matches_sequence (construct param0 raw).
Proof.
  split.
  - intros Hn. cbn in Hn. lia.
  - intros chan Hchan. unfold IsChannelEnabled. cbn. split.
    + intros Hen. apply bool_decide_eq_true in Hen. done.
    + intros (slot & Hslot & _). lia.
Qed.

(** X4.  After the constructor and any sequence of member function
    calls (enable calls, [StartConversion], [ExecuteCallbacks],
    [ResultReadyCallback], the service [switch] of [AinLoop]), in any
    order: no array access has fallen outside its array,
    [numChannelsEnabled] is between 0 and 16, and once a channel is
    enabled the state is never [noChannels] again, so that [AinLoop]
    does not skip an ADC that has channels. *)
Theorem AdcClass_operations_stay_within_bounds
    (param0 : Param) (raw : AdcClass Fn Param Task) hw
    (ops : list (operation Fn Param Task)) :
  sized raw → Forall operation_typed ops →
  ∃ w',
    apply_operations PTAT_Val MUXNEG_GND REFSEL_INTVCC1 InitialiseAdc
                     StartDma DisableSequencerDma ops
                     (constructed param0 raw hw) = Some w'
    ∧ sized (adc w')
    ∧ 0 ≤ numChannelsEnabled (adc w') ≤ MaxSequenceLength
    ∧ (0 < numChannelsEnabled (adc w') → GetState (adc w') ≠ noChannels).
Proof.
  intros Hsized Htyped.
  destruct (apply_operations_facts ops (constructed param0 raw hw))
    as (w' & Hrun & [Hs Hn] & Hserv & _);
    [by apply construct_within_bounds | done |].
  exists w'. split; [done|]. split; [done|]. split; [done|].
  apply Hserv. apply construct_facts.
Qed.

(** X5.  After the constructor and any sequence of member function
    calls, the channel bitmap and the conversion sequence agree: for a
    channel number below 32, [IsChannelEnabled] is true exactly when
    [GetChannel] returns that channel for some slot below
    [numChannelsEnabled] (given that [ADC_INPUTCTRL_MUXNEG_GND] has none
    of the five low bits set). *)
Theorem channel_bitmap_matches_the_sequence
    (param0 : Param) (raw : AdcClass Fn Param Task) hw
    (ops : list (operation Fn Param Task)) :
  sized raw → Forall operation_typed ops → Z.land MUXNEG_GND 31 = 0 →
  ∃ w',
    apply_operations PTAT_Val MUXNEG_GND REFSEL_INTVCC1 InitialiseAdc
                     StartDma DisableSequencerDma ops
                     (constructed param0 raw hw) = Some w'
    ∧ ∀ chan, 0 ≤ chan < 32 →
        (IsChannelEnabled chan (adc w') = true
         ↔ ∃ slot, 0 ≤ slot < numChannelsEnabled (adc w')
                   ∧ GetChannel slot (adc w') = Some chan).
Proof.
  intros Hsized Htyped Hgnd.
  destruct (apply_operations_facts ops (constructed param0 raw hw))
    as (w' & Hrun & _ & _ & _ & Hmatch);
    [by apply construct_within_bounds | done |].
  exists w'. split; [done|].
  apply (Hmatch Hgnd). apply construct_facts.
Qed.

(** X6.  The conversion sequence only grows: from any state within
    bounds, after any sequence of member function calls the number of
    enabled channels is not smaller, every slot that was in use still
    converts the same channel, and every channel that was enabled is
    still enabled. *)
Theorem conversion_sequence_only_grows
    (ops : list (operation Fn Param Task)) w :
  within_bounds (adc w) → Forall operation_typed ops →
  ∃ w',
    apply_operations PTAT_Val MUXNEG_GND REFSEL_INTVCC1 InitialiseAdc
                     StartDma DisableSequencerDma ops w = Some w'
    ∧ numChannelsEnabled (adc w) ≤ numChannelsEnabled (adc w')
    ∧ (∀ slot, 0 ≤ slot < numChannelsEnabled (adc w) →
         GetChannel slot (adc w') = GetChannel slot (adc w))
    ∧ (∀ chan, 0 ≤ chan < 32 →
         IsChannelEnabled chan (adc w) = true →
         IsChannelEnabled chan (adc w') = true).
Proof.
  intros Hin Htyped.
  destruct (apply_operations_facts ops w Hin Htyped)
    as (w' & Hrun & _ & _ & Hext & _).
  exists w'. split; [done | exact Hext].
Qed.

(** X7.  [ExecuteCallbacks] on an object within bounds reads and
    writes inside the arrays and invokes exactly the callbacks that are
    due, in slot order: for each slot below [numChannelsEnabled] whose
    interval has elapsed ([now - ticksAtLastCall >= ticksPerCall] in
    [uint32_t] arithmetic) and whose function pointer is not null, the
    function with the slot's parameter and result.  It changes nothing
    but [ticksAtLastCall] and [resultsByChannel]; and a callback
    registered with [ticksPerCall = 0] is invoked on every pass. *)
Theorem ExecuteCallbacks_invokes_the_due_callbacks (now : Z) a :
  within_bounds a →
  ∃ a',
    ExecuteCallbacks now a = Some (a', due_callbacks now a)
    ∧ only_readings_change a a'
    ∧ ∀ (i : nat) fn cp r,
        Z.of_nat i < numChannelsEnabled a →
        ticksPerCall a !! i = Some 0 →
        callbackFunctions a !! i = Some (Some fn) →
        callbackParams a !! i = Some cp →
        results a !! i = Some r →
        (fn, cp, r) ∈ due_callbacks now a.
Proof.
  intros Hin.
  destruct (ExecuteCallbacks_facts now a Hin) as (a' & Hrun & Hframe & _).
  exists a'. split; [done|]. split; [done|].
  intros i fn cp r Hi Htp Hcf Hcp Hr.
  destruct Hin as [(_ & _ & _ & Htl & _) [_ Hn]].
  unfold MaxSequenceLength in Hn.
  destruct (lookup_sized (ticksAtLastCall a) i 16) as [tl Htl'];
    [done|lia|].
  unfold due_callbacks. apply list_elem_of_omap. exists i. split.
  - apply elem_of_seq. lia.
  - unfold due_callback. rewrite Htl', Htp, Hcf, Hcp, Hr. cbn.
    rewrite bool_decide_eq_true_2; [done|].
    pose proof (wrap32_range (now - tl)). lia.
Qed.

(** X8.  After [ExecuteCallbacks], [ReadChannel] of the channel of a
    slot returns that slot's conversion result, for the last slot that
    converts the channel; a channel that no slot converts keeps its
    reading. *)
Theorem ExecuteCallbacks_files_results_by_channel (now : Z) a a'
    (cs : list (Fn * Param * Z)) :
  within_bounds a →
  ExecuteCallbacks now a = Some (a', cs) →
  (∀ (k : nat) chan,
     Z.of_nat k < numChannelsEnabled a →
     GetChannel (Z.of_nat k) a = Some chan →
     (∀ k' : nat, (k < k')%nat → Z.of_nat k' < numChannelsEnabled a →
        GetChannel (Z.of_nat k') a ≠ Some chan) →
     ReadChannel chan a' = results a !! k)
  ∧ (∀ chan, 0 ≤ chan →
       (∀ k : nat, Z.of_nat k < numChannelsEnabled a →
          GetChannel (Z.of_nat k) a ≠ Some chan) →
       ReadChannel chan a' = ReadChannel chan a).
Proof.
  intros Hin Hrun. pose proof Hin as [_ Hn].
  destruct (ExecuteCallbacks_from_run now (Z.to_nat (numChannelsEnabled a))
              0%nat a [] Hin) as (a1 & Hrun1 & _ & Hlast & Hother); [lia|].
  unfold ExecuteCallbacks in Hrun. change 0 with (Z.of_nat 0) in Hrun.
  rewrite Hrun1 in Hrun. injection Hrun as <- _.
  split.
  - intros k chan Hk Hget Hlater. apply (Hlast k chan); [lia|done|].
    intros k' Hk'. apply Hlater; lia.
  - intros chan Hchan Hnone. apply Hother; [done|].
    intros k Hk. apply Hnone. lia.
Qed.

(** X9.  [StartConversion] starts a conversion exactly when a channel is
    enabled and none is in progress: it then records the task to wake,
    enters state [converting] and counts the start; otherwise it returns
    false and changes nothing.  Whatever the first call did, a second
    call right after it is refused. *)
Theorem StartConversion_refuses_a_second_start
    (t1 t2 : option Task) a hw (started : Z) :
  let r1 := (StartConversion StartDma t1 a hw started).1.1.1 in
  let a1 := (StartConversion StartDma t1 a hw started).1.1.2 in
  let hw1 := (StartConversion StartDma t1 a hw started).1.2 in
  let s1 := (StartConversion StartDma t1 a hw started).2 in
  (r1 = true ↔ numChannelsEnabled a ≠ 0 ∧ GetState a ≠ converting)
  ∧ (r1 = true →
     GetState a1 = converting ∧ taskToWake a1 = t1
     ∧ numChannelsEnabled a1 = numChannelsEnabled a
     ∧ s1 = wrap32 (started + 1)
     ∧ hw1 = StartDma (numChannelsEnabled a) hw)
  ∧ (r1 = false → a1 = a ∧ hw1 = hw ∧ s1 = started)
  ∧ StartConversion StartDma t2 a1 hw1 s1 = (false, a1, hw1, s1).
Proof.
  unfold StartConversion, GetState.
  destruct (decide (numChannelsEnabled a = 0)) as [Hz|Hnz].
  - rewrite (bool_decide_eq_true_2 _ Hz). cbn.
    rewrite (bool_decide_eq_true_2 _ Hz). cbn.
    split; [split; [done | intros [? _]; done]|]. done.
  - rewrite (bool_decide_eq_false_2 _ Hnz). cbn.
    destruct (decide (state a = converting)) as [Hc|Hnc].
    + rewrite (bool_decide_eq_true_2 _ Hc). cbn.
      rewrite (bool_decide_eq_false_2 _ Hnz), (bool_decide_eq_true_2 _ Hc).
      cbn. split; [split; [done | intros [_ ?]; done]|]. done.
    + rewrite (bool_decide_eq_false_2 _ Hnc). cbn.
      rewrite (bool_decide_eq_false_2 _ Hnz). cbn.
      split; [done|]. split; [done|]. split; [done|]. done.
Qed.

(** X10.  The service [switch] of [AinLoop].  For an ADC with a channel
    enabled that is neither converting nor in state [noChannels], it
    starts a conversion: the state becomes [converting], the start is
    counted, the task to wake is the AIN task, and in state [ready] the
    due callbacks have been invoked first; the completion interrupt then
    sets state [ready] and notifies that task.  For an ADC that is
    converting or has no channels it does nothing and reports no
    conversion started. *)
Theorem AinLoop_service_restarts_the_conversion
    (now : Z) (analogInTask : Task) a hw (started : Z) :
  within_bounds a →
  (GetState a = converting ∨ GetState a = noChannels →
   AinLoop_service StartDma now analogInTask a hw started
   = Some (false, a, hw, started, []))
  ∧ (0 < numChannelsEnabled a →
     GetState a ≠ converting → GetState a ≠ noChannels →
     ∃ a',
       AinLoop_service StartDma now analogInTask a hw started
       = Some (true, a', StartDma (numChannelsEnabled a) hw,
               wrap32 (started + 1),
               if bool_decide (GetState a = ready)
               then due_callbacks now a else [])
       ∧ GetState a' = converting
       ∧ taskToWake a' = Some analogInTask
       ∧ numChannelsEnabled a' = numChannelsEnabled a
       ∧ ∀ completed,
           (ResultReadyCallback DisableSequencerDma a' hw completed).2
             = Some analogInTask
           ∧ GetState
               (ResultReadyCallback DisableSequencerDma a' hw completed).1.1.1
             = ready
           ∧ (ResultReadyCallback DisableSequencerDma a' hw completed).1.2
             = wrap32 (completed + 1)).
Proof.
  intros Hin. unfold AinLoop_service, GetState. split.
  { intros [-> | ->]; done. }
  intros Hn Hnc Hnn.
  assert (∀ a0, numChannelsEnabled a0 = numChannelsEnabled a →
                state a0 = state a →
                ∃ a', StartConversion StartDma (Some analogInTask) a0 hw started
                      = (true, a', StartDma (numChannelsEnabled a) hw,
                         wrap32 (started + 1))
                      ∧ state a' = converting
                      ∧ taskToWake a' = Some analogInTask
                      ∧ numChannelsEnabled a' = numChannelsEnabled a)
    as Hstart.
  { intros a0 Hn0 Hs0. unfold StartConversion.
    rewrite Hn0, Hs0.
    rewrite (bool_decide_eq_false_2 (numChannelsEnabled a = 0)) by lia.
    rewrite (bool_decide_eq_false_2 (state a = converting)) by done.
    cbn. eexists. split; [reflexivity|]. done. }
  destruct (state a) eqn:Hstate; try done.
  - destruct (Hstart a eq_refl Hstate) as (a' & -> & ? & ? & ?).
    exists a'. rewrite bool_decide_eq_false_2 by done.
    split; [done|]. by repeat split.
  - destruct (Hstart a eq_refl Hstate) as (a' & -> & ? & ? & ?).
    exists a'. rewrite bool_decide_eq_false_2 by done.
    split; [done|]. by repeat split.
  - destruct (ExecuteCallbacks_facts now a Hin)
      as (a1 & Hrun & Hframe & _).
    rewrite Hrun. cbn [mbind option_bind].
    destruct Hframe as (Hn1 & _ & _ & Hs1 & _).
    destruct (Hstart a1 Hn1 (eq_trans Hs1 Hstate)) as (a' & -> & ? & ? & ?).
    exists a'. rewrite bool_decide_eq_true_2 by done.
    split; [done|]. by repeat split.
Qed.

End AdcMoreTheorems.

Section AdcMoreExamples.
Import AnalogIn.

Lemma Demo_constructed_within_bounds : within_bounds (construct 0%nat Demo.raw).
Proof. apply construct_within_bounds. exact Demo_raw_sized. Qed.

Lemma Demo_two_channels_within_bounds : within_bounds Demo.two_channels.
Proof. split; [repeat split | unfold MaxSequenceLength; simpl; lia]. Qed.

Lemma Demo_session_typed : Forall operation_typed Demo.session.
Proof. repeat constructor; done. Qed.

Lemma Demo_MUXNEG_GND_low_bits : Z.land Demo.MUXNEG_GND 31 = 0.
Proof. reflexivity. Qed.

Lemma Demo_first_call_run :
  do_call Demo.PTAT_Val Demo.MUXNEG_GND Demo.REFSEL_INTVCC1 S
          Demo.first_call (construct 0%nat Demo.raw) 0%nat
  = Some (true, Demo.one_channel, 1%nat).
Proof. vm_compute. reflexivity. Qed.

Lemma enable_call_takes_the_next_slot_witness :
  within_bounds (construct 0%nat Demo.raw)
  ∧ call_typed Demo.first_call
  ∧ Z.land Demo.MUXNEG_GND 31 = 0
  ∧ do_call Demo.PTAT_Val Demo.MUXNEG_GND Demo.REFSEL_INTVCC1 S
            Demo.first_call (construct 0%nat Demo.raw) 0%nat
    = Some (true, Demo.one_channel, 1%nat)
  ∧ GetChannel 0 Demo.one_channel = Some 3
  ∧ IsChannelEnabled 3 Demo.one_channel = true
  ∧ ReadChannel 3 Demo.one_channel = Some 0.
Proof.
  assert (call_typed Demo.first_call) as Htyped by (vm_compute; done).
  split; [exact Demo_constructed_within_bounds|]. split; [exact Htyped|].
  split; [exact Demo_MUXNEG_GND_low_bits|].
  split; [exact Demo_first_call_run|].
  pose proof (enable_call_takes_the_next_slot
                Demo.PTAT_Val Demo.MUXNEG_GND Demo.REFSEL_INTVCC1 S
                Demo.first_call (construct 0%nat Demo.raw) 0%nat
                Demo.one_channel 1%nat
                Demo_constructed_within_bounds Htyped
                Demo_MUXNEG_GND_low_bits Demo_first_call_run)
    as (_ & _ & _ & Hget & Hen & Hread & _).
  split; [exact Hget|]. split; [exact Hen | exact Hread].
Defined.

Lemma AdcClass_operations_stay_within_bounds_witness :
  sized Demo.raw
  ∧ Forall operation_typed Demo.session
  ∧ ∃ w',
      apply_operations Demo.PTAT_Val Demo.MUXNEG_GND Demo.REFSEL_INTVCC1 S
                       (λ _ hw, S hw) S Demo.session
                       (constructed 0%nat Demo.raw 0%nat) = Some w'
      ∧ sized (adc w')
      ∧ 0 ≤ numChannelsEnabled (adc w') ≤ MaxSequenceLength
      ∧ (0 < numChannelsEnabled (adc w') → GetState (adc w') ≠ noChannels).
Proof.
  split; [exact Demo_raw_sized|]. split; [exact Demo_session_typed|].
  exact (AdcClass_operations_stay_within_bounds
           Demo.PTAT_Val Demo.MUXNEG_GND Demo.REFSEL_INTVCC1 S
           (λ _ hw, S hw) S 0%nat Demo.raw 0%nat Demo.session
           Demo_raw_sized Demo_session_typed).
Defined.

Lemma channel_bitmap_matches_the_sequence_witness :
  sized Demo.raw
  ∧ Forall operation_typed Demo.session
  ∧ Z.land Demo.MUXNEG_GND 31 = 0
  ∧ ∃ w',
      apply_operations Demo.PTAT_Val Demo.MUXNEG_GND Demo.REFSEL_INTVCC1 S
                       (λ _ hw, S hw) S Demo.session
                       (constructed 0%nat Demo.raw 0%nat) = Some w'
      ∧ ∀ chan, 0 ≤ chan < 32 →
          (IsChannelEnabled chan (adc w') = true
           ↔ ∃ slot, 0 ≤ slot < numChannelsEnabled (adc w')
                     ∧ GetChannel slot (adc w') = Some chan).
Proof.
  split; [exact Demo_raw_sized|]. split; [exact Demo_session_typed|].
  split; [exact Demo_MUXNEG_GND_low_bits|].
  exact (channel_bitmap_matches_the_sequence
           Demo.PTAT_Val Demo.MUXNEG_GND Demo.REFSEL_INTVCC1 S
           (λ _ hw, S hw) S 0%nat Demo.raw 0%nat Demo.session
           Demo_raw_sized Demo_session_typed Demo_MUXNEG_GND_low_bits).
Defined.

Lemma conversion_sequence_only_grows_witness :
  within_bounds (adc (mkWorld Demo.two_channels 0%nat 0 0 [] []))
  ∧ Forall operation_typed Demo.session
  ∧ ∃ w',
      apply_operations Demo.PTAT_Val Demo.MUXNEG_GND Demo.REFSEL_INTVCC1 S
                       (λ _ hw, S hw) S Demo.session
                       (mkWorld Demo.two_channels 0%nat 0 0 [] []) = Some w'
      ∧ numChannelsEnabled Demo.two_channels ≤ numChannelsEnabled (adc w')
      ∧ (∀ slot, 0 ≤ slot < numChannelsEnabled Demo.two_channels →
           GetChannel slot (adc w') = GetChannel slot Demo.two_channels)
      ∧ (∀ chan, 0 ≤ chan < 32 →
           IsChannelEnabled chan Demo.two_channels = true →
           IsChannelEnabled chan (adc w') = true).
Proof.
  split; [exact Demo_two_channels_within_bounds|].
  split; [exact Demo_session_typed|].
  exact (conversion_sequence_only_grows
           Demo.PTAT_Val Demo.MUXNEG_GND Demo.REFSEL_INTVCC1 S
           (λ _ hw, S hw) S Demo.session
           (mkWorld Demo.two_channels 0%nat 0 0 [] [])
           Demo_two_channels_within_bounds Demo_session_typed).
Defined.

Lemma ExecuteCallbacks_invokes_the_due_callbacks_witness :
  within_bounds Demo.two_channels
  ∧ ∃ a',
      ExecuteCallbacks 1005 Demo.two_channels
      = Some (a', due_callbacks 1005 Demo.two_channels)
      ∧ only_readings_change Demo.two_channels a'
      ∧ ∀ (i : nat) fn cp r,
          Z.of_nat i < numChannelsEnabled Demo.two_channels →
          ticksPerCall Demo.two_channels !! i = Some 0 →
          callbackFunctions Demo.two_channels !! i = Some (Some fn) →
          callbackParams Demo.two_channels !! i = Some cp →
          results Demo.two_channels !! i = Some r →
          (fn, cp, r) ∈ due_callbacks 1005 Demo.two_channels.
Proof.
  split; [exact Demo_two_channels_within_bounds|].
  exact (ExecuteCallbacks_invokes_the_due_callbacks 1005 Demo.two_channels
           Demo_two_channels_within_bounds).
Defined.

(** At time 1005 the interval of slot 0 (10 ticks from 1000) has not
    elapsed, slot 1 has interval 0; at time 1010 both are due. *)
Example ExecuteCallbacks_runs :
  snd <$> ExecuteCallbacks 1005 Demo.two_channels = Some [(7%nat, 6%nat, 222)]
  ∧ snd <$> ExecuteCallbacks 1010 Demo.two_channels
    = Some [(4%nat, 5%nat, 111); (7%nat, 6%nat, 222)]
  ∧ (λ r, (ReadChannel 3 r.1, ReadChannel 29 r.1, ReadChannel 4 r.1)) <$>
      ExecuteCallbacks 1005 Demo.two_channels
    = Some (Some 111, Some 222, Some 0).
Proof.
  split; [vm_compute; reflexivity|].
  split; vm_compute; reflexivity.
Qed.

Lemma Demo_ExecuteCallbacks_run :
  ExecuteCallbacks 1005 Demo.two_channels
  = Some (mkAdc 2 536870920 None ready true
            (Some 4%nat :: Some 7%nat :: replicate 14 None)
            (5%nat :: 6%nat :: replicate 14 0%nat)
            (10 :: 0 :: replicate 14 9) (1000 :: 1005 :: replicate 14 9)
            (6147 :: 3 :: 6173 :: 3 :: replicate 28 9)
            (111 :: 222 :: replicate 14 9)
            (<[29%nat := 222]> (<[3%nat := 111]> (replicate 32 0))),
          [(7%nat, 6%nat, 222)]).
Proof. vm_compute. reflexivity. Qed.

Lemma ExecuteCallbacks_files_results_by_channel_witness :
  within_bounds Demo.two_channels
  ∧ (∃ a' cs, ExecuteCallbacks 1005 Demo.two_channels = Some (a', cs)
      ∧ (∀ (k : nat) chan,
           Z.of_nat k < numChannelsEnabled Demo.two_channels →
           GetChannel (Z.of_nat k) Demo.two_channels = Some chan →
           (∀ k' : nat, (k < k')%nat →
              Z.of_nat k' < numChannelsEnabled Demo.two_channels →
              GetChannel (Z.of_nat k') Demo.two_channels ≠ Some chan) →
           ReadChannel chan a' = results Demo.two_channels !! k)
      ∧ (∀ chan, 0 ≤ chan →
           (∀ k : nat, Z.of_nat k < numChannelsEnabled Demo.two_channels →
              GetChannel (Z.of_nat k) Demo.two_channels ≠ Some chan) →
           ReadChannel chan a' = ReadChannel chan Demo.two_channels)).
Proof.
  split; [exact Demo_two_channels_within_bounds|].
  eexists _, _. split; [exact Demo_ExecuteCallbacks_run|].
  exact (ExecuteCallbacks_files_results_by_channel 1005 Demo.two_channels
           _ _ Demo_two_channels_within_bounds Demo_ExecuteCallbacks_run).
Defined.

Lemma AinLoop_service_restarts_the_conversion_witness :
  within_bounds Demo.two_channels
  ∧ 0 < numChannelsEnabled Demo.two_channels
  ∧ GetState Demo.two_channels ≠ converting
  ∧ GetState Demo.two_channels ≠ noChannels
  ∧ ∃ a',
      AinLoop_service (λ _ hw, S hw) 1005 9%nat Demo.two_channels 0%nat 41
      = Some (true, a', S 0%nat, wrap32 (41 + 1),
              if bool_decide (GetState Demo.two_channels = ready)
              then due_callbacks 1005 Demo.two_channels else [])
      ∧ GetState a' = converting
      ∧ taskToWake a' = Some 9%nat
      ∧ numChannelsEnabled a' = numChannelsEnabled Demo.two_channels
      ∧ ∀ completed,
          (ResultReadyCallback S a' 0%nat completed).2 = Some 9%nat
          ∧ GetState (ResultReadyCallback S a' 0%nat completed).1.1.1 = ready
          ∧ (ResultReadyCallback S a' 0%nat completed).1.2
            = wrap32 (completed + 1).
Proof.
  assert (0 < numChannelsEnabled Demo.two_channels) as H1 by (simpl; lia).
  assert (GetState Demo.two_channels ≠ converting) as H2 by done.
  assert (GetState Demo.two_channels ≠ noChannels) as H3 by done.
  split; [exact Demo_two_channels_within_bounds|].
  split; [exact H1|]. split; [exact H2|]. split; [exact H3|].
  exact (proj2 (AinLoop_service_restarts_the_conversion
                  (λ _ hw, S hw) S 1005 9%nat Demo.two_channels 0%nat 41
                  Demo_two_channels_within_bounds) H1 H2 H3).
Defined.

(** The example session: two channels enabled, two conversions started,
    one completed, the AIN task notified once, and both callbacks
    invoked at the second service pass and again by the explicit
    [ExecuteCallbacks] 20 ticks later. *)
Example AdcClass_session_runs :
  (λ w, (numChannelsEnabled (adc w), GetState (adc w),
         conversionsStarted w, conversionsCompleted w, woken w, called w))
    <$> apply_operations Demo.PTAT_Val Demo.MUXNEG_GND Demo.REFSEL_INTVCC1 S
                         (λ _ hw, S hw) S Demo.session
                         (constructed 0%nat Demo.raw 0%nat)
  = Some (2, converting, 2, 1, [9%nat],
          [(4%nat, 5%nat, 9); (7%nat, 6%nat, 9);
           (4%nat, 5%nat, 9); (7%nat, 6%nat, 9)]).
Proof. vm_compute. reflexivity. Qed.

End AdcMoreExamples.

(** ** The shape of the self-test report, and the firmware update guard *)

Section ReportMoreTheorems.
Import CommandProcessor.
Variables (TMC_RR_OT TMC_RR_OTPW TMC_RR_S2G : Z) (NumDrivers : nat)
          (GetAccumulatedStatus : nat → Z → Z) (UniqueId : string).

Local Abbreviation over_temperature :=
  (reports_over_temperature TMC_RR_OT TMC_RR_OTPW GetAccumulatedStatus).
Local Abbreviation short_to_ground :=
  (reports_short_to_ground TMC_RR_S2G GetAccumulatedStatus).
Local Abbreviation lines_of :=
  (driver_lines TMC_RR_OT TMC_RR_OTPW TMC_RR_S2G GetAccumulatedStatus).

Lemma check_driver_run (driver : nat) (reply : list string) (ok : bool) :
  check_driver TMC_RR_OT TMC_RR_OTPW TMC_RR_S2G GetAccumulatedStatus
               driver (reply, ok)
  = (reply ++ lines_of driver,
     ok && negb (over_temperature driver || short_to_ground driver)).
Proof.
  unfold check_driver, driver_lines, reports_over_temperature,
    reports_short_to_ground, lcatf.
  do 2 case_bool_decide; cbn;
    rewrite ?app_nil_r, <- ?app_assoc, ?andb_true_r, ?andb_false_r; done.
Qed.

Lemma check_drivers_loop (drivers : list nat) : ∀ (reply : list string) ok,
  foldl (λ st driver,
           check_driver TMC_RR_OT TMC_RR_OTPW TMC_RR_S2G GetAccumulatedStatus
                        driver st)
        (reply, ok) drivers
  = (reply ++ mjoin (lines_of <$> drivers),
     ok && forallb (λ driver,
                      negb (over_temperature driver || short_to_ground driver))
                   drivers).
Proof.
  induction drivers as [|driver drivers IH]; intros reply ok.
  - cbn. by rewrite app_nil_r, andb_true_r.
  - cbn [foldl]. rewrite check_driver_run, IH.
    rewrite fmap_cons. cbn [mjoin list_join forallb].
    rewrite <- app_assoc, <- andb_assoc. done.
Qed.

Lemma GenerateTestReport_run (earlier : list string * bool) :
  let healthy :=
    forallb (λ driver, negb (over_temperature driver || short_to_ground driver))
            (seq 0 NumDrivers) in
  let failed := earlier.2 || negb healthy in
  GenerateTestReport TMC_RR_OT TMC_RR_OTPW TMC_RR_S2G NumDrivers
                     GetAccumulatedStatus UniqueId earlier
  = ((earlier.1 ++ mjoin (lines_of <$> seq 0 NumDrivers)
       ++ (if healthy then ["Driver status OK"%string] else [])
       ++ [if failed then "***** ONE OR MORE CHECKS FAILED *****"%string
           else "All checks passed"%string]
       ++ (if failed then [] else ["Board ID: " +:+ UniqueId]))%list,
     failed).
Proof.
  destruct earlier as [reply0 failed0]. cbn [fst snd].
  unfold GenerateTestReport, check_drivers. rewrite check_drivers_loop.
  cbn [andb]. unfold lcatf.
  destruct (forallb _ _); destruct failed0; cbn;
    rewrite <- ?app_assoc, ?app_nil_r; done.
Qed.

(** X11.  The self-test report is the lines of the earlier checks,
    then for each driver in increasing order its over-temperature line
    (when the test on line 113 fires) and its short-to-ground line (when
    the status word has a [TMC_RR_S2G] bit), then "Driver status OK" if
    no driver had a line, then the verdict, then the board ID if and
    only if the verdict is a pass; the verdict is a fail exactly when an
    earlier check failed or some driver had a line. *)
Theorem GenerateTestReport_has_this_shape (earlier : list string * bool) :
  let healthy :=
    forallb (λ driver, negb (over_temperature driver || short_to_ground driver))
            (seq 0 NumDrivers) in
  let failed := earlier.2 || negb healthy in
  GenerateTestReport TMC_RR_OT TMC_RR_OTPW TMC_RR_S2G NumDrivers
                     GetAccumulatedStatus UniqueId earlier
  = ((earlier.1 ++ mjoin (lines_of <$> seq 0 NumDrivers)
       ++ (if healthy then ["Driver status OK"%string] else [])
       ++ [if failed then "***** ONE OR MORE CHECKS FAILED *****"%string
           else "All checks passed"%string]
       ++ (if failed then [] else ["Board ID: " +:+ UniqueId]))%list,
     failed).
Proof. exact (GenerateTestReport_run earlier). Qed.

(** X12.  The self-test passes exactly when no earlier check failed and
    no driver below [NumDrivers] has a short-to-ground bit set or fires
    the test of line 113; it then ends with the board ID line, and
    otherwise with the failure banner.  In particular a failed
    temperature or voltage check is never hidden by healthy drivers, and
    a short-to-ground driver always fails the test. *)
Theorem GenerateTestReport_passes_iff_all_checks_pass
    (earlier : list string * bool) :
  let report :=
    GenerateTestReport TMC_RR_OT TMC_RR_OTPW TMC_RR_S2G NumDrivers
                       GetAccumulatedStatus UniqueId earlier in
  (report.2 = false
   ↔ earlier.2 = false
     ∧ ∀ driver : nat, (driver < NumDrivers)%nat →
         Z.land (GetAccumulatedStatus driver 0xFFFFFFFF) TMC_RR_S2G = 0
         ∧ Z.land (GetAccumulatedStatus driver 0xFFFFFFFF)
                  (logical_or TMC_RR_OT TMC_RR_OTPW) = 0)
  ∧ last report.1
    = Some (if report.2 then "***** ONE OR MORE CHECKS FAILED *****"
            else "Board ID: " +:+ UniqueId)%string.
Proof.
  intros report. unfold report. rewrite GenerateTestReport_run.
  cbn [fst snd]. split.
  - rewrite orb_false_iff, negb_false_iff, forallb_forall.
    split.
    + intros [He Hall]. split; [done|]. intros driver Hd.
      specialize (Hall driver). rewrite in_seq in Hall.
      specialize (Hall ltac:(lia)).
      apply negb_true_iff, orb_false_iff in Hall as [Hot Hsg].
      unfold reports_over_temperature, reports_short_to_ground in *.
      apply bool_decide_eq_false in Hot, Hsg.
      split; [by apply dec_stable | by apply dec_stable].
    + intros [He Hall]. split; [done|]. intros driver Hd.
      apply in_seq in Hd. destruct (Hall driver ltac:(lia)) as [Hsg Hot].
      apply negb_true_iff, orb_false_iff.
      unfold reports_over_temperature, reports_short_to_ground.
      rewrite Hsg, Hot. split; apply bool_decide_eq_false_2; by intros ?.
  - rewrite !app_assoc.
    destruct (earlier.2 || _).
    + by rewrite app_nil_r, last_snoc.
    + by rewrite last_snoc.
Qed.

(** X13.  A firmware update command is acted on exactly when it names
    this board and carries the eight-bit complement of the board's
    address (so [boardId + invertedBoardId = 255]): then
    [StartFirmwareUpdate] is called and the reply says so with result
    [ok]; in every other case nothing is started and the result is
    [error]. *)
Theorem InitiateFirmwareUpdate_checks_both_copies_of_the_address
    (boardId invertedBoardId address : Z) :
  0 ≤ address < 256 →
  let r := InitiateFirmwareUpdate boardId invertedBoardId address in
  (r.2 = true ↔ boardId = address ∧ invertedBoardId = 255 - address)
  ∧ (r.2 = true →
     r.1 = ("Board " +:+ pretty address +:+ " starting firmware update",
            GCodeResult.ok)%string)
  ∧ (r.2 = false →
     r.1 = ("Invalid firmware update command received",
            GCodeResult.error)%string).
Proof.
  intros Haddr.
  assert (Z.lnot address mod 256 = 255 - address) as Hnot.
  { unfold Z.lnot.
    replace (Z.pred (- address)) with ((255 - address) + (-1) * 256) by lia.
    rewrite Z.mod_add by lia. apply Z.mod_small. lia. }
  unfold InitiateFirmwareUpdate. rewrite Hnot.
  destruct (decide (boardId = address)) as [->|Hb].
  - rewrite (bool_decide_eq_false_2 (address ≠ address)) by (intros H; by apply H).
    destruct (decide (invertedBoardId = 255 - address)) as [->|Hi].
    + rewrite bool_decide_eq_false_2 by (intros H; by apply H). cbn. done.
    + rewrite bool_decide_eq_true_2 by done. cbn.
      split; [split; [done | intros [_ ?]; done]|]. done.
  - rewrite (bool_decide_eq_true_2 (boardId ≠ address)) by done. cbn.
    split; [split; [done | intros [? _]; done]|]. done.
Qed.

End ReportMoreTheorems.

Section ReportMoreExamples.
Import CommandProcessor.

Lemma InitiateFirmwareUpdate_checks_both_copies_of_the_address_witness :
  (0 ≤ 7 < 256)
  ∧ (InitiateFirmwareUpdate 7 248 7).2 = true
  ∧ (InitiateFirmwareUpdate 7 248 7).1
    = ("Board 7 starting firmware update", GCodeResult.ok)%string.
Proof.
  assert (0 ≤ 7 < 256) as H by lia.
  pose proof (InitiateFirmwareUpdate_checks_both_copies_of_the_address
                7 248 7 H) as (Hiff & Hok & _).
  split; [exact H|].
  assert ((InitiateFirmwareUpdate 7 248 7).2 = true) as Hstarted
    by (apply Hiff; split; reflexivity).
  split; [exact Hstarted | exact (Hok Hstarted)].
Defined.

(** The complement is checked on eight bits: for board 7 it is 248; a
    message that repeats the address instead is refused. *)
Example InitiateFirmwareUpdate_runs :
  InitiateFirmwareUpdate 7 248 7
  = ("Board 7 starting firmware update", GCodeResult.ok, true)%string
  ∧ InitiateFirmwareUpdate 7 7 7
    = ("Invalid firmware update command received", GCodeResult.error,
       false)%string
  ∧ InitiateFirmwareUpdate 8 248 7
    = ("Invalid firmware update command received", GCodeResult.error,
       false)%string.
Proof.
  split; [vm_compute; reflexivity|].
  split; vm_compute; reflexivity.
Qed.

(** Two drivers, the second with a short to ground, after a failed
    voltage check. *)
Example GenerateTestReport_runs :
  GenerateTestReport TMC51xx.TMC_RR_OT TMC51xx.TMC_RR_OTPW TMC51xx.TMC_RR_S2G
    2 (λ driver _, if driver is O then 0 else Z.shiftl 1 27) "0123"
    (["VIN voltage reading 9.5 is lower than expected"], true)
  = (["VIN voltage reading 9.5 is lower than expected";
      "Driver 1 reports short-to-ground";
      "***** ONE OR MORE CHECKS FAILED *****"], true)%string.
Proof. vm_compute. reflexivity. Qed.

End ReportMoreExamples.

(** ** More about the inline functions of Move.h *)

Section MoveMoreTheorems.
Import Movement.
Context {Timing Rest : Type} {dda_methods : DDAMethods Timing Rest}.
Implicit Types (m : Move Timing Rest).

Ltac run_M :=
  unfold and_then, mbind, mret, M_bind, M_ret, bind, ret, undefined,
    out_of_fuel, load_currentDda, store_currentDda, load_ddaRingGetPointer,
    read_ddaRingAddPointer, call_GetState, call_Start, call_Step,
    call_GetStepInterval in *.

Lemma DDARingEmpty_dangling m :
  ddaRingGetPointer m = ddaRingAddPointer m →
  ring m !! ddaRingAddPointer m = None →
  DDARingEmpty m = Undefined [LoadGetPointer (ddaRingGetPointer m)].
Proof.
  intros Heq Hd. unfold DDARingEmpty. run_M. simpl.
  rewrite bool_decide_eq_true_2 by done. simpl. rewrite Hd. done.
Qed.

Lemma NoLiveMovement_after_DDARingEmpty m :
  NoLiveMovement m
  = match DDARingEmpty m with
    | Returns e m1 tr1 =>
        if e
        then Returns (bool_decide (currentDda m1 = None)) m1
                     (tr1 ++ [LoadCurrentDda (currentDda m1)])
        else Returns false m1 (tr1 ++ [])
    | Undefined tr1 => Undefined tr1
    | OutOfFuel tr1 => OutOfFuel tr1
    end.
Proof.
  unfold NoLiveMovement. unfold and_then at 1. unfold mbind, M_bind, bind.
  destruct (DDARingEmpty m) as [[] m1 tr1|tr1|tr1]; [| |done..].
  - unfold load_currentDda, mret, M_ret, ret. cbn. done.
  - done.
Qed.

Lemma DDARingEmpty_cases m :
  (ddaRingGetPointer m ≠ ddaRingAddPointer m
   ∧ DDARingEmpty m = Returns false m [LoadGetPointer (ddaRingGetPointer m)])
  ∨ (ddaRingGetPointer m = ddaRingAddPointer m
     ∧ ring m !! ddaRingAddPointer m = None
     ∧ DDARingEmpty m = Undefined [LoadGetPointer (ddaRingGetPointer m)])
  ∨ (ddaRingGetPointer m = ddaRingAddPointer m
     ∧ ∃ d, ring m !! ddaRingAddPointer m = Some d
            ∧ DDARingEmpty m
              = Returns (bool_decide (GetState d = empty)) m
                        [LoadGetPointer (ddaRingGetPointer m);
                         CallGetState (ddaRingAddPointer m)]).
Proof.
  destruct (decide (ddaRingGetPointer m = ddaRingAddPointer m)) as [Heq|Hne].
  - right. destruct (ring m !! ddaRingAddPointer m) as [d|] eqn:Hd.
    + right. split; [done|]. exists d. split; [done|].
      by apply DDARingEmpty_equal.
    + left. split; [done|]. split; [done|]. by apply DDARingEmpty_dangling.
  - left. split; [done|]. by apply DDARingEmpty_differ.
Qed.

(** X14.  When [AllMovesAreFinished] answers true, the object is as it
    was, the cursors are equal, the descriptor they point at is empty
    and [currentDda] is null; so a step interrupt arriving then returns
    at once without calling [Step] and without changing anything,
    whatever number of loop rounds it is allowed, and [GetStepInterval]
    reports 0 for every axis. *)
Theorem nothing_is_stepped_once_all_moves_are_finished m m' tr :
  AllMovesAreFinished m = Returns true m' tr →
  m' = m
  ∧ ddaRingGetPointer m = ddaRingAddPointer m
  ∧ (∃ d, ring m !! ddaRingAddPointer m = Some d ∧ GetState d = empty)
  ∧ currentDda m = None
  ∧ (∀ fuel, Interrupt fuel m = Returns () m [LoadCurrentDda None])
  ∧ (∀ axis microstepShift,
       GetStepInterval axis microstepShift m
       = Returns 0 m [LoadCurrentDda None]).
Proof.
  unfold AllMovesAreFinished. rewrite NoLiveMovement_after_DDARingEmpty.
  intros Hfin.
  destruct (DDARingEmpty_cases m)
    as [[Hne Hrun]|[(Heq & Hd & Hrun)|(Heq & d & Hd & Hrun)]];
    rewrite Hrun in Hfin; [done|done|].
  destruct (bool_decide (GetState d = empty)) eqn:He; [|done].
  apply bool_decide_eq_true in He.
  injection Hfin as Hcd <- _. apply bool_decide_eq_true in Hcd.
  split; [done|]. split; [done|]. split; [by exists d|]. split; [done|].
  split.
  - intros fuel. unfold Interrupt. run_M. simpl. rewrite Hcd. done.
  - intros axis shift. unfold GetStepInterval. run_M. simpl.
    rewrite Hcd. done.
Qed.

(** X15.  [NoLiveMovement] (and so [AllMovesAreFinished]) evaluates
    [DDARingEmpty()] first and reads [currentDda] afterwards, as the
    last thing it does, and only when the ring was found empty: when
    [DDARingEmpty] answers false, [currentDda] is not read at all.  The
    object is left as it was. *)
Theorem NoLiveMovement_tests_the_ring_before_currentDda m b m' tr :
  NoLiveMovement m = Returns b m' tr →
  m' = m
  ∧ ∃ e tr1,
      DDARingEmpty m = Returns e m tr1
      ∧ currentDda_loads tr1 = []
      ∧ b = e && bool_decide (currentDda m = None)
      ∧ tr = tr1 ++ (if e then [LoadCurrentDda (currentDda m)] else [])
      ∧ currentDda_loads tr = if e then [currentDda m] else [].
Proof.
  rewrite NoLiveMovement_after_DDARingEmpty. intros Hrun.
  destruct (DDARingEmpty_cases m)
    as [[Hne He]|[(Heq & Hd & He)|(Heq & d & Hd & He)]];
    rewrite He in Hrun |- *; [|done|].
  - injection Hrun as <- <- <-. split; [done|].
    eexists _, _. split; [reflexivity|]. done.
  - destruct (bool_decide (GetState d = empty)) eqn:Hs.
    + injection Hrun as <- <- <-. split; [done|].
      eexists _, _. split; [reflexivity|]. done.
    + injection Hrun as <- <- <-. split; [done|].
      eexists _, _. split; [reflexivity|]. done.
Qed.

(** X16.  [DDARingEmpty], [NoLiveMovement] and [AllMovesAreFinished]
    dereference the add cursor only when the two cursors are equal: they
    go wrong exactly when the cursors are equal and the add cursor does
    not point at a descriptor of the ring, and with different cursors
    they answer false whatever the add cursor points at.  None of them
    loops. *)
Theorem ring_queries_dereference_only_equal_cursors m :
  ((∃ tr, DDARingEmpty m = Undefined tr)
   ↔ ddaRingGetPointer m = ddaRingAddPointer m
     ∧ ring m !! ddaRingAddPointer m = None)
  ∧ ((∃ tr, AllMovesAreFinished m = Undefined tr)
     ↔ ddaRingGetPointer m = ddaRingAddPointer m
       ∧ ring m !! ddaRingAddPointer m = None)
  ∧ (ddaRingGetPointer m ≠ ddaRingAddPointer m →
     DDARingEmpty m = Returns false m [LoadGetPointer (ddaRingGetPointer m)]
     ∧ AllMovesAreFinished m
       = Returns false m [LoadGetPointer (ddaRingGetPointer m)])
  ∧ (∀ tr, DDARingEmpty m ≠ OutOfFuel tr)
  ∧ (∀ tr, AllMovesAreFinished m ≠ OutOfFuel tr).
Proof.
  unfold AllMovesAreFinished. rewrite NoLiveMovement_after_DDARingEmpty.
  destruct (DDARingEmpty_cases m)
    as [[Hne He]|[(Heq & Hd & He)|(Heq & d & Hd & He)]]; rewrite He.
  - split; [split; [by intros [? ?] | by intros [? _]]|].
    split; [split; [by intros [? ?] | by intros [? _]]|].
    split; [|done]. intros _. by rewrite app_nil_r.
  - split; [split; [done | intros _; by eexists]|].
    split; [split; [done | intros _; by eexists]|].
    split; [done|]. done.
  - split; [split; [by intros [? ?] | intros [_ ?]; congruence]|].
    split.
    + split; [|intros [_ ?]; congruence].
      intros [tr Htr]. by destruct (bool_decide (GetState d = empty)).
    + split; [done|]. split; [done|].
      intros tr. by destruct (bool_decide (GetState d = empty)).
Qed.

Lemma Interrupt_loop_trace (fuel : nat) : ∀ m m' tr,
  Interrupt_loop fuel m = Returns () m' tr →
  ∃ calls : list (slot * bool),
    tr = step_rounds calls ∧ (0 < length calls ≤ fuel)%nat.
Proof.
  induction fuel as [|fuel IH]; intros m m' tr Hrun; [done|].
  simpl in Hrun. run_M. simpl in Hrun.
  destruct (currentDda m) as [p|] eqn:Hcd; [|done].
  destruct (ring m !! p) as [dp|] eqn:Hp; [|done].
  destruct (DDA_Step p m) as [m1 again] eqn:Hstep.
  destruct again.
  - destruct (Interrupt_loop fuel m1) as [[] m2 tr2| |] eqn:Hrest; [|done..].
    simplify_eq. destruct (IH _ _ _ Hrest) as (calls & -> & Hlen).
    exists ((p, true) :: calls). split; [done|]. simpl. lia.
  - simplify_eq. exists [(p, false)]. split; [done|]. simpl. lia.
Qed.

(** X17.  Whenever [Interrupt] returns, what it did is one load of
    [currentDda] for the null test and then, for each call of [Step], a
    fresh load of [currentDda] immediately followed by [Step] on exactly
    the descriptor that load gave: it never steps a descriptor it
    remembered from an earlier round, never writes [currentDda] itself and
    calls nothing else.  There is no call at all exactly when the first
    load gave null, and never more calls than loop rounds. *)
Theorem Interrupt_steps_the_descriptor_it_just_loaded
    (fuel : nat) m m' tr :
  Interrupt fuel m = Returns () m' tr →
  ∃ calls : list (slot * bool),
    tr = LoadCurrentDda (currentDda m) :: step_rounds calls
    ∧ (calls = [] ↔ currentDda m = None)
    ∧ (length calls ≤ fuel)%nat
    ∧ currentDda_stores tr = []
    ∧ step_results tr = calls.*2.
Proof.
  assert (∀ calls : list (slot * bool),
            currentDda_stores (step_rounds calls) = []
            ∧ step_results (step_rounds calls) = calls.*2)
    as Hrounds.
  { induction calls as [|[p r] calls [IH1 IH2]]; [done|].
    change (step_rounds ((p, r) :: calls))
      with (LoadCurrentDda (Some p) :: CallStep p r :: step_rounds calls).
    change (currentDda_stores
              (LoadCurrentDda (Some p) :: CallStep p r :: step_rounds calls))
      with (currentDda_stores (step_rounds calls)).
    change (step_results
              (LoadCurrentDda (Some p) :: CallStep p r :: step_rounds calls))
      with (r :: step_results (step_rounds calls)).
    rewrite IH1, IH2. done. }
  unfold Interrupt. unfold mbind, M_bind, bind, load_currentDda.
  destruct (currentDda m) as [p|] eqn:Hcd.
  - rewrite bool_decide_eq_true_2 by done.
    destruct (Interrupt_loop fuel m) as [[] m2 tr2| |] eqn:Hrun; [|done..].
    intros [= <- <-].
    destruct (Interrupt_loop_trace _ _ _ _ Hrun) as (calls & -> & Hlen).
    exists calls. split; [done|].
    split; [split; [intros ->; simpl in Hlen; lia | done]|].
    split; [lia|]. destruct (Hrounds calls) as [H1 H2].
    split; [exact H1 | exact H2].
  - rewrite bool_decide_eq_false_2 by (intros H; by apply H).
    unfold mret, M_ret, ret. intros [= <- <-].
    exists []. split; [done|]. split; [done|]. split; [simpl; lia|]. done.
Qed.

End MoveMoreTheorems.

Section MoveMoreExamples.
Import Movement.

Lemma nothing_is_stepped_once_all_moves_are_finished_witness :
  AllMovesAreFinished (Demo.idle 4)
  = Returns true (Demo.idle 4)
            [LoadGetPointer 0%nat; CallGetState 0%nat; LoadCurrentDda None]
  ∧ Interrupt 9 (Demo.idle 4)
    = Returns () (Demo.idle 4) [LoadCurrentDda None].
Proof.
  assert (AllMovesAreFinished (Demo.idle 4)
          = Returns true (Demo.idle 4)
              [LoadGetPointer 0%nat; CallGetState 0%nat; LoadCurrentDda None])
    as Hfin by (vm_compute; reflexivity).
  split; [exact Hfin|].
  exact (proj1 (proj2 (proj2 (proj2 (proj2
           (nothing_is_stepped_once_all_moves_are_finished
              (dda_methods := Demo.methods) _ _ _ Hfin))))) 9%nat).
Defined.

Lemma NoLiveMovement_tests_the_ring_before_currentDda_witness :
  NoLiveMovement Demo.running
  = Returns false Demo.running [LoadGetPointer 0%nat]
  ∧ ∃ e tr1,
      DDARingEmpty Demo.running = Returns e Demo.running tr1
      ∧ currentDda_loads tr1 = []
      ∧ false = e && bool_decide (currentDda Demo.running = None)
      ∧ [LoadGetPointer 0%nat]
        = tr1 ++ (if e then [LoadCurrentDda (currentDda Demo.running)]
                  else [])
      ∧ currentDda_loads [LoadGetPointer 0%nat]
        = if e then [currentDda Demo.running] else [].
Proof.
  assert (NoLiveMovement Demo.running
          = Returns false Demo.running [LoadGetPointer 0%nat])
    as Hrun by (vm_compute; reflexivity).
  split; [exact Hrun|].
  exact (proj2 (NoLiveMovement_tests_the_ring_before_currentDda
                  _ _ _ _ Hrun)).
Defined.

Lemma Interrupt_steps_the_descriptor_it_just_loaded_witness :
  ∃ calls : list (slot * bool),
    [LoadCurrentDda (Some 0%nat);
     LoadCurrentDda (Some 0%nat); CallStep 0%nat true;
     LoadCurrentDda (Some 0%nat); CallStep 0%nat true;
     LoadCurrentDda (Some 0%nat); CallStep 0%nat false]
    = LoadCurrentDda (currentDda Demo.running) :: step_rounds calls
    ∧ (calls = [] ↔ currentDda Demo.running = None)
    ∧ (length calls ≤ 5)%nat
    ∧ currentDda_stores
        [LoadCurrentDda (Some 0%nat);
         LoadCurrentDda (Some 0%nat); CallStep 0%nat true;
         LoadCurrentDda (Some 0%nat); CallStep 0%nat true;
         LoadCurrentDda (Some 0%nat); CallStep 0%nat false] = []
    ∧ step_results
        [LoadCurrentDda (Some 0%nat);
         LoadCurrentDda (Some 0%nat); CallStep 0%nat true;
         LoadCurrentDda (Some 0%nat); CallStep 0%nat true;
         LoadCurrentDda (Some 0%nat); CallStep 0%nat false] = calls.*2.
Proof.
  assert (Interrupt 5 Demo.running
          = Returns () Demo.stepped
              [LoadCurrentDda (Some 0%nat);
               LoadCurrentDda (Some 0%nat); CallStep 0%nat true;
               LoadCurrentDda (Some 0%nat); CallStep 0%nat true;
               LoadCurrentDda (Some 0%nat); CallStep 0%nat false])
    as Hrun by (vm_compute; reflexivity).
  exact (Interrupt_steps_the_descriptor_it_just_loaded
           (dda_methods := Demo.methods) _ _ _ _ Hrun).
Defined.

(** A ring whose cursors differ is reported busy even when the add
    cursor points outside it; with equal cursors the same dangling
    pointer is dereferenced. *)
Example DDARingEmpty_with_a_dangling_add_cursor :
  DDARingEmpty (set_ddaRingAddPointer 7%nat Demo.queued)
  = Returns false (set_ddaRingAddPointer 7%nat Demo.queued)
            [LoadGetPointer 0%nat]
  ∧ DDARingEmpty
      (set_ddaRingGetPointer 7%nat (set_ddaRingAddPointer 7%nat Demo.queued))
    = Undefined [LoadGetPointer 7%nat].
Proof. split; vm_compute; reflexivity. Qed.

End MoveMoreExamples.

(** ** [ProcessM569]: which driver calls a message leads to *)

Section M569Theorems.
Import CommandProcessor.
Context {Float Drivers : Type}.
Variables (SUPPORT_SLOW_DRIVERS HAS_SMART_DRIVERS SUPPORT_TMC51xx : bool)
          (NumDrivers CanAddress : Z)
          (SetDirectionValue : Z → bool → Drivers → Drivers)
          (SetEnableValue : Z → Z → Drivers → Drivers)
          (SetDriverStepTiming : Z → list Float → Drivers → Drivers)
          (SetDriverMode : Z → Z → Drivers → Drivers * bool)
          (SetRegister : Z → SmartDriverRegister → Z → Drivers → Drivers * bool)
          (GetDirectionValue GetEnableValue : Z → Drivers → bool)
          (TranslateDriverMode : Z → string)
          (report_tail : Z → Drivers → string).
Implicit Types (msg : M569 Float) (r : Run (Float := Float) (Drivers := Drivers)).

Local Abbreviation M569_settings :=
  (apply_settings SUPPORT_SLOW_DRIVERS HAS_SMART_DRIVERS SUPPORT_TMC51xx
     CanAddress SetDirectionValue SetEnableValue SetDriverStepTiming
     SetDriverMode SetRegister TranslateDriverMode).
Local Abbreviation M569_process :=
  (ProcessM569 SUPPORT_SLOW_DRIVERS HAS_SMART_DRIVERS SUPPORT_TMC51xx
     NumDrivers CanAddress SetDirectionValue SetEnableValue
     SetDriverStepTiming SetDriverMode SetRegister GetDirectionValue
     GetEnableValue TranslateDriverMode report_tail).
Local Abbreviation M569_requested :=
  (requested_calls (Float := Float) SUPPORT_SLOW_DRIVERS HAS_SMART_DRIVERS
     SUPPORT_TMC51xx).
Local Abbreviation M569_any_setting :=
  (any_setting (Float := Float) SUPPORT_SLOW_DRIVERS HAS_SMART_DRIVERS
     SUPPORT_TMC51xx).

Local Abbreviation M569_steps :=
  (requested_steps (Float := Float) SUPPORT_SLOW_DRIVERS HAS_SMART_DRIVERS
     SUPPORT_TMC51xx).
Local Abbreviation M569_replay :=
  (replay SetDirectionValue SetEnableValue SetDriverStepTiming SetDriverMode
     SetRegister).
Local Abbreviation M569_follows :=
  (follows SetDirectionValue SetEnableValue SetDriverStepTiming SetDriverMode
     SetRegister).

Lemma replay_app (cs1 cs2 : list (driver_call Float)) : ∀ ds : Drivers,
  M569_replay (cs1 ++ cs2) ds
  = ((M569_replay cs1 ds).1 ++ (M569_replay cs2 (M569_replay cs1 ds).2).1,
     (M569_replay cs2 (M569_replay cs1 ds).2).2).
Proof.
  induction cs1 as [|c cs1 IH]; intros ds.
  - cbn. by destruct (M569_replay cs2 ds).
  - cbn. destruct (carry_out _ _ _ _ _ c ds) as [ds1 ok].
    rewrite IH. destruct (M569_replay cs1 ds1) as [oks ds2]. done.
Qed.

Lemma accepted_where_tested_app
    (p1 p2 : list (driver_call Float * bool)) (o1 o2 : list bool) :
  accepted_where_tested p1 o1 → accepted_where_tested p2 o2 →
  accepted_where_tested (p1 ++ p2) (o1 ++ o2).
Proof. apply Forall2_app. Qed.

(** A refused call among calls that were accepted where looked at is
    one that is not looked at. *)
Lemma accepted_where_tested_refused
    (plan : list (driver_call Float * bool)) (oks : list bool) (i : nat) :
  accepted_where_tested plan oks → oks !! i = Some false →
  ∃ st, plan !! i = Some st ∧ st.2 = false.
Proof.
  intros Hall Hi.
  destruct (Forall2_lookup_r _ _ _ _ _ Hall Hi) as (st & Hst & Hok).
  exists st. split; [done|]. destruct st.2; [by specialize (Hok eq_refl) | done].
Qed.

Lemma follows_skip : M569_follows false [] (@skip Float Drivers).
Proof.
  intros r. cbn. rewrite orb_false_r, app_nil_r.
  split; [done|]. split; [done|]. split; [done|]. split; [constructor | done].
Qed.

Lemma follows_and_next g1 p1 (s1 : @step Float Drivers) g2 p2 s2 :
  M569_follows g1 p1 s1 → M569_follows g2 p2 s2 →
  M569_follows (g1 || g2) (p1 ++ p2) (and_next s1 s2).
Proof.
  intros H1 H2 r. unfold and_next. specialize (H1 r).
  destruct (s1 r) as [[f r1]|r1].
  - destruct H1 as [-> (l & Hl & Hp & Hd & Hshape)]. split; [done|].
    exists l. split; [done|]. split; [by apply prefix_app_r|]. done.
  - destruct H1 as (Hs & Hc & Hd & Hacc & Hsame). specialize (H2 r1).
    destruct (s2 r1) as [[f r2]|r2].
    + destruct H2 as [-> (l & Hl & Hp & Hd2 & Hshape)].
      split; [by rewrite orb_true_r|].
      exists (p1 ++ l).
      split; [by rewrite Hl, Hc, fmap_app, app_assoc|].
      split; [by apply prefix_app|].
      rewrite fmap_app, replay_app. cbn [fst snd]. rewrite <- Hd.
      split; [done|].
      destruct Hshape as [Hall|(l0 & c & oks0 & -> & Hoks & Hall)].
      * left. by apply accepted_where_tested_app.
      * right. exists (p1 ++ l0), c, ((M569_replay p1.*1 (drivers r)).1 ++ oks0).
        split; [by rewrite app_assoc|].
        split; [by rewrite Hoks, app_assoc|].
        by apply accepted_where_tested_app.
    + destruct H2 as (Hs2 & Hc2 & Hd2 & Hacc2 & Hsame2).
      split; [by rewrite Hs2, Hs, orb_assoc|].
      split; [by rewrite Hc2, Hc, fmap_app, app_assoc|].
      rewrite fmap_app, replay_app. cbn [fst snd]. rewrite <- Hd.
      split; [done|].
      split; [by apply accepted_where_tested_app|].
      intros [-> ->]%orb_false_iff. rewrite Hsame2, Hsame; done.
Qed.

Lemma follows_absent {A} (body : A → @step Float Drivers) :
  M569_follows false [] (when_given None body).
Proof.
  intros r. cbn. rewrite orb_false_r, app_nil_r.
  split; [done|]. split; [done|]. split; [done|]. split; [constructor | done].
Qed.

Lemma follows_do_call {A} (p : option A) (c : A → driver_call Float)
    (f : A → Drivers → Drivers) :
  (∀ v ds, carry_out SetDirectionValue SetEnableValue SetDriverStepTiming
                     SetDriverMode SetRegister (c v) ds = (f v ds, true)) →
  M569_follows (bool_decide (is_Some p))
               (match p with Some v => [(c v, true)] | None => [] end)
               (when_given p (λ v, do_call (c v) (f v))).
Proof.
  intros Hcarry. destruct p as [v|].
  2: { rewrite bool_decide_eq_false_2 by (by intros [? ?]).
       apply follows_absent. }
  rewrite bool_decide_eq_true_2 by eauto.
  intros r. cbn. rewrite Hcarry. cbn. rewrite orb_true_r.
  split; [done|]. split; [done|]. split; [done|].
  split; [|done]. by repeat constructor.
Qed.

Lemma follows_check_call {A} (p : option A) (c : A → driver_call Float)
    (f : A → Drivers → Drivers * bool) (failure : A → string) :
  (∀ v ds, carry_out SetDirectionValue SetEnableValue SetDriverStepTiming
                     SetDriverMode SetRegister (c v) ds = f v ds) →
  M569_follows (bool_decide (is_Some p))
               (match p with Some v => [(c v, true)] | None => [] end)
               (when_given p (λ v, check_call (c v) (f v) (failure v))).
Proof.
  intros Hcarry. destruct p as [v|].
  2: { rewrite bool_decide_eq_false_2 by (by intros [? ?]).
       apply follows_absent. }
  rewrite bool_decide_eq_true_2 by eauto.
  intros r. cbn. unfold check_call. cbn.
  destruct (f v (drivers r)) as [ds ok] eqn:Hf. destruct ok; cbn.
  - rewrite Hcarry, Hf. cbn. rewrite orb_true_r.
    split; [done|]. split; [done|]. split; [done|].
    split; [|done]. by repeat constructor.
  - split; [done|]. exists [(c v, true)]. cbn. rewrite Hcarry, Hf. cbn.
    split; [done|]. split; [done|]. split; [done|].
    right. exists [], (c v), []. split; [done|]. split; [done|]. constructor.
Qed.

Lemma follows_set_register (p : option Z) drive reg failure :
  M569_follows (bool_decide (is_Some p))
               (requested_register (Float := Float) p drive reg)
               (set_register SetRegister p drive reg failure).
Proof.
  exact (follows_check_call p (λ val, CallSetRegister drive reg val)
           (λ val, SetRegister drive reg val) (λ _, failure)
           (λ _ _, eq_refl)).
Qed.

Lemma follows_timings (p : option (list Float)) drive :
  M569_follows (bool_decide (is_Some p))
    (match p with
     | Some timings =>
         if bool_decide (length timings ≠ 4%nat) then []
         else [(CallSetDriverStepTiming drive timings, true)]
     | None => []
     end)
    (when_given p (λ timings,
       if bool_decide (length timings ≠ 4%nat)
       then λ r, inl ("bad timing parameter"%string, r)
       else do_call (CallSetDriverStepTiming drive timings)
                    (SetDriverStepTiming drive timings))).
Proof.
  destruct p as [timings|].
  2: { rewrite bool_decide_eq_false_2 by (by intros [? ?]).
       apply follows_absent. }
  rewrite (bool_decide_eq_true_2 (is_Some (Some timings))) by eauto.
  intros r. cbn.
  destruct (bool_decide (length timings ≠ 4%nat)); cbn.
  - split; [done|]. exists []. cbn. rewrite app_nil_r.
    split; [done|]. split; [done|]. split; [done|]. left. constructor.
  - rewrite orb_true_r.
    split; [done|]. split; [done|]. split; [done|].
    split; [|done]. by repeat constructor.
Qed.

Ltac replayed :=
  cbn;
  repeat (match goal with
          | H : SetRegister _ _ _ _ = _ |- _ => rewrite H
          end; cbn).

Lemma follows_hysteresis (p : option (list Z)) drive :
  M569_follows (bool_decide (is_Some p))
    (match p with
     | Some hvalues => requested_hysteresis (Float := Float) drive hvalues
     | None => []
     end)
    (when_given p (set_hysteresis SetRegister drive)).
Proof.
  destruct p as [hvalues|].
  2: { rewrite bool_decide_eq_false_2 by (by intros [? ?]).
       apply follows_absent. }
  rewrite (bool_decide_eq_true_2 (is_Some (Some hvalues))) by eauto.
  intros r. cbn [when_given]. unfold set_hysteresis. cbn [drivers calls seen].
  destruct hvalues as [|h0 [|h1 [|h2 [|h3 rest]]]].
  - split; [done|]. exists []. cbn. rewrite app_nil_r.
    split; [done|]. split; [done|]. split; [done|]. left. constructor.
  - split; [done|]. exists []. cbn. rewrite app_nil_r.
    split; [done|]. split; [apply prefix_nil|]. split; [done|].
    left. constructor.
  - cbn.
    destruct (SetRegister drive hstart h0 (drivers r)) as [ds1 ok1] eqn:E1.
    destruct (SetRegister drive hend h1 ds1) as [ds2 ok2] eqn:E2.
    destruct ok2.
    + destruct (SetRegister drive hstart h0 ds2) as [ds3 ok3] eqn:E3.
      destruct ok3.
      * rewrite orb_true_r, <- app_assoc. replayed.
        split; [done|]. split; [done|]. split; [done|].
        split; [|done]. by repeat constructor.
      * split; [done|].
        exists [(CallSetRegister drive hstart h0, false);
                (CallSetRegister drive hend h1, true);
                (CallSetRegister drive hstart h0, true)].
        rewrite <- app_assoc. replayed.
        split; [done|]. split; [done|].
        split; [done|]. right.
        exists [(CallSetRegister drive hstart h0, false);
                (CallSetRegister drive hend h1, true)],
               (CallSetRegister drive hstart h0), [ok1; true].
        split; [done|]. split; [done|]. by repeat constructor.
    + split; [done|].
      exists [(CallSetRegister drive hstart h0, false);
              (CallSetRegister drive hend h1, true)].
      replayed.
      split; [done|].
      split; [by exists [(CallSetRegister drive hstart h0, true)]|].
      split; [done|]. right.
      exists [(CallSetRegister drive hstart h0, false)],
             (CallSetRegister drive hend h1), [ok1].
      split; [done|]. split; [done|]. by repeat constructor.
  - cbn.
    destruct (SetRegister drive hstart h0 (drivers r)) as [ds1 ok1] eqn:E1.
    destruct (SetRegister drive hend h1 ds1) as [ds2 ok2] eqn:E2.
    destruct ok2.
    + destruct (SetRegister drive hstart h0 ds2) as [ds3 ok3] eqn:E3.
      destruct ok3.
      * destruct (SetRegister drive hdec h2 ds3) as [ds4 ok4] eqn:E4.
        destruct ok4.
        -- rewrite orb_true_r, <- !app_assoc. replayed.
           split; [done|]. split; [done|]. split; [done|].
           split; [|done]. by repeat constructor.
        -- split; [done|].
           exists [(CallSetRegister drive hstart h0, false);
                   (CallSetRegister drive hend h1, true);
                   (CallSetRegister drive hstart h0, true);
                   (CallSetRegister drive hdec h2, true)].
           rewrite <- !app_assoc. replayed.
           split; [done|]. split; [done|].
           split; [done|]. right.
           exists [(CallSetRegister drive hstart h0, false);
                   (CallSetRegister drive hend h1, true);
                   (CallSetRegister drive hstart h0, true)],
                  (CallSetRegister drive hdec h2), [ok1; true; true].
           split; [done|]. split; [done|]. by repeat constructor.
      * split; [done|].
        exists [(CallSetRegister drive hstart h0, false);
                (CallSetRegister drive hend h1, true);
                (CallSetRegister drive hstart h0, true)].
        rewrite <- app_assoc. replayed.
        split; [done|].
        split; [by exists [(CallSetRegister drive hdec h2, true)]|].
        split; [done|]. right.
        exists [(CallSetRegister drive hstart h0, false);
                (CallSetRegister drive hend h1, true)],
               (CallSetRegister drive hstart h0), [ok1; true].
        split; [done|]. split; [done|]. by repeat constructor.
    + split; [done|].
      exists [(CallSetRegister drive hstart h0, false);
              (CallSetRegister drive hend h1, true)].
      replayed.
      split; [done|].
      split; [by exists [(CallSetRegister drive hstart h0, true);
                         (CallSetRegister drive hdec h2, true)]|].
      split; [done|]. right.
      exists [(CallSetRegister drive hstart h0, false)],
             (CallSetRegister drive hend h1), [ok1].
      split; [done|]. split; [done|]. by repeat constructor.
  - cbn. split; [done|]. exists []. cbn. rewrite app_nil_r.
    split; [done|]. split; [done|]. split; [done|]. left. constructor.
Qed.

Lemma apply_settings_follows drive msg :
  M569_follows (M569_any_setting msg) (M569_steps drive msg)
               (M569_settings drive msg).
Proof.
  unfold any_setting, requested_steps, apply_settings.
  rewrite <- !orb_assoc.
  apply follows_and_next;
    [exact (follows_do_call (param_S msg)
              (λ direction,
                 CallSetDirectionValue drive (bool_decide (direction ≠ 0)))
              (λ direction,
                 SetDirectionValue drive (bool_decide (direction ≠ 0)))
              (λ _ _, eq_refl))|].
  apply follows_and_next;
    [exact (follows_do_call (param_R msg) (CallSetEnableValue drive)
              (SetEnableValue drive) (λ _ _, eq_refl))|].
  apply follows_and_next.
  { destruct SUPPORT_SLOW_DRIVERS; [apply follows_timings | apply follows_skip]. }
  destruct HAS_SMART_DRIVERS; [|apply follows_skip].
  cbn [andb]. rewrite <- ?orb_assoc.
  apply follows_and_next;
    [exact (follows_check_call (param_D msg) (CallSetDriverMode drive)
              (SetDriverMode drive) _ (λ _ _, eq_refl))|].
  apply follows_and_next; [apply follows_set_register|].
  apply follows_and_next; [apply follows_set_register|].
  apply follows_and_next; [apply follows_set_register|].
  apply follows_and_next; [|apply follows_hysteresis].
  destruct SUPPORT_TMC51xx; [apply follows_set_register | apply follows_skip].
Qed.



Lemma ProcessM569_run msg reply0 (ds : Drivers) drive :
  param_P msg = Some drive → drive < NumDrivers →
  let o := M569_process msg reply0 ds in
  calls_made o `prefix_of` M569_requested drive msg
  ∧ (calls_made o = [] → drivers_after o = ds)
  ∧ (result o = GCodeResult.ok → calls_made o = M569_requested drive msg)
  ∧ (result o = GCodeResult.error → M569_any_setting msg = true)
  ∧ (M569_any_setting msg = true → result o = GCodeResult.ok →
     reply_text o = reply0)
  ∧ (M569_any_setting msg = false →
     o = mkOutcome (report_head CanAddress GetDirectionValue GetEnableValue
                                drive ds
                    +:+ report_tail drive ds)
                   GCodeResult.ok ds [])
  ∧ drivers_after o = (M569_replay (calls_made o) ds).2
  ∧ (∀ i : nat, (M569_replay (calls_made o) ds).1 !! i = Some false →
       (∃ st, M569_steps drive msg !! i = Some st ∧ st.2 = false)
       ∨ (S i = length (calls_made o) ∧ result o = GCodeResult.error)).
Proof.
  intros HP Hdrive. unfold ProcessM569. rewrite HP.
  rewrite bool_decide_eq_false_2 by lia.
  pose proof (apply_settings_follows drive msg (mkRun ds [] false)) as Hrun.
  destruct (M569_settings drive msg (mkRun ds [] false)) as [[failure r]|r];
    cbn [calls seen drivers] in Hrun.
  - destruct Hrun as [Hany (l & Hl & Hp & Hd & Hshape)]. cbn in Hl.
    cbn -[requested_calls requested_steps any_setting replay]. rewrite Hl.
    split.
    { destruct Hp as [k Hk]. unfold requested_calls. rewrite Hk, fmap_app.
      by exists k.*1. }
    split; [intros Hnil; by rewrite Hd, Hnil|].
    split; [done|]. split; [done|]. split; [done|].
    split; [by rewrite Hany|]. split; [done|].
    intros i Hi.
    destruct Hshape as [Hall|(l0 & c & oks0 & -> & Hoks & Hall)].
    + left. destruct (accepted_where_tested_refused l _ i Hall Hi)
        as (st & Hst & Hflag).
      exists st. split; [|done]. by eapply prefix_lookup_Some.
    + rewrite Hoks in Hi.
      pose proof (Forall2_length _ _ _ Hall) as Hlen.
      destruct (decide (i < length oks0)%nat) as [Hlt|Hge].
      * left. rewrite lookup_app_l in Hi by done.
        destruct (accepted_where_tested_refused l0 _ i Hall Hi)
          as (st & Hst & Hflag).
        exists st. split; [|done].
        eapply prefix_lookup_Some; [|done]. by apply lookup_app_l_Some.
      * right. split; [|done].
        apply lookup_lt_Some in Hi. rewrite length_app in Hi. cbn in Hi.
        rewrite length_fmap, length_app. cbn. lia.
  - destruct Hrun as (Hs & Hc & Hd & Hacc & Hsame). cbn in Hs, Hc.
    assert (∀ i : nat,
              (M569_replay (M569_steps drive msg).*1 ds).1 !! i = Some false →
              ∃ st, M569_steps drive msg !! i = Some st ∧ st.2 = false)
      as Hrefused
      by (intros i Hi; by apply (accepted_where_tested_refused _ _ i Hacc)).
    destruct (seen r) eqn:Hseen;
      cbn -[requested_calls requested_steps any_setting replay]; rewrite Hc.
    + split; [done|].
      split; [intros Hnil; by rewrite Hd, Hnil|].
      split; [done|]. split; [done|].
      split; [done|]. split; [by rewrite <- Hs|]. split; [done|].
      intros i Hi. left. by apply Hrefused.
    + split; [done|].
      split; [intros Hnil; by rewrite Hd, Hnil|].
      split; [done|]. split; [done|].
      split; [by rewrite <- Hs|].
      split.
      { intros _. rewrite (Hsame (eq_sym Hs)) in Hc |- *. cbn in Hc |- *.
        rewrite <- Hc. done. }
      split; [done|].
      intros i Hi. left. by apply Hrefused.
Qed.


(** X19.  For a message that names a driver of the board:
    [ProcessM569] writes the report of the driver exactly when the
    message asks for no setting, and then calls nothing and changes
    nothing; when a setting is asked for and the result is [ok] the
    reply is left as it was on entry; and the result is [error] only
    when a setting was asked for. *)
Theorem ProcessM569_reports_only_when_nothing_is_set
    msg reply0 (ds : Drivers) drive :
  param_P msg = Some drive → drive < NumDrivers →
  let o := M569_process msg reply0 ds in
  (M569_any_setting msg = false →
     o = mkOutcome (report_head CanAddress GetDirectionValue GetEnableValue
                                drive ds
                    +:+ report_tail drive ds)
                   GCodeResult.ok ds [])
  ∧ (M569_any_setting msg = true → result o = GCodeResult.ok →
     reply_text o = reply0)
  ∧ (result o = GCodeResult.error → M569_any_setting msg = true).
Proof.
  intros HP Hdrive o.
  destruct (ProcessM569_run msg reply0 ds drive HP Hdrive)
    as (_ & _ & _ & Herr & Hset & Hquery & _).
  split; [exact Hquery|]. split; [exact Hset | exact Herr].
Qed.

End M569Theorems.

Section M569Examples.
Import CommandProcessor.

Lemma ProcessM569_reports_only_when_nothing_is_set_witness :
  param_P Demo.query = Some 1
  ∧ 1 < Demo.NumDrivers
  ∧ Demo.M569_run Demo.query "previous text" []
    = mkOutcome "Driver 7.1 runs forwards, active low enable, mode spreadCycle"
                GCodeResult.ok [] [].
Proof.
  assert (1 < Demo.NumDrivers) as Hdrive by (unfold Demo.NumDrivers; lia).
  split; [reflexivity|]. split; [exact Hdrive|].
  exact (proj1 (ProcessM569_reports_only_when_nothing_is_set
                  false true true Demo.NumDrivers Demo.CanAddress
                  Demo.SetDirectionValue Demo.SetEnableValue
                  Demo.SetDriverStepTiming Demo.SetDriverMode Demo.SetRegister
                  Demo.GetDirectionValue Demo.GetEnableValue
                  Demo.TranslateDriverMode Demo.report_tail
                  Demo.query "previous text" [] 1 eq_refl Hdrive)
               eq_refl).
Defined.

(** A refused hysteresis value ends the command with an error, but the
    direction and the first hysteresis register have been written by
    then and stay written. *)
Example ProcessM569_refused_setting :
  Demo.M569_run Demo.refused_hysteresis "" []
  = mkOutcome "Bad hysteresis setting for driver 1" GCodeResult.error
      [CallSetDirectionValue 1 false; CallSetRegister 1 hstart 3]
      [CallSetDirectionValue 1 false; CallSetRegister 1 hstart 3;
       CallSetRegister 1 hend 20].
Proof. vm_compute. reflexivity. Qed.

(** The first write of [hstart] is refused and the calls go on: [hend]
    is accepted, and the command fails at the second write of
    [hstart]. *)
Example ProcessM569_discarded_result :
  Demo.M569_run Demo.refused_hstart "" []
  = mkOutcome "Bad hysteresis setting for driver 1" GCodeResult.error
      [CallSetRegister 1 hend 5]
      [CallSetRegister 1 hstart 20; CallSetRegister 1 hend 5;
       CallSetRegister 1 hstart 20]
  ∧ (replay Demo.SetDirectionValue Demo.SetEnableValue
            Demo.SetDriverStepTiming Demo.SetDriverMode Demo.SetRegister
            [CallSetRegister 1 hstart 20; CallSetRegister 1 hend 5;
             CallSetRegister 1 hstart 20] []).1
    = [false; true; false].
Proof. split; vm_compute; reflexivity. Qed.

(** All settings accepted: the reply stays empty. *)
Example ProcessM569_accepted_settings :
  Demo.M569_run Demo.accepted_settings "" []
  = mkOutcome "" GCodeResult.ok
      [CallSetDirectionValue 1 true; CallSetDriverMode 1 0;
       CallSetRegister 1 hstart 3; CallSetRegister 1 hend 5;
       CallSetRegister 1 hstart 3; CallSetRegister 1 hdec 2]
      [CallSetDirectionValue 1 true; CallSetDriverMode 1 0;
       CallSetRegister 1 hstart 3; CallSetRegister 1 hend 5;
       CallSetRegister 1 hstart 3; CallSetRegister 1 hdec 2].
Proof. vm_compute. reflexivity. Qed.

(** A driver number that the board does not have. *)
Example ProcessM569_bad_driver :
  Demo.M569_run
    (mkM569 (Some 2) (Some 1) None None None None None None None None) "" []
  = mkOutcome "Driver number 7.2 out of range" GCodeResult.error [] [].
Proof. vm_compute. reflexivity. Qed.

End M569Examples.

(** ** The functions of namespace [AnalogIn] *)

Section AdcPinTheorems.
Import AnalogIn.
Context {Fn Param Task HW AdcInput : Type}.
Variables (PTAT_Val MUXNEG_GND REFSEL_INTVCC1 : Z) (InitialiseAdc : HW → HW)
          (NumPins : Z) (PinToAdcInput : Z → option AdcInput)
          (GetDeviceNumber GetInputNumber : AdcInput → Z)
          (SetPinModeAIN : Z → HW → HW).
Implicit Types (a : AdcClass Fn Param Task) (hw : HW) (c : call Fn Param)
               (adcs : list (AdcClass Fn Param Task)).

Lemma on_adc_do_call c adcs (device : Z) hw :
  Forall within_bounds adcs → call_typed c →
  0 ≤ device < Z.of_nat (length adcs) →
  ∃ a r a' hw',
    adcs !! Z.to_nat device = Some a
    ∧ do_call PTAT_Val MUXNEG_GND REFSEL_INTVCC1 InitialiseAdc c a hw
      = Some (r, a', hw')
    ∧ on_adc adcs device
             (do_call PTAT_Val MUXNEG_GND REFSEL_INTVCC1 InitialiseAdc c) hw
      = Some (r, <[Z.to_nat device := a']> adcs, hw')
    ∧ within_bounds a'
    ∧ (r = false → a' = a ∧ hw' = hw).
Proof.
  intros Hall Htyped Hdev.
  destruct (lookup_lt_is_Some_2 adcs (Z.to_nat device)) as [a Ha]; [lia|].
  assert (within_bounds a) as Hin.
  { rewrite Forall_forall in Hall. apply Hall.
    by eapply list_elem_of_lookup_2. }
  destruct (do_call_within_bounds PTAT_Val MUXNEG_GND REFSEL_INTVCC1
              InitialiseAdc c a hw Hin Htyped)
    as (r & a' & hw' & Hrun & Hin' & Hfalse & _).
  exists a, r, a', hw'. split; [done|]. split; [done|].
  split; [|done].
  unfold on_adc, load. rewrite bool_decide_eq_true_2 by lia.
  rewrite Ha. cbn [mbind option_bind]. rewrite Hrun.
  cbn [mbind option_bind]. unfold store.
  rewrite bool_decide_eq_true_2 by lia. done.
Qed.

Lemma on_adc_facts c adcs (device : Z) hw :
  Forall within_bounds adcs → call_typed c →
  0 ≤ device < Z.of_nat (length adcs) →
  ∃ r adcs' hw',
    on_adc adcs device
           (do_call PTAT_Val MUXNEG_GND REFSEL_INTVCC1 InitialiseAdc c) hw
    = Some (r, adcs', hw')
    ∧ Forall within_bounds adcs'
    ∧ length adcs' = length adcs
    ∧ (r = false → adcs' = adcs ∧ hw' = hw)
    ∧ (∀ i : nat, i ≠ Z.to_nat device → adcs' !! i = adcs !! i)
    ∧ (r = true →
       ∃ a', adcs' !! Z.to_nat device = Some a'
             ∧ 0 ≤ selected_channel PTAT_Val c < 32
             ∧ IsChannelEnabled (selected_channel PTAT_Val c) a' = true
             ∧ ReadChannel (selected_channel PTAT_Val c) a' = Some 0).
Proof.
  intros Hall Htyped Hdev.
  destruct (on_adc_do_call c adcs device hw Hall Htyped Hdev)
    as (a & r & a' & hw' & Ha & Hrun & Hon & Hin' & Hfalse).
  exists r, (<[Z.to_nat device := a']> adcs), hw'.
  split; [done|].
  split; [by apply Forall_insert|].
  split; [by rewrite length_insert|].
  split.
  { intros Hr. destruct (Hfalse Hr) as [-> ->].
    split; [by apply list_insert_id | done]. }
  split; [intros i Hi; by apply list_lookup_insert_ne|].
  intros ->. exists a'.
  split; [apply list_lookup_insert_eq; lia|].
  assert (within_bounds a) as Hin.
  { rewrite Forall_forall in Hall. apply Hall.
    by eapply list_elem_of_lookup_2. }
  pose proof (do_call_true_effect PTAT_Val MUXNEG_GND REFSEL_INTVCC1
                InitialiseAdc c a hw a' hw' Hin Htyped Hrun)
    as (_ & Hchan & _ & _ & Hen & Hread & _).
  done.
Qed.

(** X20.  [AnalogIn::EnableChannel] on a pin whose ADC input belongs to
    one of the ADCs, all of them within their bounds: the call returns,
    every ADC is within its bounds afterwards, and no ADC but the one
    the pin belongs to is touched.  A pin outside [PinTable] or without
    an ADC input is refused with nothing changed.  But a pin that has an
    ADC input is switched to analog mode before the ADC is asked, so
    when the ADC refuses the channel (its sequence is full, or the input
    number is 16 or more) the ADCs are as they were and the pin mode
    has changed all the same. *)
Theorem AnalogIn_EnableChannel_touches_one_ADC
    (pin : Z) fn (param : Param) (t now : Z) adcs hw :
  Forall within_bounds adcs →
  (∀ ain, PinToAdcInput pin = Some ain →
     0 ≤ GetDeviceNumber ain < Z.of_nat (length adcs)
     ∧ is_uint32 (GetInputNumber ain)) →
  ∃ r adcs' hw',
    AnalogIn_EnableChannel MUXNEG_GND REFSEL_INTVCC1 InitialiseAdc
      NumPins PinToAdcInput GetDeviceNumber GetInputNumber SetPinModeAIN
      pin fn param t now adcs hw = Some (r, adcs', hw')
    ∧ Forall within_bounds adcs'
    ∧ length adcs' = length adcs
    ∧ (r = false → adcs' = adcs)
    ∧ (∀ ain (i : nat), PinToAdcInput pin = Some ain →
         i ≠ Z.to_nat (GetDeviceNumber ain) → adcs' !! i = adcs !! i)
    ∧ (NumPins ≤ pin ∨ PinToAdcInput pin = None → r = false ∧ hw' = hw)
    ∧ (pin < NumPins → is_Some (PinToAdcInput pin) → r = false →
       hw' = SetPinModeAIN pin hw).
Proof.
  intros Hall Hpin. unfold AnalogIn_EnableChannel.
  case_bool_decide as Hlt.
  2: { exists false, adcs, hw. split; [done|]. split; [done|].
       split; [done|]. split; [done|]. split; [done|].
       split; [done|]. intros ?. lia. }
  destruct (PinToAdcInput pin) as [ain|] eqn:Hain.
  2: { exists false, adcs, hw. split; [done|]. split; [done|].
       split; [done|]. split; [done|]. split; [done|].
       split; [done|]. by intros _ [? ?]. }
  destruct (Hpin ain eq_refl) as [Hdev Hinput].
  destruct (on_adc_facts (CallEnableChannel (GetInputNumber ain) fn param t now)
              adcs (GetDeviceNumber ain) (SetPinModeAIN pin hw)
              Hall Hinput Hdev)
    as (r & adcs' & hw' & Hrun & Hall' & Hlen & Hfalse & Hframe & _).
  exists r, adcs', hw'. split; [exact Hrun|].
  split; [done|]. split; [done|].
  split; [intros Hr; by destruct (Hfalse Hr)|].
  split; [intros ? i [= <-]; by apply Hframe|].
  split; [intros [?|?]; [lia | done]|].
  intros _ _ Hr. by destruct (Hfalse Hr).
Qed.

(** X21.  After [AnalogIn::EnableChannel] has returned true for a pin,
    [AnalogIn::IsChannelEnabled] answers true for that pin and
    [AnalogIn::ReadChannel] gives 0 for its ADC input, the reading
    having been cleared; and the call returns true only for a pin
    inside [PinTable] that has an ADC input with an input number below
    16. *)
Theorem enabled_pin_reads_as_enabled
    (pin : Z) fn (param : Param) (t now : Z) adcs hw adcs' hw' :
  Forall within_bounds adcs →
  (∀ ain, PinToAdcInput pin = Some ain →
     0 ≤ GetDeviceNumber ain < Z.of_nat (length adcs)
     ∧ is_uint32 (GetInputNumber ain)) →
  AnalogIn_EnableChannel MUXNEG_GND REFSEL_INTVCC1 InitialiseAdc
    NumPins PinToAdcInput GetDeviceNumber GetInputNumber SetPinModeAIN
    pin fn param t now adcs hw = Some (true, adcs', hw') →
  AnalogIn_IsChannelEnabled NumPins PinToAdcInput GetDeviceNumber
    GetInputNumber pin adcs' = Some true
  ∧ AnalogIn_ReadChannel GetDeviceNumber GetInputNumber
      (PinToAdcInput pin) adcs' = Some 0
  ∧ pin < NumPins
  ∧ ∃ ain, PinToAdcInput pin = Some ain ∧ GetInputNumber ain < 16.
Proof.
  intros Hall Hpin. unfold AnalogIn_EnableChannel, AnalogIn_IsChannelEnabled.
  case_bool_decide as Hlt; [|done].
  destruct (PinToAdcInput pin) as [ain|] eqn:Hain; [|done].
  destruct (Hpin ain eq_refl) as [Hdev Hinput].
  destruct (on_adc_facts (CallEnableChannel (GetInputNumber ain) fn param t now)
              adcs (GetDeviceNumber ain) (SetPinModeAIN pin hw)
              Hall Hinput Hdev)
    as (r & adcs1 & hw1 & Hrun & _ & _ & _ & _ & Htrue).
  intros Hcall.
  assert (Some (r, adcs1, hw1) = Some (true, adcs', hw')) as Heq
    by (rewrite <- Hrun; exact Hcall).
  injection Heq as -> -> ->.
  destruct (Htrue eq_refl) as (a' & Ha' & Hchan & Hen & Hread).
  cbn [selected_channel] in Hchan, Hen, Hread.
  assert (load adcs' (GetDeviceNumber ain) = Some a') as Hload.
  { unfold load. rewrite bool_decide_eq_true_2 by lia. done. }
  cbn [AnalogIn_ReadChannel]. rewrite Hload. cbn. rewrite Hen.
  split; [done|]. split; [done|]. split; [done|].
  exists ain. split; [done|].
  destruct (decide (GetInputNumber ain < 16)) as [?|Hbig]; [done|].
  exfalso.
  destruct (on_adc_do_call
              (CallEnableChannel (GetInputNumber ain) fn param t now)
              adcs (GetDeviceNumber ain) (SetPinModeAIN pin hw)
              Hall Hinput Hdev)
    as (a & r & a1 & hw1 & Ha & Hdo & Hon & _ & _).
  rewrite Hrun in Hon. injection Hon as <- _ _.
  cbn [do_call] in Hdo. unfold EnableChannel, MaxSequenceLength in Hdo.
  rewrite (bool_decide_eq_true_2 (GetInputNumber ain >= 16)) in Hdo by lia.
  rewrite orb_true_r in Hdo. done.
Qed.

(** X22.  [AnalogIn::EnableTemperatureSensor] checks the ADC number it
    is given: for any [adcnum] it returns, every ADC is within its
    bounds afterwards and no ADC other than [Adcs[adcnum]] is touched;
    with [adcnum] not below the number of ADCs, and whenever the result
    is false, neither the ADCs nor the peripherals have changed. *)
Theorem AnalogIn_EnableTemperatureSensor_checks_the_ADC_number
    (sensorNumber : Z) fn (param : Param) (t adcnum now : Z) adcs hw :
  Forall within_bounds adcs → is_uint32 sensorNumber → 0 ≤ adcnum →
  ∃ r adcs' hw',
    AnalogIn_EnableTemperatureSensor PTAT_Val MUXNEG_GND REFSEL_INTVCC1
      InitialiseAdc sensorNumber fn param t adcnum now adcs hw
    = Some (r, adcs', hw')
    ∧ Forall within_bounds adcs'
    ∧ length adcs' = length adcs
    ∧ (r = false → adcs' = adcs ∧ hw' = hw)
    ∧ (Z.of_nat (length adcs) ≤ adcnum → r = false)
    ∧ (2 ≤ sensorNumber → r = false)
    ∧ (∀ i : nat, i ≠ Z.to_nat adcnum → adcs' !! i = adcs !! i).
Proof.
  intros Hall Hsensor Hnum. unfold AnalogIn_EnableTemperatureSensor.
  case_bool_decide as Hlt.
  2: { exists false, adcs, hw. split; [done|]. split; [done|].
       split; [done|]. split; [done|]. split; [done|]. done. }
  destruct (on_adc_do_call
              (CallEnableTemperatureSensor sensorNumber fn param t now)
              adcs adcnum hw Hall Hsensor ltac:(lia))
    as (a & r0 & a0 & hw0 & Ha & Hdo & _).
  destruct (on_adc_facts
              (CallEnableTemperatureSensor sensorNumber fn param t now)
              adcs adcnum hw Hall Hsensor ltac:(lia))
    as (r & adcs' & hw' & Hrun & Hall' & Hlen & Hfalse & Hframe & _).
  exists r, adcs', hw'. split; [exact Hrun|].
  split; [done|]. split; [done|]. split; [done|].
  split; [intros ?; lia|]. split; [|done].
  intros Hbig.
  assert (within_bounds a) as Hin.
  { rewrite Forall_forall in Hall. apply Hall.
    by eapply list_elem_of_lookup_2. }
  destruct (do_call_within_bounds PTAT_Val MUXNEG_GND REFSEL_INTVCC1
              InitialiseAdc
              (CallEnableTemperatureSensor sensorNumber fn param t now)
              a hw Hin Hsensor)
    as (r1 & a1 & hw1 & Hdo1 & _ & _ & Hrefused).
  assert (r1 = false) as -> by (apply Hrefused; right; exact Hbig).
  unfold on_adc, load in Hrun.
  rewrite bool_decide_eq_true_2 in Hrun by lia.
  rewrite Ha in Hrun. cbn [mbind option_bind] in Hrun.
  rewrite Hdo1 in Hrun. cbn [mbind option_bind] in Hrun.
  unfold store in Hrun.
  rewrite bool_decide_eq_true_2 in Hrun by lia. by injection Hrun as <- _ _.
Qed.

End AdcPinTheorems.

Section AdcPinExamples.
Import AnalogIn.

Lemma Demo_Adcs_within_bounds : Forall within_bounds Demo.Adcs.
Proof.
  constructor; [exact Demo_constructed_within_bounds|].
  constructor; [exact Demo_constructed_within_bounds|]. constructor.
Qed.

Lemma Demo_pin_3_input :
  ∀ ain, Demo.PinToAdcInput 3 = Some ain →
    0 ≤ Demo.GetDeviceNumber ain < Z.of_nat (length Demo.Adcs)
    ∧ is_uint32 (Demo.GetInputNumber ain).
Proof. intros ain [= <-]. vm_compute. split; split; done. Qed.

Lemma Demo_pin_3_run :
  AnalogIn_EnableChannel Demo.MUXNEG_GND Demo.REFSEL_INTVCC1 S
    Demo.NumPins Demo.PinToAdcInput Demo.GetDeviceNumber Demo.GetInputNumber
    Demo.SetPinModeAIN 3 (Some 4%nat) 5%nat 10 1000 Demo.Adcs 0%nat
  = Some (true, [construct 0%nat Demo.raw; Demo.one_channel], 11%nat).
Proof. vm_compute. reflexivity. Qed.

Lemma AnalogIn_EnableChannel_touches_one_ADC_witness :
  Forall within_bounds Demo.Adcs
  ∧ (∀ ain, Demo.PinToAdcInput 3 = Some ain →
       0 ≤ Demo.GetDeviceNumber ain < Z.of_nat (length Demo.Adcs)
       ∧ is_uint32 (Demo.GetInputNumber ain))
  ∧ ∃ r adcs' hw',
      AnalogIn_EnableChannel Demo.MUXNEG_GND Demo.REFSEL_INTVCC1 S
        Demo.NumPins Demo.PinToAdcInput Demo.GetDeviceNumber
        Demo.GetInputNumber Demo.SetPinModeAIN
        3 (Some 4%nat) 5%nat 10 1000 Demo.Adcs 0%nat = Some (r, adcs', hw')
      ∧ Forall within_bounds adcs'
      ∧ length adcs' = length Demo.Adcs
      ∧ (r = false → adcs' = Demo.Adcs)
      ∧ (∀ ain (i : nat), Demo.PinToAdcInput 3 = Some ain →
           i ≠ Z.to_nat (Demo.GetDeviceNumber ain) →
           adcs' !! i = Demo.Adcs !! i)
      ∧ (Demo.NumPins ≤ 3 ∨ Demo.PinToAdcInput 3 = None →
         r = false ∧ hw' = 0%nat)
      ∧ (3 < Demo.NumPins → is_Some (Demo.PinToAdcInput 3) → r = false →
         hw' = Demo.SetPinModeAIN 3 0%nat).
Proof.
  split; [exact Demo_Adcs_within_bounds|]. split; [exact Demo_pin_3_input|].
  exact (AnalogIn_EnableChannel_touches_one_ADC
           Demo.PTAT_Val Demo.MUXNEG_GND Demo.REFSEL_INTVCC1 S
           Demo.NumPins Demo.PinToAdcInput Demo.GetDeviceNumber
           Demo.GetInputNumber Demo.SetPinModeAIN
           3 (Some 4%nat) 5%nat 10 1000 Demo.Adcs 0%nat
           Demo_Adcs_within_bounds Demo_pin_3_input).
Defined.

Lemma enabled_pin_reads_as_enabled_witness :
  AnalogIn_IsChannelEnabled Demo.NumPins Demo.PinToAdcInput
    Demo.GetDeviceNumber Demo.GetInputNumber 3
    [construct 0%nat Demo.raw; Demo.one_channel] = Some true
  ∧ AnalogIn_ReadChannel Demo.GetDeviceNumber Demo.GetInputNumber
      (Demo.PinToAdcInput 3) [construct 0%nat Demo.raw; Demo.one_channel]
    = Some 0
  ∧ 3 < Demo.NumPins
  ∧ ∃ ain, Demo.PinToAdcInput 3 = Some ain ∧ Demo.GetInputNumber ain < 16.
Proof.
  exact (enabled_pin_reads_as_enabled
           Demo.PTAT_Val Demo.MUXNEG_GND Demo.REFSEL_INTVCC1 S
           Demo.NumPins Demo.PinToAdcInput Demo.GetDeviceNumber
           Demo.GetInputNumber Demo.SetPinModeAIN
           3 (Some 4%nat) 5%nat 10 1000 Demo.Adcs 0%nat
           [construct 0%nat Demo.raw; Demo.one_channel] 11%nat
           Demo_Adcs_within_bounds Demo_pin_3_input Demo_pin_3_run).
Defined.

Lemma AnalogIn_EnableTemperatureSensor_checks_the_ADC_number_witness :
  Forall within_bounds Demo.Adcs ∧ is_uint32 1 ∧ 0 ≤ 5
  ∧ ∃ r adcs' hw',
      AnalogIn_EnableTemperatureSensor Demo.PTAT_Val Demo.MUXNEG_GND
        Demo.REFSEL_INTVCC1 S 1 (Some 7%nat) 6%nat 0 5 1001 Demo.Adcs 0%nat
      = Some (r, adcs', hw')
      ∧ Forall within_bounds adcs'
      ∧ length adcs' = length Demo.Adcs
      ∧ (r = false → adcs' = Demo.Adcs ∧ hw' = 0%nat)
      ∧ (Z.of_nat (length Demo.Adcs) ≤ 5 → r = false)
      ∧ (2 ≤ 1 → r = false)
      ∧ (∀ i : nat, i ≠ Z.to_nat 5 → adcs' !! i = Demo.Adcs !! i).
Proof.
  assert (is_uint32 1) as Hsensor by (vm_compute; split; done).
  assert (0 ≤ 5) as Hnum by lia.
  split; [exact Demo_Adcs_within_bounds|]. split; [exact Hsensor|].
  split; [exact Hnum|].
  exact (AnalogIn_EnableTemperatureSensor_checks_the_ADC_number
           Demo.PTAT_Val Demo.MUXNEG_GND Demo.REFSEL_INTVCC1 S
           1 (Some 7%nat) 6%nat 0 5 1001 Demo.Adcs 0%nat
           Demo_Adcs_within_bounds Hsensor Hnum).
Defined.

(** Pin 3 is input 3 of the second ADC; pin 5 has no ADC input; the
    sensor of an ADC that does not exist is refused, that of the first
    ADC is enabled. *)
Example AnalogIn_namespace_runs :
  AnalogIn_EnableChannel Demo.MUXNEG_GND Demo.REFSEL_INTVCC1 S
    Demo.NumPins Demo.PinToAdcInput Demo.GetDeviceNumber Demo.GetInputNumber
    Demo.SetPinModeAIN 5 None 5%nat 10 1000 Demo.Adcs 0%nat
  = Some (false, Demo.Adcs, 0%nat)
  ∧ AnalogIn_IsChannelEnabled Demo.NumPins Demo.PinToAdcInput
      Demo.GetDeviceNumber Demo.GetInputNumber 3 Demo.Adcs = Some false
  ∧ AnalogIn_EnableTemperatureSensor Demo.PTAT_Val Demo.MUXNEG_GND
      Demo.REFSEL_INTVCC1 S 1 None 6%nat 0 2 1001 Demo.Adcs 0%nat
    = Some (false, Demo.Adcs, 0%nat)
  ∧ ∃ adcs',
      AnalogIn_EnableTemperatureSensor Demo.PTAT_Val Demo.MUXNEG_GND
        Demo.REFSEL_INTVCC1 S 1 None 6%nat 0 0 1001 Demo.Adcs 0%nat
      = Some (true, adcs', 1%nat)
      ∧ adcs' !! 1%nat = Demo.Adcs !! 1%nat.
Proof.
  split; [vm_compute; reflexivity|].
  split; [vm_compute; reflexivity|].
  split; [vm_compute; reflexivity|].
  eexists. split; [vm_compute; reflexivity|]. vm_compute. reflexivity.
Qed.

End AdcPinExamples.
